(** * webpack-bundle-analyzer: stats-to-tree composition engine

    A shallow embedding of [analyzer.js] (stats normalisation, module
    matching, chart-data projection), [tree/Folder.js] (the folder node of
    the composition tree) and of [updateChartData] in [viewer.js].

    Conventions.
    - A JavaScript string is a [string]; every [ascii] stands for one
      character with code below 256, so [String.length] is the value of
      [.length].  In that range the line terminators of the regular
      expression dialect are LF and CR, and case folding only identifies
      [A]-[Z] with [a]-[z].
    - Numbers that the program uses as sizes are integers, modelled in [Z];
      [0] is the only falsy one among them.
    - [undefined] is [None].  A thrown exception is [Throw].
    - Objects that are mutated in place are rebuilt: a getter that fills a
      cache returns the node with the cache filled.  An asset object that
      is pushed to a second list is one object in two places: what is
      assigned to it afterwards is assigned in both. *)

From Stdlib Require Import List String Ascii ZArith Bool Arith Lia.
From Stdlib Require Import DecimalString.
Import ListNotations.

#[local] Set Warnings "-register-all".
Local Open Scope string_scope.
Local Open Scope Z_scope.
Local Open Scope list_scope.

(** ** Values shared by the stats object and the tree *)

(** Chunk and module identifiers are numbers or strings; lodash compares
    them with SameValueZero, which never identifies a number with a
    string. *)
Inductive Id : Type :=
| IdNum (z : Z)
| IdStr (s : string).

Definition Id_eqb (a b : Id) : bool :=
  match a, b with
  | IdNum x, IdNum y => Z.eqb x y
  | IdStr x, IdStr y => String.eqb x y
  | _, _ => false
  end.

(** One module of the stats object.  [m_modules] is present for the modules
    that the build tool concatenated; [m_parsedSrc] is the slice that
    [getViewerData] attaches when bundles were parsed. *)
Inductive StatModule : Type := mkStatModule {
  m_id : Id;
  m_name : string;
  m_size : Z;
  m_chunks : list Id;
  m_modules : option (list StatModule);
  m_parsedSrc : option string
}.

(** ** Errors and the effect of reading a size *)

Inductive Error : Type :=
| TypeError          (* property access on [undefined] *)
| CompressionError.  (* the supplied compression function threw *)

Inductive Res (A : Type) : Type :=
| Ok (a : A)
| Throw (e : Error).
Arguments Ok {A} a.
Arguments Throw {A} e.

(** The compression function is supplied from outside.  It is called with
    a source text; what it answers may depend on everything it was asked
    before, and it may throw ([None]).  The texts it was called with are
    recorded, oldest first. *)
Definition Calls : Type := list string.
Definition Compressor : Type := Calls -> string -> option Z.

Record Opts : Type := mkOpts { compressedSize : Compressor }.

(** A computation that may call the compression function or throw. *)
Definition M (A : Type) : Type := Calls -> Res A * Calls.

Definition ret {A : Type} (a : A) : M A := fun calls => (Ok a, calls).

Definition throw {A : Type} (e : Error) : M A := fun calls => (Throw e, calls).

Definition bind {A B : Type} (m : M A) (k : A -> M B) : M B :=
  fun calls =>
    match m calls with
    | (Ok a, calls') => k a calls'
    | (Throw e, calls') => (Throw e, calls')
    end.

Notation "x <- m ;; k" := (bind m (fun x => k))
  (at level 61, m at next level, right associativity).
Notation "' p <- m ;; k" := (bind m (fun x => match x with p => k end))
  (at level 61, p pattern, m at next level, right associativity).

(** ** The composition tree *)

(** [Folder] is the class of [tree/Folder.js]: a name, the options the
    constructor was given, the own property [_gzipSize] ([f_gzip]) and the
    children mapping it inherits.  A folder holds no source text of its
    own.

    Modelled from the spec: the two leaf classes [Module] and
    [ConcatenatedModule] (their files are absent).  A leaf has a name, the
    stats record it was made from (its declared size and its optional
    source text) and the same lazily filled compressed-size cache; a
    concatenated leaf owns a nested mapping of children. *)
Inductive Node : Type :=
| Folder (name : string) (opts : option Opts) (f_gzip : option Z)
         (children : list (string * Node))
| Module (name : string) (data : StatModule) (opts : option Opts)
         (l_gzip : option Z)
| ConcatenatedModule (name : string) (data : StatModule) (opts : option Opts)
         (l_gzip : option Z) (children : list (string * Node)).

Definition node_name (n : Node) : string :=
  match n with
  | Folder name _ _ _ => name
  | Module name _ _ _ => name
  | ConcatenatedModule name _ _ _ _ => name
  end.

Definition node_children (n : Node) : list (string * Node) :=
  match n with
  | Folder _ _ _ ch => ch
  | Module _ _ _ _ => []
  | ConcatenatedModule _ _ _ _ ch => ch
  end.

Definition node_opts (n : Node) : option Opts :=
  match n with
  | Folder _ o _ _ => o
  | Module _ _ o _ => o
  | ConcatenatedModule _ _ o _ _ => o
  end.

(** JavaScript truthiness of a source text: [undefined] and the empty
    string are falsy. *)
Definition src_truthy (s : option string) : bool :=
  match s with
  | Some (String _ _) => true
  | _ => false
  end.

(** [src || ''] *)
Definition text_of (s : option string) : string :=
  match s with
  | Some t => t
  | None => EmptyString
  end.

(** Modelled from the spec: the accessor [src], which [Folder] inherits
    from the absent [BaseFolder] and never sets itself.  It is the
    node-specific source string of which the parsed size is the length: the
    source text attached to the node when there is one, and for a node
    without a text of its own (every folder, and a concatenated leaf whose
    record has none) the source strings of its children, in their order. *)
Fixpoint node_src (n : Node) : option string :=
  let walk :=
    fix walk (l : list (string * Node)) : string :=
      match l with
      | [] => EmptyString
      | (_, c) :: tl => (text_of (node_src c) ++ walk tl)%string
      end in
  match n with
  | Folder _ _ _ ch => Some (walk ch)
  | Module _ d _ _ => m_parsedSrc d
  | ConcatenatedModule _ d _ _ ch =>
      if src_truthy (m_parsedSrc d) then m_parsedSrc d else Some (walk ch)
  end.

(** The source strings of the children of a node, one after the other. *)
Definition children_src (ch : list (string * Node)) : string :=
  fold_right (fun kc acc => (text_of (node_src (snd kc)) ++ acc)%string)
    EmptyString ch.

Definition node_gzip_cache (n : Node) : option Z :=
  match n with
  | Folder _ _ g _ => g
  | Module _ _ _ g => g
  | ConcatenatedModule _ _ _ g _ => g
  end.

Definition set_gzip_cache (g : option Z) (n : Node) : Node :=
  match n with
  | Folder name o _ ch => Folder name o g ch
  | Module name d o _ => Module name d o g
  | ConcatenatedModule name d o _ ch => ConcatenatedModule name d o g ch
  end.

Definition is_folder (n : Node) : bool :=
  match n with
  | Folder _ _ _ _ => true
  | _ => false
  end.

(** [get parsedSize() { return this.src ? this.src.length : 0; }] *)
Definition parsedSize_of_src (s : option string) : Z :=
  match s with
  | Some src => if src_truthy s then Z.of_nat (String.length src) else 0
  | None => 0
  end.

(** The getter of [Folder]; the parsed size of a leaf is modelled from the
    spec as the same reading of its source string. *)
Definition parsedSize (n : Node) : Z := parsedSize_of_src (node_src n).

(** [get gzipSize()]: the cached value when [_gzipSize] is an own property;
    otherwise [this.opts.compressedSize(this.src)] for a truthy source and
    [0] for a falsy one, stored in [_gzipSize] before it is returned.
    Reading [compressedSize] from an undefined [opts] throws, and nothing is
    stored when the getter throws.  The result is the value together with
    the content of [_gzipSize] after the read. *)
Definition read_gzip (opts : option Opts) (src : option string)
    (cache : option Z) : M (Z * option Z) :=
  match cache with
  | Some v => ret (v, Some v)
  | None =>
      match src with
      | Some (String c s) =>
          match opts with
          | None => throw TypeError
          | Some o =>
              fun calls =>
                match compressedSize o calls (String c s) with
                | Some v => (Ok (v, Some v), calls ++ [String c s])
                | None => (Throw CompressionError, calls ++ [String c s])
                end
          end
      | _ => ret (0, Some 0)
      end
  end.

Definition gzipSize (n : Node) : M (Z * Node) :=
  '(v, g) <- read_gzip (node_opts n) (node_src n) (node_gzip_cache n) ;;
  ret (v, set_gzip_cache g n).

(** Modelled from the spec: the aggregate declared size ([size], read by
    [getViewerData] as [asset.tree.size] and projected as [statSize]) lives
    in the absent [BaseFolder] and [Module].  A folder stores no size of
    its own, its size is the sum of its children's; a leaf has the size its
    stats record declares. *)
Fixpoint size (n : Node) : Z :=
  match n with
  | Folder _ _ _ ch =>
      (fix sum (l : list (string * Node)) : Z :=
         match l with
         | [] => 0
         | (_, c) :: tl => size c + sum tl
         end) ch
  | Module _ d _ _ => m_size d
  | ConcatenatedModule _ d _ _ _ => m_size d
  end.

(** A JavaScript object used as a mapping from names to values: the keys
    are unique and are enumerated in the order they were first set (no key
    here is an array index).  [obj_set] is the assignment [obj[key] = v]. *)
Fixpoint obj_get {V : Type} (key : string) (obj : list (string * V))
    : option V :=
  match obj with
  | [] => None
  | (k, v) :: tl => if String.eqb k key then Some v else obj_get key tl
  end.

Fixpoint obj_set {V : Type} (key : string) (v : V) (obj : list (string * V))
    : list (string * V) :=
  match obj with
  | [] => [(key, v)]
  | (k, w) :: tl =>
      if String.eqb k key then (k, v) :: tl else (k, w) :: obj_set key v tl
  end.

(** Modelled from the spec: the children mapping of the absent
    [BaseFolder], a mapping from child name to node that keeps insertion
    order.  [getChild name] is [this.children[name]]. *)
Definition getChild (name : string) (ch : list (string * Node))
    : option Node := obj_get name ch.

Definition setChild (name : string) (n : Node) (ch : list (string * Node))
    : list (string * Node) := obj_set name n ch.

(** Modelled from the spec: [addChildFolder] and [addChildModule] of the
    absent [BaseFolder] put the node under its own name; a node that was
    there before is replaced. *)
Definition addChildFolder (folder : Node) (ch : list (string * Node))
    : list (string * Node) :=
  setChild (node_name folder) folder ch.

Definition addChildModule (module : Node) (ch : list (string * Node))
    : list (string * Node) :=
  setChild (node_name module) module ch.

Section Tree.

(** [getModulePathParts] of the absent [tree/utils]: the path-like
    identifier of a module split into segments, or [null]. *)
Variable getModulePathParts : StatModule -> option (list string).

(** The walk of [Folder.addModule] over the folder segments, followed by
    [currentFolder.addChildModule(module)].  [ch] is the children mapping
    of [currentFolder]; [opts] is [this.opts] of the folder [addModule]
    was called on, which every folder created on the way receives.  A
    child that is missing or is not a [Folder] gives way to a new, empty
    [Folder]. *)
Fixpoint insertModule (opts : option Opts) (folders : list string)
    (module : Node) (ch : list (string * Node)) : list (string * Node) :=
  match folders with
  | [] => addChildModule module ch
  | folderName :: rest =>
      match getChild folderName ch with
      | Some (Folder name o g sub) =>
          setChild folderName
            (Folder name o g (insertModule opts rest module sub)) ch
      | _ =>
          addChildFolder
            (Folder folderName opts None
               (insertModule opts rest module [])) ch
      end
  end.

(** [pathParts.slice(0, -1)] and [_.last(pathParts)].  The absent helper
    answers [null] rather than an empty array; for an empty array
    [_.last] is [undefined], which as a property key reads
    ["undefined"]. *)
Definition folders_of (pathParts : list string) : list string :=
  removelast pathParts.

Definition fileName_of (pathParts : list string) : string :=
  last pathParts "undefined".

(** [new ModuleConstructor(fileName, moduleData, this)].

    Modelled from the spec: the constructors are absent.  The leaf is
    concatenated when the record carries nested [modules], and then each
    nested module is inserted into the leaf's own sub-tree by the same
    rules; a nested module without a usable path contributes nothing. *)
Fixpoint newModule (opts : option Opts) (fileName : string)
    (moduleData : StatModule) {struct moduleData} : Node :=
  match moduleData with
  | mkStatModule _ _ _ _ None _ => Module fileName moduleData opts None
  | mkStatModule _ _ _ _ (Some ms) _ =>
      ConcatenatedModule fileName moduleData opts None
        ((fix fill (l : list StatModule) (ch : list (string * Node))
            : list (string * Node) :=
            match l with
            | [] => ch
            | m :: tl =>
                match getModulePathParts m with
                | None => fill tl ch
                | Some parts =>
                    fill tl
                      (insertModule opts (folders_of parts)
                         (newModule opts (fileName_of parts) m) ch)
                end
            end) ms [])
  end.

(** [Folder.prototype.addModule]. *)
Definition addModule (this : Node) (moduleData : StatModule) : Node :=
  match this with
  | Folder name opts g ch =>
      match getModulePathParts moduleData with
      | None => this
      | Some pathParts =>
          Folder name opts g
            (insertModule opts (folders_of pathParts)
               (newModule opts (fileName_of pathParts) moduleData) ch)
      end
  | _ => this
  end.

(** Modelled from the spec: [mergeNestedFolders] of the absent
    [BaseFolder].  A folder below the root whose only child is a folder
    takes that child's children and appends its name after a slash, as
    long as that is the case; the pass then continues in the children.
    The keys of a children mapping stay as they were. *)
Fixpoint mergeNested (n : Node) : Node :=
  match n with
  | Folder name o g ch =>
      match ch with
      | [(k, (Folder _ _ _ _) as only)] =>
          match mergeNested only with
          | Folder name' _ _ ch' =>
              Folder (name ++ "/" ++ name')%string o g ch'
          | other => Folder name o g [(k, other)]
          end
      | _ =>
          Folder name o g
            ((fix each (l : list (string * Node)) : list (string * Node) :=
                match l with
                | [] => []
                | (k, c) :: tl => (k, mergeNested c) :: each tl
                end) ch)
      end
  | Module _ _ _ _ => n
  | ConcatenatedModule name d o g ch =>
      ConcatenatedModule name d o g
        ((fix each (l : list (string * Node)) : list (string * Node) :=
            match l with
            | [] => []
            | (k, c) :: tl => (k, mergeNested c) :: each tl
            end) ch)
  end.

Definition mergeNestedFolders (root : Node) : Node :=
  match root with
  | Folder name o g ch =>
      Folder name o g (map (fun kc => (fst kc, mergeNested (snd kc))) ch)
  | _ => root
  end.

(** [createModulesTree]: the root is [new Folder('.')], with no second
    argument, so its [opts] is [undefined]. *)
Definition createModulesTree (modules : list StatModule) : Node :=
  mergeNestedFolders
    (fold_left addModule modules (Folder "." None None [])).

End Tree.

(** ** Chart data of a tree node *)

Inductive ChartData : Type := mkChartData {
  cd_label : string;
  cd_path : string;
  cd_statSize : Z;
  cd_parsedSize : option Z;
  cd_gzipSize : option Z;
  cd_groups : option (list ChartData)
}.

(** [Folder.prototype.toChartData]: the record of [super.toChartData()]
    first, then [parsedSize] and [gzipSize] of the folder itself.

    Modelled from the spec: [toChartData] of the absent [BaseFolder]
    ([label], [path], [statSize] and the projection of the children, in
    insertion order) and of the absent leaves ([parsedSize] only with a
    source text, [groups] only for a concatenated leaf).  The path of a
    node is the path of its parent, a slash and its name. *)
Fixpoint toChartData (parentPath : string) (n : Node) {struct n}
    : M (ChartData * Node) :=
  let path := (parentPath ++ "/" ++ node_name n)%string in
  let invokeMap :=
    fix invokeMap (l : list (string * Node))
        : M (list ChartData * list (string * Node)) :=
      match l with
      | [] => ret ([], [])
      | (k, c) :: tl =>
          '(cd, c') <- toChartData path c ;;
          '(cds, tl') <- invokeMap tl ;;
          ret (cd :: cds, (k, c') :: tl')
      end in
  match n with
  | Folder name o g ch =>
      '(groups, ch') <- invokeMap ch ;;
      '(v, g') <- read_gzip o (node_src n) g ;;
      ret (mkChartData name path (size n)
             (Some (parsedSize_of_src (node_src n))) (Some v) (Some groups),
           Folder name o g' ch')
  | Module name d o g =>
      '(v, g') <- read_gzip o (m_parsedSrc d) g ;;
      ret (mkChartData name path (m_size d)
             (if src_truthy (m_parsedSrc d)
              then Some (parsedSize_of_src (m_parsedSrc d)) else None)
             (Some v) None,
           Module name d o g')
  | ConcatenatedModule name d o g ch =>
      '(groups, ch') <- invokeMap ch ;;
      '(v, g') <- read_gzip o (node_src n) g ;;
      ret (mkChartData name path (m_size d)
             (if src_truthy (node_src n)
              then Some (parsedSize_of_src (node_src n)) else None)
             (Some v) (Some groups),
           ConcatenatedModule name d o g' ch')
  end.

(** [_.invokeMap(children, 'toChartData')] below a node with path
    [parentPath]. *)
Fixpoint invokeMap_toChartData (parentPath : string)
    (l : list (string * Node)) : M (list ChartData * list (string * Node)) :=
  match l with
  | [] => ret ([], [])
  | (k, c) :: tl =>
      '(cd, c') <- toChartData parentPath c ;;
      '(cds, tl') <- invokeMap_toChartData parentPath tl ;;
      ret (cd :: cds, (k, c') :: tl')
  end.

(** ** The stats object *)

Record Asset : Type := mkAsset {
  a_name : string;
  a_size : Z;
  a_chunks : list Id;
  a_isChild : bool
}.

Record Chunk : Type := mkChunk {
  c_id : Id;
  c_modules : option (list StatModule)
}.

(** [assetsByChunkName] maps a chunk name to a file name or to an array of
    file names; a single name is a one-element list here, which is what
    [_.flatten] makes of it. *)
Inductive Stats : Type := mkStats {
  s_assets : list Asset;
  s_chunks : option (list Chunk);
  s_modules : option (list StatModule);
  s_children : option (list Stats);
  s_assetsByChunkName : option (list (string * list string))
}.

Definition set_assets (assets : list Asset) (bs : Stats) : Stats :=
  mkStats assets (s_chunks bs) (s_modules bs) (s_children bs)
    (s_assetsByChunkName bs).

Definition set_children (children : option (list Stats)) (bs : Stats)
    : Stats :=
  mkStats (s_assets bs) (s_chunks bs) (s_modules bs) children
    (s_assetsByChunkName bs).

(** [asset.isChild = true] *)
Definition markChild (a : Asset) : Asset :=
  mkAsset (a_name a) (a_size a) (a_chunks a) true.

(** Every asset object that a stats object holds, changed in place. *)
Definition eachAsset (f : Asset -> Asset) (bs : Stats) : Stats :=
  set_assets (map f (s_assets bs)) bs.

(** An array in which the object at index [i] has been changed in place;
    there is nothing to change at an index out of range. *)
Fixpoint update_nth {A : Type} (i : nat) (f : A -> A) (l : list A)
    : list A :=
  match l, i with
  | [], _ => []
  | x :: tl, O => f x :: tl
  | x :: tl, S j => x :: update_nth j f tl
  end.

(** [child.assets.forEach(asset => { asset.isChild = true;
    bundleStats.assets.push(asset); })] for [child], the object at index
    [i] of [bundleStats.children].  The objects pushed are the very objects
    the child holds, so the flag shows in the child's list as well. *)
Definition pushChildAssets (i : nat) (child : Stats) (bundleStats : Stats)
    : Stats :=
  set_children
    (option_map (update_nth i (eachAsset markChild)) (s_children bundleStats))
    (set_assets (s_assets bundleStats ++ map markChild (s_assets child))
       bundleStats).

(** [bundleStats.children.forEach(child => ...)] of the second branch, from
    index [i] on. *)
Fixpoint pushEach (i : nat) (children : list Stats) (bundleStats : Stats)
    : Stats :=
  match children with
  | [] => bundleStats
  | child :: rest => pushEach (S i) rest (pushChildAssets i child bundleStats)
  end.

(** [_.isEmpty] of an array that may be [undefined]. *)
Definition isEmpty {A : Type} (l : option (list A)) : bool :=
  match l with
  | Some (_ :: _) => false
  | _ => true
  end.

(** The loop [for (let i = 1; i < children.length; i++)] of the first
    branch, over the indices still to visit.  [bundleStats] has been
    reassigned to the first child by then, and the body reads
    [bundleStats.children[i].assets]: the children of the first child.
    Indexing [undefined] throws, and so does reading [assets] of the
    [undefined] that an index out of range yields. *)
Fixpoint appendFromIndices (indices : list nat) (bundleStats : Stats)
    : Res Stats :=
  match indices with
  | [] => Ok bundleStats
  | i :: rest =>
      match s_children bundleStats with
      | None => Throw TypeError
      | Some own =>
          match nth_error own i with
          | None => Throw TypeError
          | Some child =>
              appendFromIndices rest (pushChildAssets i child bundleStats)
          end
      end
  end.

(** Lines 107-127 of [getViewerData]: where the assets come from when the
    stats object has [children]. *)
Definition normalizeChildren (bundleStats : Stats) : Res Stats :=
  match s_assets bundleStats, s_children bundleStats with
  | [], Some (first :: others) =>
      appendFromIndices (seq 1 (List.length others)) first
  | _, Some (first :: others) => Ok (pushEach 0 (first :: others) bundleStats)
  | _, _ => Ok bundleStats
  end.

(** The indices, among the children of the stats object that
    [normalizeChildren] answers, of the children whose assets it pushed. *)
Definition pushedChildren (bundleStats : Stats) : list nat :=
  match s_assets bundleStats, s_children bundleStats with
  | [], Some (first :: others) => seq 1 (List.length others)
  | _, Some children => seq 0 (List.length children)
  | _, _ => []
  end.

(** ** File names *)

Definition is_line_terminator (c : ascii) : bool :=
  Ascii.eqb c "010" || Ascii.eqb c "013".

Fixpoint has_line_terminator (s : string) : bool :=
  match s with
  | EmptyString => false
  | String c rest => is_line_terminator c || has_line_terminator rest
  end.

(** [name.replace(/\?.*$/u, '')]: the leftmost question mark from which the
    dot can run to the end of the name, that is, with no line terminator
    after it, and everything behind it are removed. *)
Fixpoint strip_query (name : string) : string :=
  match name with
  | EmptyString => EmptyString
  | String c rest =>
      if Ascii.eqb c "?" && negb (has_line_terminator rest)
      then EmptyString
      else String c (strip_query rest)
  end.

Definition to_lower (c : ascii) : ascii :=
  let n := nat_of_ascii c in
  if (65 <=? n)%nat && (n <=? 90)%nat then ascii_of_nat (n + 32) else c.

Fixpoint lower (s : string) : string :=
  match s with
  | EmptyString => EmptyString
  | String c rest => String (to_lower c) (lower rest)
  end.

Fixpoint ends_with (suffix s : string) : bool :=
  String.eqb s suffix ||
  match s with
  | EmptyString => false
  | String _ rest => ends_with suffix rest
  end.

(** [/\.(js|mjs|gz|br)$/iu.test(name)] *)
Definition extensions : list string := [".js"; ".mjs"; ".gz"; ".br"]%string.

Definition FILENAME_EXTENSIONS_test (name : string) : bool :=
  existsb (fun ext => ends_with ext (lower name)) extensions.

Definition rename (name : string) (a : Asset) : Asset :=
  mkAsset name (a_size a) (a_chunks a) (a_isChild a).

(** ** Module matching *)

(** What the lodash chain of [getBundleModules] holds before [compact]:
    the [modules] of a chunk (an array or [undefined]), [undefined] for a
    missing top-level [modules], or one module of the top-level list,
    which [concat] has spread. *)
Inductive PoolItem : Type :=
| ItemUndefined
| ItemArray (ms : list StatModule)
| ItemModule (m : StatModule).

Definition map_modules (chunks : option (list Chunk)) : list PoolItem :=
  match chunks with
  | None => []
  | Some cs =>
      map (fun c => match c_modules c with
                    | None => ItemUndefined
                    | Some ms => ItemArray ms
                    end) cs
  end.

Definition concat_modules (items : list PoolItem)
    (modules : option (list StatModule)) : list PoolItem :=
  items ++ match modules with
           | None => [ItemUndefined]
           | Some ms => map ItemModule ms
           end.

(** [compact] drops the falsy entries, here the [undefined] ones; what is
    left is an array of modules or a module. *)
Fixpoint compact (items : list PoolItem) : list (list StatModule + StatModule) :=
  match items with
  | [] => []
  | ItemUndefined :: tl => compact tl
  | ItemArray ms :: tl => inl ms :: compact tl
  | ItemModule m :: tl => inr m :: compact tl
  end.

(** [flatten] spreads the arrays, one level deep. *)
Fixpoint flatten (items : list (list StatModule + StatModule))
    : list StatModule :=
  match items with
  | [] => []
  | inl ms :: tl => ms ++ flatten tl
  | inr m :: tl => m :: flatten tl
  end.

(** [uniqBy('id')]: an element is kept when no element kept before it has
    its id. *)
Fixpoint uniqBy_id_from (seen : list Id) (l : list StatModule)
    : list StatModule :=
  match l with
  | [] => []
  | m :: tl =>
      if existsb (Id_eqb (m_id m)) seen
      then uniqBy_id_from seen tl
      else m :: uniqBy_id_from (m_id m :: seen) tl
  end.

Definition uniqBy_id (l : list StatModule) : list StatModule :=
  uniqBy_id_from [] l.

Definition getBundleModules (bundleStats : Stats) : list StatModule :=
  uniqBy_id
    (flatten
       (compact
          (concat_modules (map_modules (s_chunks bundleStats))
             (s_modules bundleStats)))).

Definition includes (ids : list Id) (x : Id) : bool := existsb (Id_eqb x) ids.

(** [_.some(statModule.chunks, c => _.includes(statAsset.chunks, c))] *)
Definition assetHasModule (statAsset : Asset) (statModule : StatModule)
    : bool :=
  existsb (includes (a_chunks statAsset)) (m_chunks statModule).

(** [_(modules).filter(statModule => assetHasModule(statAsset, statModule))] *)
Definition pickModules (statAsset : Asset) (modules : list StatModule)
    : list StatModule :=
  filter (assetHasModule statAsset) modules.

(** [_.find(bundleStats.children, c => _(c.assetsByChunkName).values()
    .flatten().includes(assetName))] *)
Definition names_assetsByChunkName (c : Stats) : list string :=
  match s_assetsByChunkName c with
  | None => []
  | Some byName => List.concat (map snd byName)
  end.

Definition mentions_asset (assetName : string) (c : Stats) : bool :=
  existsb (String.eqb assetName) (names_assetsByChunkName c).

Definition getChildAssetBundles (bundleStats : Stats) (assetName : string)
    : option Stats :=
  match s_children bundleStats with
  | None => None
  | Some cs => find (mentions_asset assetName) cs
  end.

(** ** [getViewerData] *)

(** What the bundle parser found: [bundlesSources] maps an asset name to
    the source text of the bundle, [parsedModules] a module id to its
    slice. *)
Record Parsed : Type := mkParsed {
  bundlesSources : list (string * string);
  parsedModules : list (Id * string)
}.

(** The property key an identifier stands for: a number is the key that
    reads as its decimal numeral, so that the number [0] and the string
    ["0"] name one property. *)
Definition key_of_id (id : Id) : string :=
  match id with
  | IdNum z => NilZero.string_of_int (Z.to_int z)
  | IdStr s => s
  end.

(** [parsedModules[statModule.id]] *)
Fixpoint lookup_id (id : Id) (l : list (Id * string)) : option string :=
  match l with
  | [] => None
  | (k, v) :: tl =>
      if String.eqb (key_of_id k) (key_of_id id) then Some v
      else lookup_id id tl
  end.

(** The entry of the intermediate object [assets], keyed by asset name. *)
Record AssetEntry : Type := mkAssetEntry {
  e_size : Z;
  e_parsedSize : option Z;
  e_gzipSize : option Z;
  e_modules : list StatModule;
  e_tree : Node
}.

(** One record of the chart-data array. *)
Record AssetChart : Type := mkAssetChart {
  ac_label : string;
  ac_isAsset : bool;
  ac_statSize : Z;
  ac_parsedSize : option Z;
  ac_gzipSize : option Z;
  ac_groups : list ChartData
}.

(** [a || b] on sizes. *)
Definition js_or (a b : Z) : Z := if Z.eqb a 0 then b else a.

Definition set_parsedSrc (src : option string) (m : StatModule) : StatModule :=
  mkStatModule (m_id m) (m_name m) (m_size m) (m_chunks m) (m_modules m) src.

Section Analyzer.

Variable getModulePathParts : StatModule -> option (list string).

(** The exclusion patterns a caller passes as [excludeAssets] (a string,
    a regular expression or a function each) and the test the absent
    [createAssetsFilter] derives from one pattern. *)
Variable Pattern : Type.
Variable pattern_test : Pattern -> string -> bool.

(** [parseBundle] of the absent [parseUtils], for a bundle directory and
    an asset name: the source text of the bundle with the slices of its
    modules, or [None] when it throws.  [Buffer.byteLength] and the
    synchronous gzip size of a text. *)
Variable parseBundle :
  string -> string -> option (string * list (Id * string)).
Variable byteLength : string -> Z.
Variable gzipSync : string -> Z.

(** Modelled from the spec: [createAssetsFilter] of the absent [utils].
    An asset passes when no exclusion pattern matches its name; with no
    pattern every asset passes. *)
Definition createAssetsFilter (excludeAssets : list Pattern)
    : string -> bool :=
  fun name => forallb (fun p => negb (pattern_test p name)) excludeAssets.

(** The callback of [_.filter] at lines 130-136, on the asset whose name
    has already been rewritten. *)
Definition keepAsset (isAssetIncluded : string -> bool) (asset : Asset)
    : bool :=
  FILENAME_EXTENSIONS_test (a_name asset)
  && negb (isEmpty (Some (a_chunks asset)))
  && isAssetIncluded (a_name asset).

Definition stripAsset (asset : Asset) : Asset :=
  rename (strip_query (a_name asset)) asset.

Definition filterAssets (isAssetIncluded : string -> bool)
    (assets : list Asset) : list Asset :=
  filter (keepAsset isAssetIncluded) (map stripAsset assets).

(** The loop over [bundleStats.assets] at lines 146-160: an asset whose
    bundle cannot be parsed is skipped; [_.assign] lets the slices of a
    later bundle override those of an earlier one. *)
Fixpoint parseAssets (bundleDir : string) (assets : list Asset)
    (acc : Parsed) : Parsed :=
  match assets with
  | [] => acc
  | statAsset :: tl =>
      match parseBundle bundleDir (a_name statAsset) with
      | None => parseAssets bundleDir tl acc
      | Some (src, modules) =>
          parseAssets bundleDir tl
            (mkParsed (obj_set (a_name statAsset) src (bundlesSources acc))
               (modules ++ parsedModules acc))
      end
  end.

(** Lines 139-167: nothing is parsed without a bundle directory, and a
    run in which no bundle could be parsed counts as none. *)
Definition parseBundles (bundleDir : option string) (assets : list Asset)
    : option Parsed :=
  match bundleDir with
  | Some (String c dir) =>
      let parsed := parseAssets (String c dir) assets (mkParsed [] []) in
      match bundlesSources parsed with
      | [] => None
      | _ :: _ => Some parsed
      end
  | _ => None
  end.

(** [if (parsedModules) statModule.parsedSrc = parsedModules[statModule.id]] *)
Definition attachSrc (parsed : option Parsed) (m : StatModule) : StatModule :=
  match parsed with
  | None => m
  | Some p => set_parsedSrc (lookup_id (m_id m) (parsedModules p)) m
  end.

(** The pool of modules an asset is matched against (lines 171-172). *)
Definition assetPool (bundleStats : Stats) (statAsset : Asset)
    : list StatModule :=
  let assetBundles :=
    if a_isChild statAsset
    then getChildAssetBundles bundleStats (a_name statAsset)
    else Some bundleStats in
  match assetBundles with
  | Some b => getBundleModules b
  | None => []
  end.

(** The modules picked for an asset (lines 181-187). *)
Definition assetModules (bundleStats : Stats) (parsed : option Parsed)
    (statAsset : Asset) : list StatModule :=
  map (attachSrc parsed)
    (pickModules statAsset (assetPool bundleStats statAsset)).

(** The body of the first [_.transform] (lines 169-190). *)
Definition assetEntry (bundleStats : Stats) (parsed : option Parsed)
    (statAsset : Asset) : AssetEntry :=
  let source :=
    match parsed with
    | Some p => obj_get (a_name statAsset) (bundlesSources p)
    | None => None
    end in
  let modules := assetModules bundleStats parsed statAsset in
  mkAssetEntry (a_size statAsset)
    (option_map byteLength source)
    (option_map gzipSync source)
    modules
    (createModulesTree getModulePathParts modules).

Definition collectAssets (bundleStats : Stats) (parsed : option Parsed)
    : list (string * AssetEntry) :=
  fold_left
    (fun result statAsset =>
       obj_set (a_name statAsset) (assetEntry bundleStats parsed statAsset)
         result)
    (s_assets bundleStats) [].

(** The record pushed by the second [_.transform] (lines 192-205). *)
Definition projectAsset (filename : string) (asset : AssetEntry)
    : M AssetChart :=
  '(groups, _) <- invokeMap_toChartData (node_name (e_tree asset))
                    (node_children (e_tree asset)) ;;
  ret (mkAssetChart filename true
         (js_or (size (e_tree asset)) (e_size asset))
         (e_parsedSize asset) (e_gzipSize asset) groups).

Fixpoint projectAssets (assets : list (string * AssetEntry))
    : M (list AssetChart) :=
  match assets with
  | [] => ret []
  | (filename, asset) :: tl =>
      r <- projectAsset filename asset ;;
      rs <- projectAssets tl ;;
      ret (r :: rs)
  end.

(** What the callback of [_.filter] leaves in the children: it renames
    every asset of the list in place, and the assets that were pushed are
    objects of the children at the indices [pushed]. *)
Definition stripPushed (pushed : list nat) (working : Stats) : Stats :=
  set_children
    (option_map
       (fun children =>
          fold_left (fun l i => update_nth i (eachAsset stripAsset) l)
            pushed children)
       (s_children working))
    working.

(** The stats object after lines 107-136. *)
Definition normalizeStats (bundleStats : Stats)
    (excludeAssets : list Pattern) : Res Stats :=
  match normalizeChildren bundleStats with
  | Throw e => Throw e
  | Ok working =>
      Ok (set_assets
            (filterAssets (createAssetsFilter excludeAssets)
               (s_assets working))
            (stripPushed (pushedChildren bundleStats) working))
  end.

Definition getViewerData (bundleStats : Stats) (bundleDir : option string)
    (excludeAssets : list Pattern) : M (list AssetChart) :=
  match normalizeStats bundleStats excludeAssets with
  | Throw e => throw e
  | Ok working =>
      let parsed := parseBundles bundleDir (s_assets working) in
      projectAssets (collectAssets working parsed)
  end.

(** ** The live-update channel of [viewer.js] *)

(** [isPlainObject] of what [getChartData] holds at that point: [null]
    or the array [getViewerData] returned, neither of them a plain
    object. *)
Definition isPlainObject (chartData : option (list AssetChart)) : bool :=
  false.

(** [getChartData]: [null] when the analysis threw. *)
Definition getChartData (excludeAssets : list Pattern) (bundleStats : Stats)
    (bundleDir : option string) (calls : Calls)
    : option (list AssetChart) * Calls :=
  let '(chartData, calls') :=
    match getViewerData bundleStats bundleDir excludeAssets calls with
    | (Ok data, calls') => (Some data, calls')
    | (Throw _, calls') => (None, calls')
    end in
  if isPlainObject chartData
     && match chartData with Some [] => true | _ => false end
  then (None, calls')
  else (chartData, calls').

End Analyzer.

(** ** Exclusion patterns *)

(** [p] occurs in [s]. *)
Fixpoint is_substring (p s : string) : bool :=
  String.prefix p s ||
  match s with
  | EmptyString => false
  | String _ rest => is_substring p rest
  end.

Section Patterns.

(** Regular expressions and their [test] are those of the language. *)
Variable RegExp : Type.
Variable regexp_test : RegExp -> string -> bool.

(** Modelled from the spec: what the absent [createAssetsFilter] makes of
    one pattern of [excludeAssets].  A pattern is a string, a regular
    expression or a function over the file name.  A regular expression
    excludes the names it matches and a function the names for which it
    answers [true].  A string excludes the names in which it occurs: the
    exclusion by the string ["manifest"] has the script [manifest.js] as
    its target (section 8 of the spec, and the test of [excludeAssets] in
    [test/plugin.js], which is left with [bundle.js] alone), and no name
    that passes the test of the extensions is that string itself. *)
Inductive ExcludePattern : Type :=
| PString (s : string)
| PRegExp (r : RegExp)
| PFunction (f : string -> bool).

Definition exclude_test (p : ExcludePattern) (name : string) : bool :=
  match p with
  | PString s => is_substring s name
  | PRegExp r => regexp_test r name
  | PFunction f => f name
  end.

End Patterns.

Arguments PString {RegExp} s.
Arguments PRegExp {RegExp} r.
Arguments PFunction {RegExp} f.

Inductive ReadyState : Type := CONNECTING | OPEN | CLOSING | CLOSED.

(** The message [{event, data}] handed to [client.send]. *)
Record Message : Type := mkMessage {
  msg_event : string;
  msg_data : list AssetChart
}.

(** A client of the WebSocket server with the messages sent to it so far,
    oldest first. *)
Record Client : Type := mkClient {
  readyState : ReadyState;
  sent : list Message
}.

(** The state [updateChartData] closes over: the chart data the server
    holds and [wss.clients]. *)
Record Server : Type := mkServer {
  chartData : list AssetChart;
  clients : list Client
}.

Definition is_open (c : Client) : bool :=
  match readyState c with
  | OPEN => true
  | _ => false
  end.

Definition send (m : Message) (c : Client) : Client :=
  mkClient (readyState c) (sent c ++ [m]).

Definition broadcast (m : Message) (cs : list Client) : list Client :=
  map (fun c => if is_open c then send m c else c) cs.

Section Viewer.

Variable getModulePathParts : StatModule -> option (list string).
Variable Pattern : Type.
Variable pattern_test : Pattern -> string -> bool.
Variable parseBundle :
  string -> string -> option (string * list (Id * string)).
Variable byteLength : string -> Z.
Variable gzipSync : string -> Z.

(** [updateChartData], with the options [startServer] was given. *)
Definition updateChartData (excludeAssets : list Pattern)
    (bundleDir : option string) (server : Server) (bundleStats : Stats)
    (calls : Calls) : Server * Calls :=
  match getChartData getModulePathParts Pattern pattern_test parseBundle
          byteLength gzipSync excludeAssets bundleStats bundleDir calls with
  | (None, calls') => (server, calls')
  | (Some newChartData, calls') =>
      (mkServer newChartData
         (broadcast (mkMessage "chartDataUpdated" newChartData)
            (clients server)),
       calls')
  end.

End Viewer.

(** ** Sample data

    An instance of the absent path helper, for the worked examples: the
    module name split at slashes without its first segment, [null] when
    nothing is left. *)
Fixpoint split_slash (s : string) (cur : string) : list string :=
  match s with
  | EmptyString => [cur]
  | String c rest =>
      if Ascii.eqb c "/"
      then cur :: split_slash rest EmptyString
      else split_slash rest (cur ++ String c EmptyString)%string
  end.

Definition sample_pathParts (m : StatModule) : option (list string) :=
  match split_slash (m_name m) EmptyString with
  | _ :: p :: tl => Some (p :: tl)
  | _ => None
  end.

(** A bundle parser that finds no bundle, and the length of a text for
    its byte length and for its compressed size.  The examples exclude
    assets by strings, searched in the name. *)
Definition sample_parseBundle (dir name : string)
    : option (string * list (Id * string)) := None.

Definition sample_byteLength (s : string) : Z := Z.of_nat (String.length s).

Definition sample_gzipSync (s : string) : Z := Z.of_nat (String.length s).

Definition sample_getViewerData :=
  getViewerData sample_pathParts string is_substring sample_parseBundle
    sample_byteLength sample_gzipSync.

Definition plain_module (id : Z) (name : string) (sz : Z) (chunks : list Id)
    : StatModule :=
  mkStatModule (IdNum id) name sz chunks None None.

Definition leaf_stats (assets : list Asset) (modules : list StatModule)
    : Stats :=
  mkStats assets (Some [mkChunk (IdNum 0) (Some modules)]) None (Some []) None.

(** ** Notions used in the statements *)

(** [Subseq l1 l2]: [l1] is [l2] with some elements left out, the others in
    their order. *)
Inductive Subseq {A : Type} : list A -> list A -> Prop :=
| Subseq_nil : Subseq [] []
| Subseq_skip (x : A) (l1 l2 : list A) : Subseq l1 l2 -> Subseq l1 (x :: l2)
| Subseq_keep (x : A) (l1 l2 : list A) :
    Subseq l1 l2 -> Subseq (x :: l1) (x :: l2).

(** The modules of every chunk followed by the top-level modules, as the
    spec words the pool. *)
Definition chunk_modules (c : Chunk) : list StatModule :=
  match c_modules c with
  | Some ms => ms
  | None => []
  end.

Definition spec_pool (bundleStats : Stats) : list StatModule :=
  List.concat
    (map chunk_modules
       (match s_chunks bundleStats with Some cs => cs | None => [] end))
  ++ match s_modules bundleStats with Some ms => ms | None => [] end.

Definition first_with_id (id : Id) (pool : list StatModule)
    : option StatModule :=
  find (fun m => Id_eqb (m_id m) id) pool.

Fixpoint has_char (c : ascii) (s : string) : bool :=
  match s with
  | EmptyString => false
  | String c' rest => Ascii.eqb c' c || has_char c rest
  end.

(** The children mapping reached from [ch] by following folders that are
    already there. *)
Fixpoint descend (folders : list string) (ch : list (string * Node))
    : option (list (string * Node)) :=
  match folders with
  | [] => Some ch
  | f :: rest =>
      match getChild f ch with
      | Some (Folder _ _ _ sub) => descend rest sub
      | _ => None
      end
  end.

(** The source text attached to the node itself: a folder has none, a leaf
    has the one of its record. *)
Definition own_src (n : Node) : option string :=
  match n with
  | Folder _ _ _ _ => None
  | Module _ d _ _ => m_parsedSrc d
  | ConcatenatedModule _ d _ _ _ => m_parsedSrc d
  end.

(** The sum of the parsed sizes of the children of a node. *)
Definition children_parsedSize (ch : list (string * Node)) : Z :=
  fold_right (fun kc acc => parsedSize (snd kc) + acc) 0 ch.

(** *** File names, as the statements describe them *)

Definition no_line_terminator (q : string) : Prop :=
  forall c, In c (list_ascii_of_string q) -> c <> "010"%char /\ c <> "013"%char.

(** [name] is [pre], a question mark and [q], and [q] runs to the end of
    the name on one line: a query part starts behind [pre]. *)
Definition QueryAt (name pre q : string) : Prop :=
  name = (pre ++ String "?" q)%string /\ no_line_terminator q.

(** [stripped] is [name] without its query part: [name] up to the first
    question mark that starts a query part, and all of [name] when none
    does. *)
Definition Stripped (name stripped : string) : Prop :=
  (exists q,
      QueryAt name stripped q
      /\ forall pre q',
           QueryAt name pre q' ->
           (String.length stripped <= String.length pre)%nat)
  \/ (stripped = name /\ forall pre q, ~ QueryAt name pre q).

(** The letters in their two cases, capital first. *)
Definition letters : list (ascii * ascii) :=
  combine (list_ascii_of_string "ABCDEFGHIJKLMNOPQRSTUVWXYZ")
    (list_ascii_of_string "abcdefghijklmnopqrstuvwxyz").

Definition SameLetter (c d : ascii) : Prop :=
  c = d \/ In (c, d) letters \/ In (d, c) letters.

(** Two texts that differ in the case of their letters at most. *)
Inductive SameText : string -> string -> Prop :=
| SameText_nil : SameText EmptyString EmptyString
| SameText_cons (c d : ascii) (s t : string) :
    SameLetter c d -> SameText s t -> SameText (String c s) (String d t).

Definition EndsIgnoringCase (ext name : string) : Prop :=
  exists pre suf, name = (pre ++ suf)%string /\ SameText suf ext.

(** The pattern [p] excludes the file name [name]. *)
Definition Excludes {RegExp : Type} (regexp_test : RegExp -> string -> bool)
    (p : ExcludePattern RegExp) (name : string) : Prop :=
  match p with
  | PString s => exists pre post, name = (pre ++ s ++ post)%string
  | PRegExp r => regexp_test r name = true
  | PFunction f => f name = true
  end.

(** An asset of the list handed to the filter and what the filter makes of
    it when it retains it: the name without its query part, all else as it
    was. *)
Definition Renamed (a0 a : Asset) : Prop :=
  Stripped (a_name a0) (a_name a)
  /\ a_size a = a_size a0
  /\ a_chunks a = a_chunks a0
  /\ a_isChild a = a_isChild a0.

(** A tree in which no source text is attached to any node, so that no
    node has a source string, and no cache holds anything but the [0] such
    a node caches. *)
Definition cache_clear (g : option Z) : bool :=
  match g with
  | None => true
  | Some v => Z.eqb v 0
  end.

Fixpoint sourceless (n : Node) : bool :=
  let all :=
    fix all (l : list (string * Node)) : bool :=
      match l with
      | [] => true
      | (_, c) :: tl => sourceless c && all tl
      end in
  match n with
  | Folder _ _ g ch => cache_clear g && all ch
  | Module _ d _ g => negb (src_truthy (m_parsedSrc d)) && cache_clear g
  | ConcatenatedModule _ d _ g ch =>
      negb (src_truthy (m_parsedSrc d)) && cache_clear g && all ch
  end.

Fixpoint node_count (n : Node) : nat :=
  let count :=
    fix count (l : list (string * Node)) : nat :=
      match l with
      | [] => O
      | (_, c) :: tl => (node_count c + count tl)%nat
      end in
  match n with
  | Folder _ _ _ ch => S (count ch)
  | Module _ _ _ _ => 1%nat
  | ConcatenatedModule _ _ _ _ ch => S (count ch)
  end.

(** Induction over a tree together with its children mappings. *)
Section NodeInduction.

Variable P : Node -> Prop.
Hypothesis P_Folder : forall name o g ch,
  Forall (fun kc => P (snd kc)) ch -> P (Folder name o g ch).
Hypothesis P_Module : forall name d o g, P (Module name d o g).
Hypothesis P_Concatenated : forall name d o g ch,
  Forall (fun kc => P (snd kc)) ch -> P (ConcatenatedModule name d o g ch).

Fixpoint Node_children_ind (n : Node) : P n :=
  let each :=
    fix each (l : list (string * Node)) : Forall (fun kc => P (snd kc)) l :=
      match l with
      | [] => Forall_nil _
      | kc :: tl =>
          Forall_cons kc
            (match kc as p return P (snd p) with
             | (_, c) => Node_children_ind c
             end)
            (each tl)
      end in
  match n with
  | Folder name o g ch => P_Folder name o g ch (each ch)
  | Module name d o g => P_Module name d o g
  | ConcatenatedModule name d o g ch => P_Concatenated name d o g ch (each ch)
  end.

End NodeInduction.

(** ** Inputs of the worked examples *)

(** A module [./src/a.js] with the two-character source text ["ab"], the
    leaf made of it, and the folder [src] that holds it in the tree of the
    module. *)
Definition c1_module : StatModule :=
  mkStatModule (IdNum 1) "./src/a.js" 50 [IdNum 0] None (Some "ab"%string).

Definition c1_leaf : Node := Module "a.js" c1_module None None.

Definition c1_folder : Node :=
  Folder "src" None None [("a.js"%string, c1_leaf)].

Definition c1_tree : Node := createModulesTree sample_pathParts [c1_module].

(** A build with a second chunk for the manifest, analysed with
    [excludeAssets: 'manifest']. *)
Definition c4_bundle : Asset := mkAsset "bundle.js" 141 [IdNum 0] false.

Definition c4_manifest : Asset := mkAsset "manifest.js" 10 [IdNum 1] false.

Definition c4_patterns : list (ExcludePattern unit) := [PString "manifest"].

Definition c4_filter : string -> bool :=
  createAssetsFilter (ExcludePattern unit)
    (exclude_test unit (fun _ _ => false)) c4_patterns.

Definition c2_stats : Stats :=
  leaf_stats [mkAsset "bundle.js" 100 [IdNum 0] false]
    [plain_module 1 "./a.js" 0 [IdNum 0]].

Definition c3_first : Stats := leaf_stats [mkAsset "a.js" 10 [IdNum 0] false] [].

Definition c3_second : Stats := leaf_stats [mkAsset "b.js" 20 [IdNum 1] false] [].

Definition c3_stats : Stats := mkStats [] None None (Some [c3_first; c3_second]) None.

Definition c3_first_bare : Stats :=
  mkStats [mkAsset "a.js" 10 [IdNum 0] false] None None None None.

Definition c3_stats_bare : Stats :=
  mkStats [] None None (Some [c3_first_bare; c3_second]) None.

Definition c3_grandchild (name : string) : Stats :=
  leaf_stats [mkAsset name 5 [IdNum 2] false] [].

Definition c3_first_nested : Stats :=
  mkStats [mkAsset "a.js" 10 [IdNum 0] false] None None
    (Some [c3_grandchild "g0.js"; c3_grandchild "g1.js"]) None.

Definition c3_stats_nested : Stats :=
  mkStats [] None None (Some [c3_first_nested; c3_second]) None.

Definition c9_stats : Stats := mkStats [] None None None None.

Definition c9_held : list AssetChart :=
  [mkAssetChart "bundle.js" true 141 None None []].

Definition c9_server : Server :=
  mkServer c9_held [mkClient OPEN []; mkClient CLOSING []; mkClient OPEN []].

(** [assetsByChunkName] of the stats object [c] maps some chunk name to the
    asset name. *)
Definition maps_to_asset (c : Stats) (assetName : string) : Prop :=
  exists byName chunkName files,
    s_assetsByChunkName c = Some byName
    /\ In (chunkName, files) byName
    /\ In assetName files.

Definition c6_asset : Asset := mkAsset "child.js" 30 [IdNum 7] true.

Definition c6_module : StatModule := plain_module 9 "./lib/c.js" 12 [IdNum 7].

Definition c6_other : Stats :=
  mkStats [] (Some [mkChunk (IdNum 7) (Some [plain_module 8 "./x.js" 1 [IdNum 7]])])
    None None (Some [("other"%string, ["other.js"%string])]).

Definition c6_child : Stats :=
  mkStats [] (Some [mkChunk (IdNum 7) (Some [c6_module])]) None None
    (Some [("main"%string, ["child.css"%string; "child.js"%string])]).

Definition c6_stats : Stats :=
  mkStats [c6_asset]
    (Some [mkChunk (IdNum 7) (Some [plain_module 1 "./top.js" 3 [IdNum 7]])])
    None (Some [c6_other; c6_child]) None.

Definition c7_first : StatModule := plain_module 1 "./src" 5 [IdNum 0].

Definition c7_second : StatModule := plain_module 2 "./src/a.js" 7 [IdNum 0].

Definition c7_root : Node :=
  addModule sample_pathParts (Folder "." None None []) c7_first.

(** The sums and counts over a children mapping that [size], [node_count]
    and [sourceless] take inside a node. *)
Definition sum_sizes (ch : list (string * Node)) : Z :=
  fold_right (fun kc acc => size (snd kc) + acc) 0 ch.

Definition count_nodes (ch : list (string * Node)) : nat :=
  fold_right (fun kc acc => (node_count (snd kc) + acc)%nat) O ch.

Definition all_sourceless (ch : list (string * Node)) : bool :=
  forallb (fun kc => sourceless (snd kc)) ch.

(** A compression function whose answer changes with every call: the
    length of the text plus the number of calls made before. *)
Definition c8_compressor : Compressor :=
  fun calls src => Some (Z.of_nat (String.length src + List.length calls)).

Definition c8_opts : option Opts := Some (mkOpts c8_compressor).

Definition c8_leaf (name src : string) : Node :=
  Module name
    (mkStatModule (IdStr name) name 10 [IdNum 0] None (Some src)) c8_opts None.

Definition c8_tree : Node :=
  Folder "src" c8_opts None
    [("a.js"%string, c8_leaf "a.js" "aa"); ("b.js"%string, c8_leaf "b.js" "bbb")].

Definition c10_tree : Node :=
  createModulesTree sample_pathParts
    [plain_module 1 "./src/a.js" 50 [IdNum 0];
     plain_module 2 "./src/lib/b.js" 91 [IdNum 0]].

(** What a successful projection of a node leaves behind: the sizes and
    the source string are as before, the compression function was called
    at most once for every node, and a projection of the node as it is now
    yields the same chart data, leaves the node as it is and calls nothing,
    whatever was called in between. *)
Definition settles (n : Node) : Prop :=
  forall p calls cd n' calls',
    toChartData p n calls = (Ok (cd, n'), calls') ->
    size n' = size n
    /\ node_src n' = node_src n
    /\ (exists extra,
           calls' = calls ++ extra
           /\ (List.length extra <= node_count n)%nat)
    /\ forall calls2, toChartData p n' calls2 = (Ok (cd, n'), calls2).

Definition settles_all (path : string) (ch : list (string * Node)) : Prop :=
  forall calls groups ch' calls',
    invokeMap_toChartData path ch calls = (Ok (groups, ch'), calls') ->
    sum_sizes ch' = sum_sizes ch
    /\ children_src ch' = children_src ch
    /\ (exists extra,
           calls' = calls ++ extra
           /\ (List.length extra <= count_nodes ch)%nat)
    /\ forall calls2,
         invokeMap_toChartData path ch' calls2 = (Ok (groups, ch'), calls2).

(** A source-less node is projected without an error and without a call. *)
Definition projects_quietly (n : Node) : Prop :=
  sourceless n = true ->
  forall p calls,
    exists cd n',
      toChartData p n calls = (Ok (cd, n'), calls)
      /\ cd_gzipSize cd = Some 0.

(** The stats object of the build the tests compile: [bundle.js] of
    declared size 141, made of [a.js] (size 50) and [b.js] (size 91); and
    one with a query in the file name, a second script and a style
    sheet. *)
Definition sample_modules : list StatModule :=
  [plain_module 1 "./src/a.js" 50 [IdNum 0];
   plain_module 2 "./src/b.js" 91 [IdNum 0]].

Definition sample_stats : Stats :=
  leaf_stats [mkAsset "bundle.js" 141 [IdNum 0] false] sample_modules.

Definition sample_stats_query : Stats :=
  leaf_stats
    [mkAsset "bundle.js?what=is-this-for" 141 [IdNum 0] false;
     mkAsset "manifest.js" 10 [IdNum 0] false;
     mkAsset "style.css" 3 [IdNum 0] false]
    sample_modules.

Definition sample_groups : list ChartData :=
  [mkChartData "src" "./src" 141 (Some 0) (Some 0)
     (Some [mkChartData "a.js" "./src/a.js" 50 None (Some 0) None;
            mkChartData "b.js" "./src/b.js" 91 None (Some 0) None])].

(** * Further parts of the program *)

(** ** [escapeJson] of [viewer.js] *)

(** [text.replace(/</gu, '\\u003c')]: every less-than sign gives way to the
    six characters of its escape. *)
Fixpoint escape_lt (text : string) : string :=
  match text with
  | EmptyString => EmptyString
  | String c rest =>
      if Ascii.eqb c "<"
      then ("\u003c" ++ escape_lt rest)%string
      else String c (escape_lt rest)
  end.

Fixpoint count_char (c : ascii) (s : string) : nat :=
  match s with
  | EmptyString => O
  | String c' rest =>
      ((if Ascii.eqb c' c then 1 else 0) + count_char c rest)%nat
  end.

Section EscapeJson.

(** [JSON.stringify] on the values the templates pass. *)
Variable Json : Type.
Variable stringify : Json -> string.

Definition escapeJson (json : Json) : string := escape_lt (stringify json).

End EscapeJson.

(** ** [BundleAnalyzerPlugin.js] *)

(** [this.opts] after the constructor has spread the caller's options over
    the defaults. *)
Record PluginOpts : Type := mkPluginOpts {
  analyzerMode : string;
  analyzerHost : string;
  analyzerPort : Z;
  reportFilename : string;
  defaultSizes : string;
  openAnalyzer : bool;
  generateStatsFile : bool;
  statsFilename : string;
  statsOptions : option string;
  logLevel : string;
  startAnalyzer : bool
}.

Definition defaultOpts : PluginOpts :=
  mkPluginOpts "server" "127.0.0.1" 8888 "report.html" "parsed" true false
    "stats.json" None "info" true.

Definition set_analyzerMode (mode : string) (o : PluginOpts) : PluginOpts :=
  mkPluginOpts mode (analyzerHost o) (analyzerPort o) (reportFilename o)
    (defaultSizes o) (openAnalyzer o) (generateStatsFile o) (statsFilename o)
    (statsOptions o) (logLevel o) (startAnalyzer o).

(** The compiler as the plugin reads it: the output path and the name of
    the constructor of the output file system. *)
Record Compiler : Type := mkCompiler {
  outputPath : string;
  outputFileSystem : string
}.

(** [getBundleDirFromCompiler] *)
Definition getBundleDirFromCompiler (compiler : Compiler) : option string :=
  if String.eqb (outputFileSystem compiler) "MemoryFileSystem"
  then None
  else Some (outputPath compiler).

(** The closures the [done] handler pushes on [actions]. *)
Inductive Action : Type :=
| GenerateStatsFile
| StartAnalyzerServer
| GenerateStaticReport.

(** The handling of the deprecated [startAnalyzer] flag: the assignment
    [this.opts.analyzerMode = 'disabled']. *)
Definition handleDeprecated (o : PluginOpts) : PluginOpts :=
  if String.eqb (analyzerMode o) "server" && negb (startAnalyzer o)
  then set_analyzerMode "disabled" o
  else o.

(** The array [actions] at the end of the handler, for the options as the
    handler leaves them. *)
Definition planActions (o : PluginOpts) : list Action :=
  (if generateStatsFile o then [GenerateStatsFile] else [])
  ++ (if String.eqb (analyzerMode o) "server" then [StartAnalyzerServer]
      else if String.eqb (analyzerMode o) "static" then [GenerateStaticReport]
      else []).

Section Plugin.

(** What a compilation hands over, its JSON form ([stats.toJson]) and the
    chart data [analyzer.getChartData] makes of it; the analyzer and the
    reporter the plugin requires are not part of the file. *)
Variable RawStats : Type.
Variable StatsJson : Type.
Variable Chart : Type.
Variable toJson : RawStats -> option string -> StatsJson.
Variable analyzer_getChartData : StatsJson -> option string -> Chart.

(** What the plugin does to the outside: the stats file it writes, the
    reporter it creates, the data it hands to the reporter, the static
    report it asks for. *)
Inductive Effect : Type :=
| WriteStatsFile (dir file : string) (stats : StatsJson)
| CreateReporter (chart : Chart) (openBrowser : bool) (host : string)
    (port : Z) (bundleDir : option string) (sizes : string)
| UpdateData (chart : Chart)
| GenerateReport (chart : Chart) (openBrowser : bool) (dir file : string)
    (bundleDir : option string) (sizes : string).

(** The plugin object: its options, whether [this.server] is set, and the
    compiler [apply] stored. *)
Record Plugin : Type := mkPlugin {
  p_opts : PluginOpts;
  p_server : bool;
  p_compiler : Compiler
}.

(** [new BundleAnalyzerPlugin(opts)] followed by [apply(compiler)]. *)
Definition newPlugin (o : PluginOpts) (compiler : Compiler) : Plugin :=
  mkPlugin o false compiler.

(** One closure of [actions], run. *)
Definition runAction (stats : StatsJson) (a : Action) (p : Plugin)
    : Plugin * list Effect :=
  let o := p_opts p in
  let bundleDir := getBundleDirFromCompiler (p_compiler p) in
  match a with
  | GenerateStatsFile =>
      (p, [WriteStatsFile (outputPath (p_compiler p)) (statsFilename o) stats])
  | StartAnalyzerServer =>
      let chart := analyzer_getChartData stats bundleDir in
      if p_server p
      then (p, [UpdateData chart])
      else (mkPlugin o true (p_compiler p),
            [CreateReporter chart (openAnalyzer o) (analyzerHost o)
               (analyzerPort o) bundleDir (defaultSizes o)])
  | GenerateStaticReport =>
      (p, [GenerateReport (analyzer_getChartData stats bundleDir)
             (openAnalyzer o) (outputPath (p_compiler p)) (reportFilename o)
             bundleDir (defaultSizes o)])
  end.

Fixpoint runActions (stats : StatsJson) (actions : list Action) (p : Plugin)
    : Plugin * list Effect :=
  match actions with
  | [] => (p, [])
  | a :: tl =>
      let '(p1, e1) := runAction stats a p in
      let '(p2, e2) := runActions stats tl p1 in
      (p2, e1 ++ e2)
  end.

(** The handler of the [done] event with the actions it defers run to
    their end. *)
Definition onDone (raw : RawStats) (p : Plugin) : Plugin * list Effect :=
  let stats := toJson raw (statsOptions (p_opts p)) in
  let o := handleDeprecated (p_opts p) in
  runActions stats (planActions o) (mkPlugin o (p_server p) (p_compiler p)).

(** A sequence of compilations. *)
Fixpoint onDoneAll (raws : list RawStats) (p : Plugin) : Plugin * list Effect :=
  match raws with
  | [] => (p, [])
  | raw :: tl =>
      let '(p1, e1) := onDone raw p in
      let '(p2, e2) := onDoneAll tl p1 in
      (p2, e1 ++ e2)
  end.

Definition is_reporter_effect (e : Effect) : bool :=
  match e with
  | CreateReporter _ _ _ _ _ _ => true
  | UpdateData _ => true
  | _ => false
  end.

Definition chartOf (p : Plugin) (raw : RawStats) : Chart :=
  analyzer_getChartData (toJson raw (statsOptions (p_opts p)))
    (getBundleDirFromCompiler (p_compiler p)).

End Plugin.

(** ** Notions for the further properties *)

(** A name list without repetitions, each name at its first place. *)
Fixpoint uniq_from (seen : list string) (names : list string) : list string :=
  match names with
  | [] => []
  | n :: tl =>
      if existsb (String.eqb n) seen
      then uniq_from seen tl
      else n :: uniq_from (n :: seen) tl
  end.

Definition uniq_names (names : list string) : list string := uniq_from [] names.

(** The last asset of a list with a given name. *)
Definition last_named (name : string) (assets : list Asset) : option Asset :=
  find (fun a => String.eqb (a_name a) name) (rev assets).

(** A test on the source text holds for a stats module and for the modules
    nested in it. *)
Fixpoint stat_srcs (Q : option string -> bool) (m : StatModule) : bool :=
  match m with
  | mkStatModule _ _ _ _ nested src =>
      Q src
      && match nested with
         | None => true
         | Some ms =>
             (fix all (l : list StatModule) : bool :=
                match l with
                | [] => true
                | x :: tl => stat_srcs Q x && all tl
                end) ms
         end
  end.

(** A stats module that carries no source text, nor do the modules nested
    in it. *)
Definition stat_sourceless (m : StatModule) : bool :=
  stat_srcs (fun src => negb (src_truthy src)) m.

Definition stats_sourceless (bs : Stats) : bool :=
  forallb stat_sourceless (spec_pool bs)
  && match s_children bs with
     | None => true
     | Some cs => forallb (fun c => forallb stat_sourceless (spec_pool c)) cs
     end.

(** Induction over a stats module together with its nested modules. *)
Section StatModuleInduction.

Variable P : StatModule -> Prop.
Hypothesis P_plain : forall id name sz chunks src,
  P (mkStatModule id name sz chunks None src).
Hypothesis P_nested : forall id name sz chunks ms src,
  Forall P ms -> P (mkStatModule id name sz chunks (Some ms) src).

Fixpoint StatModule_nested_ind (m : StatModule) : P m :=
  match m with
  | mkStatModule id name sz chunks None src => P_plain id name sz chunks src
  | mkStatModule id name sz chunks (Some ms) src =>
      P_nested id name sz chunks ms src
        ((fix each (l : list StatModule) : Forall P l :=
            match l with
            | [] => Forall_nil _
            | x :: tl => Forall_cons x (StatModule_nested_ind x) (each tl)
            end) ms)
  end.

End StatModuleInduction.

Section History.

Variable getModulePathParts : StatModule -> option (list string).
Variable Pattern : Type.
Variable pattern_test : Pattern -> string -> bool.
Variable parseBundle :
  string -> string -> option (string * list (Id * string)).
Variable byteLength : string -> Z.
Variable gzipSync : string -> Z.

(** [updateChartData] called for one stats object after the other. *)
Fixpoint updateAll (excludeAssets : list Pattern) (bundleDir : option string)
    (server : Server) (builds : list Stats) (calls : Calls) : Server * Calls :=
  match builds with
  | [] => (server, calls)
  | bundleStats :: tl =>
      let '(server', calls') :=
        updateChartData getModulePathParts Pattern pattern_test parseBundle
          byteLength gzipSync excludeAssets bundleDir server bundleStats calls in
      updateAll excludeAssets bundleDir server' tl calls'
  end.

(** The chart data of the stats objects whose analysis did not throw, in
    their order. *)
Fixpoint chartHistory (excludeAssets : list Pattern)
    (bundleDir : option string) (builds : list Stats) (calls : Calls)
    : list (list AssetChart) :=
  match builds with
  | [] => []
  | bundleStats :: tl =>
      match getChartData getModulePathParts Pattern pattern_test parseBundle
              byteLength gzipSync excludeAssets bundleStats bundleDir calls with
      | (Some data, calls') =>
          data :: chartHistory excludeAssets bundleDir tl calls'
      | (None, calls') => chartHistory excludeAssets bundleDir tl calls'
      end
  end.

End History.

(** A test on the kind of a node (folder or leaf), its options, the source
    text attached to it (none for a folder) and its cache holds for every
    node of a tree. *)
Definition NodeTest : Type :=
  bool -> option Opts -> option string -> option Z -> bool.

Fixpoint tree_all (ok : NodeTest) (n : Node) : bool :=
  let all :=
    fix all (l : list (string * Node)) : bool :=
      match l with
      | [] => true
      | (_, c) :: tl => tree_all ok c && all tl
      end in
  match n with
  | Folder _ o g ch => ok true o None g && all ch
  | Module _ d o g => ok false o (m_parsedSrc d) g
  | ConcatenatedModule _ d o g ch => ok false o (m_parsedSrc d) g && all ch
  end.

Definition children_all (ok : NodeTest) (ch : list (string * Node)) : bool :=
  forallb (fun kc => tree_all ok (snd kc)) ch.

(** No source text and a clear cache. *)
Definition quiet_node : NodeTest :=
  fun _ _ s g => negb (src_truthy s) && cache_clear g.

(** A folder has no options and nothing cached. *)
Definition fresh_folder : NodeTest :=
  fun folder o _ g =>
    negb folder
    || match o, g with
       | None, None => true
       | _, _ => false
       end.

(** The nodes of a tree, the tree itself first. *)
Fixpoint subnodes (n : Node) : list Node :=
  let below :=
    fix below (l : list (string * Node)) : list Node :=
      match l with
      | [] => []
      | (_, c) :: tl => subnodes c ++ below tl
      end in
  match n with
  | Folder _ _ _ ch => n :: below ch
  | Module _ _ _ _ => [n]
  | ConcatenatedModule _ _ _ _ ch => n :: below ch
  end.

Definition subnodes_all (ch : list (string * Node)) : list Node :=
  flat_map (fun kc => subnodes (snd kc)) ch.

(** The loop of a concatenated leaf over its nested modules, as
    [newModule] runs it. *)
Fixpoint fillModules (gmp : StatModule -> option (list string))
    (opts : option Opts) (l : list StatModule) (ch : list (string * Node))
    : list (string * Node) :=
  match l with
  | [] => ch
  | m :: tl =>
      match gmp m with
      | None => fillModules gmp opts tl ch
      | Some parts =>
          fillModules gmp opts tl
            (insertModule opts (folders_of parts)
               (newModule gmp opts (fileName_of parts) m) ch)
      end
  end.

(** The walk of [Folder.addModule] over the folder segments with the call
    that ends it left open: [add] stands for
    [currentFolder.addChildModule(module)], whatever that method of the
    absent [BaseFolder] makes of the children of the folder the walk ends
    in. *)
Fixpoint walkFolders (add : list (string * Node) -> list (string * Node))
    (opts : option Opts) (folders : list string) (ch : list (string * Node))
    : list (string * Node) :=
  match folders with
  | [] => add ch
  | folderName :: rest =>
      match getChild folderName ch with
      | Some (Folder name o g sub) =>
          setChild folderName (Folder name o g (walkFolders add opts rest sub))
            ch
      | _ =>
          addChildFolder
            (Folder folderName opts None (walkFolders add opts rest [])) ch
      end
  end.

(** The children of the folder that the folder segments lead to, as far as
    the folders are there; those of a folder that is missing are none. *)
Definition reached (folders : list string) (ch : list (string * Node))
    : list (string * Node) :=
  match descend folders ch with
  | Some sub => sub
  | None => []
  end.

(** The modules for which the path helper answers with path parts. *)
Definition has_path (gmp : StatModule -> option (list string))
    (m : StatModule) : bool :=
  match gmp m with
  | Some _ => true
  | None => false
  end.

(** A client after the messages [msgs] have been sent to the open
    clients. *)
Definition received (msgs : list Message) (c : Client) : Client :=
  if is_open c then mkClient (readyState c) (sent c ++ msgs) else c.

(** ** Inputs of the further examples *)

Definition x_dup_stats : Stats :=
  mkStats [mkAsset "bundle.js" 141 [IdNum 0] false]
    (Some [mkChunk (IdNum 0) (Some sample_modules)]) None
    (Some [mkStats [mkAsset "bundle.js?child" 7 [IdNum 0] false;
                    mkAsset "extra.js" 9 [IdNum 0] false]
             (Some [mkChunk (IdNum 0) (Some [])]) None None
             (Some [("main"%string, ["extra.js"%string])])])
    None.

(** A run of the plugin on three compilations, each standing for its own
    chart data. *)
Definition x_plugin : Plugin :=
  newPlugin defaultOpts (mkCompiler "/out" "NodeOutputFileSystem").

Definition x_toJson (raw : nat) (statsOptions : option string) : nat := raw.

Definition x_getChartData (stats : nat) (bundleDir : option string) : nat :=
  stats.

Definition x_deprecated_opts : PluginOpts :=
  mkPluginOpts "server" "127.0.0.1" 8888 "report.html" "parsed" true true
    "stats.json" None "info" false.

(** A bundle parser that finds the text ["abc"] in [bundle.js] and fails on
    every other file. *)
Definition x_parseBundle (dir name : string)
    : option (string * list (Id * string)) :=
  if String.eqb name "bundle.js" then Some ("abc"%string, []) else None.

Definition x_two_assets : Stats :=
  leaf_stats
    [mkAsset "bundle.js" 141 [IdNum 0] false;
     mkAsset "vendor.js" 20 [IdNum 0] false]
    sample_modules.

(** A module whose parts are a folder and a file, and one for which the
    sample path helper has no parts. *)
Definition x_module : StatModule := plain_module 3 "./lib/c.js" 4 [IdNum 0].

Definition x_pathless : StatModule := plain_module 4 "external" 1 [IdNum 0].

(** * Properties *)

(** ** Basic facts *)

Lemma Id_eqb_eq (a b : Id) : Id_eqb a b = true <-> a = b.
Proof.
  destruct a as [x|x], b as [y|y]; simpl; split; intro H;
    try discriminate; try congruence.
  - apply Z.eqb_eq in H. now subst.
  - inversion H. apply Z.eqb_refl.
  - apply String.eqb_eq in H. now subst.
  - inversion H. apply String.eqb_refl.
Qed.

Lemma Id_eqb_refl (a : Id) : Id_eqb a a = true.
Proof. now apply Id_eqb_eq. Qed.

Lemma includes_In (ids : list Id) (x : Id) : includes ids x = true <-> In x ids.
Proof.
  unfold includes. rewrite existsb_exists. split.
  - intros [y [Hy E]]. apply Id_eqb_eq in E. now subst.
  - intros H. exists x. split; [assumption | apply Id_eqb_refl].
Qed.

Lemma obj_get_set_same {V : Type} (key : string) (v : V) (obj : list (string * V)) :
  obj_get key (obj_set key v obj) = Some v.
Proof.
  induction obj as [|[k w] tl IH]; simpl.
  - now rewrite String.eqb_refl.
  - destruct (String.eqb k key) eqn:E; simpl; now rewrite E.
Qed.

Lemma obj_get_set_other {V : Type} (key key' : string) (v : V)
    (obj : list (string * V)) :
  key' <> key -> obj_get key' (obj_set key v obj) = obj_get key' obj.
Proof.
  intros Hne. induction obj as [|[k w] tl IH]; simpl.
  - destruct (String.eqb key key') eqn:E; [|reflexivity].
    apply String.eqb_eq in E. congruence.
  - destruct (String.eqb k key) eqn:E; simpl.
    + apply String.eqb_eq in E. subst k.
      destruct (String.eqb key key') eqn:E'; [|reflexivity].
      apply String.eqb_eq in E'. congruence.
    + now rewrite IH.
Qed.

Lemma obj_set_keys_present {V : Type} (key : string) (v w : V)
    (obj : list (string * V)) :
  obj_get key obj = Some w -> map fst (obj_set key v obj) = map fst obj.
Proof.
  induction obj as [|[k u] tl IH]; simpl; [discriminate|].
  destruct (String.eqb k key) eqn:E; simpl; intros H.
  - reflexivity.
  - now rewrite IH.
Qed.

(** ** The parsed size of a node *)

Lemma string_length_append (a b : string) :
  String.length (a ++ b)%string = (String.length a + String.length b)%nat.
Proof.
  induction a as [|c a IH]; simpl; [reflexivity | now rewrite IH].
Qed.

Lemma parsedSize_of_src_length (s : option string) :
  parsedSize_of_src s = Z.of_nat (String.length (text_of s)).
Proof.
  destruct s as [[|c s]|]; reflexivity.
Qed.

Lemma node_src_Folder name o g ch :
  node_src (Folder name o g ch) = Some (children_src ch).
Proof.
  cbn [node_src]. f_equal. induction ch as [|[k c] tl IH]; [reflexivity|].
  cbn [children_src fold_right snd]. now rewrite IH.
Qed.

Lemma node_src_Concatenated name d o g ch :
  node_src (ConcatenatedModule name d o g ch) =
  if src_truthy (m_parsedSrc d) then m_parsedSrc d
  else Some (children_src ch).
Proof.
  cbn [node_src]. destruct (src_truthy (m_parsedSrc d)); [reflexivity|].
  f_equal. induction ch as [|[k c] tl IH]; [reflexivity|].
  cbn [children_src fold_right snd]. now rewrite IH.
Qed.

(** The source strings of the children are together as long as the parsed
    sizes of the children add up to. *)
Lemma children_src_length (ch : list (string * Node)) :
  Z.of_nat (String.length (children_src ch)) = children_parsedSize ch.
Proof.
  induction ch as [|[k c] tl IH]; [reflexivity|].
  cbn [children_src children_parsedSize fold_right snd].
  fold (children_src tl) (children_parsedSize tl).
  rewrite string_length_append, Nat2Z.inj_add, IH.
  unfold parsedSize. now rewrite parsedSize_of_src_length.
Qed.

Lemma parsedSize_without_own_text (n : Node) :
  src_truthy (own_src n) = false ->
  parsedSize n = children_parsedSize (node_children n).
Proof.
  intros Hown. unfold parsedSize.
  destruct n as [name o g ch|name d o g|name d o g ch];
    cbn [own_src node_children] in *.
  - now rewrite node_src_Folder, parsedSize_of_src_length, <- children_src_length.
  - cbn [node_src]. destruct (m_parsedSrc d) as [[|c s]|];
      [reflexivity | discriminate | reflexivity].
  - rewrite node_src_Concatenated, Hown.
    now rewrite parsedSize_of_src_length, <- children_src_length.
Qed.


(** In the tree of one module with the source text ["ab"], the folder
    [src] has that text as its source string and 2 as its parsed size. *)
Example parsedSize_folder_sample :
  getChild "src" (node_children c1_tree) = Some c1_folder
  /\ node_src c1_folder = Some "ab"%string
  /\ parsedSize c1_folder = 2
  /\ parsedSize c1_tree = 2.
Proof. repeat split. Qed.

(** ** The declared size of an asset record *)

Ltac run_bind H :=
  unfold bind in H;
  match type of H with
  | context [match ?m ?c with _ => _ end] =>
      let E := fresh "E" in
      let a := fresh "a" in
      let e := fresh "e" in
      let c' := fresh "calls" in
      destruct (m c) as [[a|e] c'] eqn:E; try discriminate
  end.

Lemma fold_addModule_root (gmp : StatModule -> option (list string))
    (modules : list StatModule) (ch : list (string * Node)) :
  exists ch',
    fold_left (addModule gmp) modules (Folder "." None None ch)
    = Folder "." None None ch'.
Proof.
  revert ch. induction modules as [|m tl IH]; intros ch; simpl.
  - now exists ch.
  - destruct (gmp m) as [parts|]; apply IH.
Qed.

Lemma createModulesTree_root (gmp : StatModule -> option (list string))
    (modules : list StatModule) :
  exists ch, createModulesTree gmp modules = Folder "." None None ch.
Proof.
  unfold createModulesTree.
  destruct (fold_addModule_root gmp modules []) as [ch' ->].
  simpl. eexists. reflexivity.
Qed.

Lemma obj_set_Forall {V : Type} (P : string * V -> Prop) (key : string)
    (v : V) (obj : list (string * V)) :
  (forall k, P (k, v)) -> Forall P obj -> Forall P (obj_set key v obj).
Proof.
  intros Hv. induction 1 as [|[k w] tl Hk Htl IH]; simpl.
  - constructor; [apply Hv | constructor].
  - destruct (String.eqb k key); constructor; auto.
Qed.

Lemma projectAsset_statSize (filename : string) (asset : AssetEntry)
    (calls calls' : Calls) (r : AssetChart) :
  projectAsset filename asset calls = (Ok r, calls') ->
  ac_label r = filename
  /\ ac_statSize r =
     (if size (e_tree asset) =? 0 then e_size asset else size (e_tree asset)).
Proof.
  unfold projectAsset. intros H. run_bind H.
  destruct a as [groups ch']. unfold ret in H. inversion H; subst.
  split; reflexivity.
Qed.

(** C2, the code at an asset whose only module has the declared size 0:
    the asset contains a module, its tree is not empty, and the record is
    given the declared size 100 of the asset all the same, because
    [asset.tree.size || asset.size] falls back on a size that equals 0 and
    not on a tree without modules.  That holds for every record: whenever
    the sizes in the tree of an asset add up to 0, the record takes the
    declared size of the asset, whatever the tree holds. *)
Theorem C2_zero_size_tree_takes_declared_size :
  (forall (filename : string) (asset : AssetEntry) (calls calls' : Calls)
          (r : AssetChart),
      projectAsset filename asset calls = (Ok r, calls') ->
      ac_statSize r =
      (if size (e_tree asset) =? 0 then e_size asset else size (e_tree asset)))
  /\ exists r entry,
       sample_getViewerData c2_stats None [] [] = (Ok [r], [])
       /\ collectAssets sample_pathParts sample_byteLength sample_gzipSync
            c2_stats None = [("bundle.js"%string, entry)]
       /\ e_modules entry = [plain_module 1 "./a.js" 0 [IdNum 0]]
       /\ node_children (e_tree entry)
          = [("a.js"%string,
              Module "a.js" (plain_module 1 "./a.js" 0 [IdNum 0]) None None)]
       /\ size (e_tree entry) = 0
       /\ e_size entry = 100
       /\ ac_label r = "bundle.js"%string
       /\ ac_statSize r = 100.
Proof.
  split.
  - intros filename asset calls calls' r H.
    now destruct (projectAsset_statSize _ _ _ _ _ H).
  - eexists. eexists. split; [vm_compute; reflexivity|].
    split; [vm_compute; reflexivity|].
    repeat split.
Qed.

(** ** Assets of the children of a stats object *)

(** The second branch, for a stats object with assets of its own, takes the
    assets of every child of the stats object and flags them, in the list
    of the stats object and in the children alike; nothing else changes. *)
Lemma update_nth_app {A : Type} (f : A -> A) (pre : list A) (x : A)
    (tl : list A) :
  update_nth (List.length pre) f (pre ++ x :: tl) = pre ++ f x :: tl.
Proof.
  induction pre as [|y pre IH]; simpl; [reflexivity | now rewrite IH].
Qed.

Lemma pushEach_assets (cs : list Stats) :
  forall i working,
    s_assets (pushEach i cs working)
    = s_assets working ++ map markChild (List.concat (map s_assets cs)).
Proof.
  induction cs as [|c tl IH]; intros i working; simpl.
  - now rewrite app_nil_r.
  - rewrite IH. simpl. now rewrite map_app, app_assoc.
Qed.

Lemma pushEach_children (cs : list Stats) :
  forall pre working,
    s_children working = Some (pre ++ cs) ->
    s_children (pushEach (List.length pre) cs working)
    = Some (pre ++ map (eachAsset markChild) cs).
Proof.
  induction cs as [|c tl IH]; intros pre working H; simpl.
  - exact H.
  - replace (S (List.length pre)) with (List.length (pre ++ [eachAsset markChild c]))
      by (rewrite length_app; simpl; lia).
    rewrite (IH (pre ++ [eachAsset markChild c])).
    + now rewrite <- app_assoc.
    + unfold pushChildAssets. simpl. rewrite H. simpl.
      rewrite update_nth_app. now rewrite <- app_assoc.
Qed.

Lemma pushEach_others (cs : list Stats) :
  forall i working,
    s_chunks (pushEach i cs working) = s_chunks working
    /\ s_modules (pushEach i cs working) = s_modules working
    /\ s_assetsByChunkName (pushEach i cs working)
       = s_assetsByChunkName working.
Proof.
  induction cs as [|c tl IH]; intros i working; simpl; [repeat split|].
  destruct (IH (S i) (pushChildAssets i c working)) as [H1 [H2 H3]].
  repeat split; assumption.
Qed.

(** C3, the code at a stats object with no top-level assets and several
    children: the loop indexes the children of the first child, not the
    children of the stats object.  Whenever the first child has no children
    of its own (an empty list or none at all), the loop throws a
    [TypeError] at its first round, and so does [getViewerData]; with a
    first child that has two children, the assets of its second child are
    appended and flagged, and the assets of the second child of the stats
    object are not. *)
Theorem C3_loop_indexes_children_of_first_child :
  (forall (first second : Stats) (others : list Stats) chunks modules byName,
      isEmpty (s_children first) = true ->
      normalizeChildren
        (mkStats [] chunks modules (Some (first :: second :: others)) byName)
      = Throw TypeError)
  /\ normalizeChildren c3_stats = Throw TypeError
  /\ normalizeChildren c3_stats_bare = Throw TypeError
  /\ (forall gmp (Pattern : Type) ptest parse bl gz dir (pats : list Pattern)
             calls,
         getViewerData gmp Pattern ptest parse bl gz c3_stats dir pats calls
         = (Throw TypeError, calls))
  /\ option_map s_assets
       (match normalizeChildren c3_stats_nested with
        | Ok working => Some working
        | Throw _ => None
        end)
     = Some [mkAsset "a.js" 10 [IdNum 0] false;
             mkAsset "g1.js" 5 [IdNum 2] true].
Proof.
  split; [|repeat split; reflexivity].
  intros first second others chunks modules byName Hempty.
  unfold normalizeChildren. cbn [s_assets s_children List.length seq].
  cbn [appendFromIndices].
  destruct (s_children first) as [[|c cs]|]; try reflexivity. discriminate.
Qed.

(** ** The live-update channel *)

Lemma broadcast_open (m : Message) (cs : list Client) :
  Forall2
    (fun c c' =>
       readyState c' = readyState c
       /\ sent c' = if is_open c then sent c ++ [m] else sent c)
    cs (broadcast m cs).
Proof.
  induction cs as [|c tl IH]; simpl; constructor; [|exact IH].
  destruct (is_open c); simpl; auto.
Qed.

(** What [updateChartData] does with the answer of [getChartData]: on
    [null] nothing changes; on anything else the held data is replaced and
    every open client is sent one message. *)
Lemma updateChartData_cases gmp (Pattern : Type) ptest parse bl gz
    (pats : list Pattern) (dir : option string) (server : Server)
    (bundleStats : Stats) (calls : Calls) :
  match getChartData gmp Pattern ptest parse bl gz pats bundleStats dir calls
  with
  | (None, calls') =>
      updateChartData gmp Pattern ptest parse bl gz pats dir server
        bundleStats calls = (server, calls')
  | (Some data, calls') =>
      exists cs,
        updateChartData gmp Pattern ptest parse bl gz pats dir server
          bundleStats calls = (mkServer data cs, calls')
        /\ Forall2
             (fun c c' =>
                readyState c' = readyState c
                /\ sent c' =
                   if is_open c
                   then sent c ++ [mkMessage "chartDataUpdated" data]
                   else sent c)
             (clients server) cs
  end.
Proof.
  unfold updateChartData.
  destruct (getChartData gmp Pattern ptest parse bl gz pats bundleStats dir
              calls) as [[data|] calls'].
  - eexists. split; [reflexivity | apply broadcast_open].
  - reflexivity.
Qed.

(** C9, the code at a stats object in which no asset is retained: the
    analysis answers the empty array, [getChartData] passes it on (the
    array is no plain object, so it is not turned into [null]), and
    [updateChartData] replaces the held chart data by the empty array and
    sends it to every open client. *)
Theorem C9_empty_chart_data_is_published :
  forall gmp (Pattern : Type) ptest parse bl gz (pats : list Pattern)
         (dir : option string) (calls : Calls),
    getChartData gmp Pattern ptest parse bl gz pats c9_stats dir calls
    = (Some [], calls)
    /\ updateChartData gmp Pattern ptest parse bl gz pats dir c9_server
         c9_stats calls
       = (mkServer []
            [mkClient OPEN [mkMessage "chartDataUpdated" []];
             mkClient CLOSING [];
             mkClient OPEN [mkMessage "chartDataUpdated" []]],
          calls).
Proof.
  intros. 
  assert (H : getChartData gmp Pattern ptest parse bl gz pats c9_stats dir calls
              = (Some [], calls)).
  { unfold getChartData, getViewerData, normalizeStats. simpl.
    destruct dir as [[|c d]|]; reflexivity. }
  split; [exact H|].
  unfold updateChartData. rewrite H. reflexivity.
Qed.

(** ** Retained assets *)

Lemma ends_with_suffix (suffix s : string) :
  ends_with suffix s = true <-> exists pre, s = (pre ++ suffix)%string.
Proof.
  split.
  - induction s as [|c rest IH]; cbn [ends_with]; intros H.
    + rewrite orb_false_r in H. apply String.eqb_eq in H. subst.
      now exists EmptyString.
    + apply orb_true_iff in H. destruct H as [H|H].
      * apply String.eqb_eq in H. subst. now exists EmptyString.
      * destruct (IH H) as [pre ->]. now exists (String c pre).
  - intros [pre ->]. induction pre as [|c pre IH].
    + destruct suffix; cbn [ends_with append]; rewrite String.eqb_refl;
        reflexivity.
    + cbn [ends_with append]. rewrite IH. apply orb_true_r.
Qed.

Lemma FILENAME_EXTENSIONS_test_spec (name : string) :
  FILENAME_EXTENSIONS_test name = true <->
  exists ext pre, In ext extensions /\ lower name = (pre ++ ext)%string.
Proof.
  unfold FILENAME_EXTENSIONS_test. rewrite existsb_exists. split.
  - intros [ext [Hin H]]. apply ends_with_suffix in H. destruct H as [pre H].
    now exists ext, pre.
  - intros [ext [pre [Hin H]]]. exists ext. split; [assumption|].
    apply ends_with_suffix. now exists pre.
Qed.

Lemma createAssetsFilter_spec (Pattern : Type) (ptest : Pattern -> string -> bool)
    (pats : list Pattern) (name : string) :
  createAssetsFilter Pattern ptest pats name = true <->
  forall p, In p pats -> ptest p name = false.
Proof.
  unfold createAssetsFilter. rewrite forallb_forall. split; intros H p Hp.
  - specialize (H p Hp). now apply negb_true_iff in H.
  - apply negb_true_iff. now apply H.
Qed.

Lemma Subseq_filter {A : Type} (f : A -> bool) (l : list A) :
  Subseq (filter f l) l.
Proof.
  induction l as [|x l IH]; simpl; [constructor|].
  destruct (f x); constructor; exact IH.
Qed.

(** *** The query part of a name *)

Lemma has_line_terminator_spec (q : string) :
  has_line_terminator q = false <-> no_line_terminator q.
Proof.
  unfold no_line_terminator. induction q as [|c q IH]; simpl.
  - split; [intros _ c [] | reflexivity].
  - unfold is_line_terminator.
    rewrite !orb_false_iff, !Ascii.eqb_neq, IH. split.
    + intros [H1 H] d [<-|Hd]; [exact H1 | now apply H].
    + intros H. split; [apply (H c); now left|].
      intros d Hd. apply H. now right.
Qed.

Lemma QueryAt_head (c : ascii) (rest q : string) :
  QueryAt (String c rest) EmptyString q ->
  Ascii.eqb c "?" && negb (has_line_terminator rest) = true.
Proof.
  intros [Heq Hq]. simpl in Heq. injection Heq as -> ->.
  apply has_line_terminator_spec in Hq. now rewrite Hq.
Qed.

Lemma QueryAt_tail (c d : ascii) (rest pre q : string) :
  QueryAt (String c rest) (String d pre) q -> QueryAt rest pre q.
Proof.
  intros [Heq Hq]. simpl in Heq. injection Heq as _ ->. now split.
Qed.

(** What [strip_query] answers is the name without its query part. *)
Lemma strip_query_Stripped (name : string) : Stripped name (strip_query name).
Proof.
  induction name as [|c rest IH].
  - right. split; [reflexivity|]. intros pre q [H _]. destruct pre; discriminate.
  - cbn [strip_query].
    destruct (Ascii.eqb c "?" && negb (has_line_terminator rest)) eqn:E.
    + apply andb_true_iff in E. destruct E as [Ec Et].
      apply Ascii.eqb_eq in Ec. subst c. apply negb_true_iff in Et.
      left. exists rest. split.
      * split; [reflexivity | now apply has_line_terminator_spec].
      * intros pre q' _. simpl. lia.
    + destruct IH as [[q [[Heq Hq] Hmin]]|[Heq Hnone]].
      * left. exists q. split.
        { split; [simpl; now rewrite <- Heq | exact Hq]. }
        intros pre q' HQ. destruct pre as [|d pre].
        { apply QueryAt_head in HQ. congruence. }
        simpl. apply le_n_S. apply (Hmin pre q').
        eapply QueryAt_tail. exact HQ.
      * right. split; [now rewrite Heq|].
        intros pre q HQ. destruct pre as [|d pre].
        { apply QueryAt_head in HQ. congruence. }
        apply (Hnone pre q). eapply QueryAt_tail. exact HQ.
Qed.

Lemma append_same_length (s1 s2 a b : string) :
  (s1 ++ a)%string = (s2 ++ b)%string ->
  String.length s1 = String.length s2 -> s1 = s2.
Proof.
  revert s2. induction s1 as [|c s1 IH]; intros [|d s2] H Hlen;
    try discriminate; [reflexivity|].
  simpl in H, Hlen. injection H as -> H. f_equal. apply IH; [exact H | lia].
Qed.

(** A name has one stripped form. *)
Lemma Stripped_unique (name s1 s2 : string) :
  Stripped name s1 -> Stripped name s2 -> s1 = s2.
Proof.
  intros [[q1 [Q1 M1]]|[E1 N1]] [[q2 [Q2 M2]]|[E2 N2]].
  - pose proof (M1 _ _ Q2) as L1. pose proof (M2 _ _ Q1) as L2.
    destruct Q1 as [H1 _]. destruct Q2 as [H2 _].
    apply (append_same_length s1 s2 (String "?" q1) (String "?" q2));
      [congruence | lia].
  - exfalso. eapply N2. exact Q1.
  - exfalso. eapply N1. exact Q2.
  - congruence.
Qed.

Lemma In_append_l (c : ascii) (a b : string) :
  In c (list_ascii_of_string a) -> In c (list_ascii_of_string (a ++ b)).
Proof.
  induction a as [|d a IH]; simpl; [intros []|].
  intros [H|H]; [now left | right; now apply IH].
Qed.

Lemma In_append_r (c : ascii) (a b : string) :
  In c (list_ascii_of_string b) -> In c (list_ascii_of_string (a ++ b)).
Proof.
  induction a as [|d a IH]; simpl; [auto|]. intros H. right. now apply IH.
Qed.

(** In a name on one line the query part starts at the first question
    mark. *)
Lemma Stripped_one_line (name stripped : string) :
  Stripped name stripped -> no_line_terminator name ->
  ~ In "?"%char (list_ascii_of_string stripped)
  /\ (stripped = name
      \/ exists q, name = (stripped ++ String "?" q)%string).
Proof.
  intros HS Hline.
  assert (Hmark : forall pre q,
             name = (pre ++ String "?" q)%string -> QueryAt name pre q).
  { intros pre q Heq. split; [exact Heq|]. intros c Hc. apply Hline.
    rewrite Heq. apply In_append_r. now right. }
  assert (Hsplit : forall s,
             In "?"%char (list_ascii_of_string s) ->
             exists pre q,
               s = (pre ++ String "?" q)%string
               /\ (String.length pre < String.length s)%nat).
  { induction s as [|c s IH]; simpl; [intros []|].
    intros [->|H].
    - exists EmptyString, s. split; [reflexivity | simpl; lia].
    - destruct (IH H) as [pre [q [-> Hlen]]].
      exists (String c pre), q. split; [reflexivity | simpl; lia]. }
  destruct HS as [[q [[Heq Hq] Hmin]]|[Heq Hnone]].
  - split; [|right; now exists q].
    intros Hin. destruct (Hsplit _ Hin) as [pre [q' [Hs Hlen]]].
    assert (HQ : QueryAt name pre (q' ++ String "?" q)).
    { apply Hmark. rewrite Heq at 1. rewrite Hs at 1.
      clear. induction pre as [|c pre IH]; simpl; [reflexivity|].
      now rewrite IH. }
    specialize (Hmin _ _ HQ). lia.
  - subst stripped. split; [|now left].
    intros Hin. destruct (Hsplit _ Hin) as [pre [q' [Hs _]]].
    apply (Hnone pre q'). now apply Hmark.
Qed.

(** *** The case of the letters *)

Lemma to_lower_SameLetter (c : ascii) : SameLetter c (to_lower c).
Proof.
  destruct c as [[] [] [] [] [] [] [] []];
    first [ left; reflexivity
          | right; left; unfold letters; cbn;
            repeat (first [left; reflexivity | right]) ].
Qed.

Lemma SameLetter_to_lower (c d : ascii) :
  SameLetter c d -> to_lower c = to_lower d.
Proof.
  intros [->|[H|H]]; [reflexivity| |]; unfold letters in H; cbn in H;
    repeat (destruct H as [H|H]; [injection H as <- <-; reflexivity|]);
    destruct H.
Qed.

Lemma SameText_lower (s : string) : SameText s (lower s).
Proof.
  induction s as [|c s IH]; cbn [lower]; constructor;
    [apply to_lower_SameLetter | exact IH].
Qed.

Lemma lower_SameText (s t : string) : SameText s t -> lower s = lower t.
Proof.
  induction 1 as [|c d s t Hcd _ IH]; [reflexivity|].
  cbn [lower]. now rewrite (SameLetter_to_lower c d Hcd), IH.
Qed.

Lemma lower_app (a b : string) :
  lower (a ++ b) = (lower a ++ lower b)%string.
Proof.
  induction a as [|c a IH]; simpl; [reflexivity | now rewrite IH].
Qed.

Lemma lower_split (a b : string) :
  forall s,
    lower s = (a ++ b)%string ->
    exists s1 s2, s = (s1 ++ s2)%string /\ lower s1 = a /\ lower s2 = b.
Proof.
  induction a as [|x a IH]; intros s H.
  - exists EmptyString, s. auto.
  - destruct s as [|c s]; [discriminate|]. simpl in H. injection H as Hx H.
    destruct (IH s H) as [s1 [s2 [-> [H1 H2]]]].
    exists (String c s1), s2. simpl. rewrite Hx, H1. auto.
Qed.

(** The test of the extensions: the name ends in one of the four
    extensions, the case of the letters apart. *)
Lemma FILENAME_EXTENSIONS_ignoring_case (name : string) :
  FILENAME_EXTENSIONS_test name = true <->
  exists ext,
    In ext [".js"; ".mjs"; ".gz"; ".br"]%string /\ EndsIgnoringCase ext name.
Proof.
  assert (Hfix : forall ext,
             In ext [".js"; ".mjs"; ".gz"; ".br"]%string -> lower ext = ext).
  { intros ext H. simpl in H.
    destruct H as [<-|[<-|[<-|[<-|[]]]]]; reflexivity. }
  rewrite FILENAME_EXTENSIONS_test_spec. split.
  - intros [ext [pre [Hin H]]]. exists ext. split; [exact Hin|].
    destruct (lower_split pre ext name H) as [s1 [s2 [-> [_ H2]]]].
    exists s1, s2. split; [reflexivity|]. rewrite <- H2. apply SameText_lower.
  - intros [ext [Hin [pre [suf [-> H]]]]]. exists ext, (lower pre).
    split; [exact Hin|]. rewrite lower_app. f_equal.
    rewrite (lower_SameText _ _ H). now apply Hfix.
Qed.

(** *** Exclusion patterns *)

Lemma prefix_spec (p s : string) :
  String.prefix p s = true <-> exists post, s = (p ++ post)%string.
Proof.
  revert s. induction p as [|a p IH]; intros s.
  - destruct s; simpl; split; eauto.
  - destruct s as [|b s]; simpl.
    + split; [discriminate | intros [post H]; discriminate].
    + destruct (ascii_dec a b) as [->|Hne].
      * rewrite IH. split; intros [post H]; exists post; congruence.
      * split; [discriminate | intros [post H]; congruence].
Qed.

Lemma is_substring_spec (p s : string) :
  is_substring p s = true <->
  exists pre post, s = (pre ++ p ++ post)%string.
Proof.
  induction s as [|c s IH]; cbn [is_substring].
  - rewrite orb_false_r, prefix_spec. split.
    + intros [post H]. now exists EmptyString, post.
    + intros [pre [post H]]. destruct pre; [now exists post | discriminate].
  - rewrite orb_true_iff, prefix_spec, IH. split.
    + intros [[post H]|[pre [post H]]].
      * now exists EmptyString, post.
      * exists (String c pre), post. simpl. now rewrite H.
    + intros [pre [post H]]. destruct pre as [|d pre].
      * left. now exists post.
      * right. simpl in H. injection H as _ H. now exists pre, post.
Qed.

Lemma exclude_test_spec (RegExp : Type)
    (regexp_test : RegExp -> string -> bool) (p : ExcludePattern RegExp)
    (name : string) :
  exclude_test RegExp regexp_test p name = true <->
  Excludes regexp_test p name.
Proof.
  destruct p as [s|r|f]; cbn [exclude_test Excludes];
    [apply is_substring_spec | reflexivity | reflexivity].
Qed.

Lemma stripAsset_Renamed (a0 a : Asset) : a = stripAsset a0 <-> Renamed a0 a.
Proof.
  unfold Renamed, stripAsset, rename. split.
  - intros ->. cbn. split; [apply strip_query_Stripped | auto].
  - intros [Hn [Hs [Hc Hi]]].
    pose proof (Stripped_unique _ _ _ Hn (strip_query_Stripped (a_name a0)))
      as Hname.
    destruct a as [n sz c i]. cbn in *. congruence.
Qed.

(** The callback of [_.filter], for any test [included] of the names. *)
Lemma filterAssets_retained (included : string -> bool) (assets : list Asset)
    (a : Asset) :
  In a (filterAssets included assets) <->
  exists a0,
    In a0 assets
    /\ Renamed a0 a
    /\ (exists ext,
           In ext [".js"; ".mjs"; ".gz"; ".br"]%string
           /\ EndsIgnoringCase ext (a_name a))
    /\ a_chunks a <> []
    /\ included (a_name a) = true.
Proof.
  unfold filterAssets. rewrite filter_In, in_map_iff. unfold keepAsset. split.
  - intros [[a0 [Ha0 Hin]] Hkeep].
    apply andb_true_iff in Hkeep. destruct Hkeep as [Hkeep Hincl].
    apply andb_true_iff in Hkeep. destruct Hkeep as [Hext Hchunks].
    exists a0. split; [exact Hin|].
    split; [now apply stripAsset_Renamed|].
    split; [now apply FILENAME_EXTENSIONS_ignoring_case|].
    split; [destruct (a_chunks a); [discriminate | congruence] | exact Hincl].
  - intros [a0 [Hin [Hren [Hext [Hchunks Hincl]]]]]. split.
    + exists a0. split; [symmetry; now apply stripAsset_Renamed | exact Hin].
    + apply FILENAME_EXTENSIONS_ignoring_case in Hext. rewrite Hext, Hincl.
      destruct (a_chunks a); [congruence | reflexivity].
Qed.

Lemma filterAssets_order (included : string -> bool) (assets : list Asset) :
  exists kept,
    Subseq kept assets
    /\ Forall2 Renamed kept (filterAssets included assets).
Proof.
  exists (filter (fun a0 => keepAsset included (stripAsset a0)) assets).
  split; [apply Subseq_filter|].
  unfold filterAssets. induction assets as [|a0 tl IH]; cbn [filter map].
  - constructor.
  - destruct (keepAsset included (stripAsset a0)); [|exact IH].
    constructor; [now apply stripAsset_Renamed | exact IH].
Qed.



(** ** The modules of an asset *)

Lemma compact_app (l1 l2 : list PoolItem) :
  compact (l1 ++ l2) = compact l1 ++ compact l2.
Proof.
  induction l1 as [|[|ms|m] tl IH]; simpl; [reflexivity | exact IH | |];
    now rewrite IH.
Qed.

Lemma flatten_app (l1 l2 : list (list StatModule + StatModule)) :
  flatten (l1 ++ l2) = flatten l1 ++ flatten l2.
Proof.
  induction l1 as [|[ms|m] tl IH]; simpl; [reflexivity | |].
  - now rewrite IH, app_assoc.
  - now rewrite IH.
Qed.

Lemma flatten_chunks (chunks : option (list Chunk)) :
  flatten (compact (map_modules chunks))
  = List.concat
      (map chunk_modules (match chunks with Some cs => cs | None => [] end)).
Proof.
  destruct chunks as [cs|]; [|reflexivity]. simpl.
  induction cs as [|c tl IH]; simpl; [reflexivity|].
  unfold chunk_modules at 1. destruct (c_modules c); simpl; now rewrite IH.
Qed.

Lemma flatten_top_modules (modules : option (list StatModule)) :
  flatten
    (compact
       match modules with
       | None => [ItemUndefined]
       | Some ms => map ItemModule ms
       end)
  = match modules with Some ms => ms | None => [] end.
Proof.
  destruct modules as [ms|]; [|reflexivity].
  induction ms as [|m tl IH]; simpl; [reflexivity | now rewrite IH].
Qed.

(** The lodash chain of [getBundleModules] up to [flatten] yields the pool
    as the spec words it. *)
Lemma flatten_pool (bundleStats : Stats) :
  flatten
    (compact
       (concat_modules (map_modules (s_chunks bundleStats))
          (s_modules bundleStats)))
  = spec_pool bundleStats.
Proof.
  unfold concat_modules, spec_pool.
  now rewrite compact_app, flatten_app, flatten_chunks, flatten_top_modules.
Qed.

Lemma seen_In (seen : list Id) (x : Id) :
  existsb (Id_eqb x) seen = true <-> In x seen.
Proof. apply includes_In. Qed.

Lemma uniqBy_Subseq (l : list StatModule) :
  forall seen, Subseq (uniqBy_id_from seen l) l.
Proof.
  induction l as [|m tl IH]; intros seen; simpl; [constructor|].
  destruct (existsb (Id_eqb (m_id m)) seen); constructor; apply IH.
Qed.

Lemma uniqBy_unseen (l : list StatModule) :
  forall seen m, In m (uniqBy_id_from seen l) -> ~ In (m_id m) seen.
Proof.
  induction l as [|x tl IH]; intros seen m; simpl; [tauto|].
  destruct (existsb (Id_eqb (m_id x)) seen) eqn:E.
  - apply IH.
  - intros [<-|Hin].
    + intros Hseen. apply seen_In in Hseen. congruence.
    + intros Hseen. apply (IH _ _ Hin). now right.
Qed.

Lemma uniqBy_NoDup (l : list StatModule) :
  forall seen, NoDup (map m_id (uniqBy_id_from seen l)).
Proof.
  induction l as [|x tl IH]; intros seen; simpl; [constructor|].
  destruct (existsb (Id_eqb (m_id x)) seen); [apply IH|].
  simpl. constructor; [|apply IH].
  intros Hin. apply in_map_iff in Hin. destruct Hin as [m [Hid Hm]].
  apply uniqBy_unseen in Hm. apply Hm. left. congruence.
Qed.

Lemma uniqBy_covers (l : list StatModule) :
  forall seen m,
    In m l ->
    In (m_id m) seen
    \/ exists m', In m' (uniqBy_id_from seen l) /\ m_id m' = m_id m.
Proof.
  induction l as [|x tl IH]; intros seen m; simpl; [tauto|].
  intros [->|Hin].
  - destruct (existsb (Id_eqb (m_id m)) seen) eqn:E.
    + left. now apply seen_In.
    + right. exists m. split; [now left | reflexivity].
  - destruct (existsb (Id_eqb (m_id x)) seen) eqn:E.
    + apply IH. assumption.
    + destruct (IH (m_id x :: seen) m Hin) as [[Hx|Hseen]|[m' [Hm' Hid]]].
      * right. exists x. split; [now left | assumption].
      * now left.
      * right. exists m'. split; [now right | assumption].
Qed.

Lemma uniqBy_first (l : list StatModule) :
  forall seen m,
    In m (uniqBy_id_from seen l) -> first_with_id (m_id m) l = Some m.
Proof.
  unfold first_with_id.
  induction l as [|x tl IH]; intros seen m; simpl; [tauto|].
  destruct (existsb (Id_eqb (m_id x)) seen) eqn:E.
  - intros Hin. pose proof (uniqBy_unseen _ _ _ Hin) as Hunseen.
    destruct (Id_eqb (m_id x) (m_id m)) eqn:Ex.
    + apply Id_eqb_eq in Ex. apply seen_In in E. rewrite Ex in E. contradiction.
    + eapply IH. eassumption.
  - intros [<-|Hin].
    + now rewrite Id_eqb_refl.
    + pose proof (uniqBy_unseen _ _ _ Hin) as Hunseen.
      destruct (Id_eqb (m_id x) (m_id m)) eqn:Ex.
      * apply Id_eqb_eq in Ex. exfalso. apply Hunseen. now left.
      * eapply IH. eassumption.
Qed.

Lemma assetHasModule_spec (statAsset : Asset) (statModule : StatModule) :
  assetHasModule statAsset statModule = true <->
  exists c, In c (m_chunks statModule) /\ In c (a_chunks statAsset).
Proof.
  unfold assetHasModule. rewrite existsb_exists.
  split; intros [c [Hc H]]; exists c; split; try assumption;
    now apply includes_In.
Qed.

(** C5: the modules matched to an asset are the modules of every chunk
    followed by the top-level modules, with every module left out that has
    the id of an earlier one (the first one with an id stays, the order is
    kept), restricted to the modules that share a chunk with the asset.
    The functions are total, and an asset that shares a chunk with no
    module gets the empty list. *)
Theorem C5_matched_modules :
  forall (bundleStats : Stats) (statAsset : Asset),
    let pool := spec_pool bundleStats in
    let unique := getBundleModules bundleStats in
    unique = uniqBy_id pool
    /\ Subseq unique pool
    /\ NoDup (map m_id unique)
    /\ (forall m, In m pool ->
          exists m', first_with_id (m_id m) pool = Some m' /\ In m' unique)
    /\ (forall m, In m unique -> first_with_id (m_id m) pool = Some m)
    /\ Subseq (pickModules statAsset unique) unique
    /\ (forall m,
          In m (pickModules statAsset unique) <->
          In m unique
          /\ exists c, In c (m_chunks m) /\ In c (a_chunks statAsset))
    /\ ((forall m, In m unique ->
           forall c, In c (m_chunks m) -> ~ In c (a_chunks statAsset)) ->
        pickModules statAsset unique = []).
Proof.
  intros bundleStats statAsset pool unique.
  assert (Hu : unique = uniqBy_id pool).
  { unfold unique, getBundleModules. now rewrite flatten_pool. }
  rewrite Hu. unfold uniqBy_id.
  split; [reflexivity|].
  split; [apply uniqBy_Subseq|].
  split; [apply uniqBy_NoDup|].
  split.
  { intros m Hm.
    destruct (uniqBy_covers pool [] m Hm) as [[]|[m' [Hm' Hid]]].
    exists m'. split; [|assumption].
    rewrite <- Hid. eapply uniqBy_first. eassumption. }
  split; [intros m Hm; eapply uniqBy_first; eassumption|].
  split; [apply Subseq_filter|].
  split.
  { intros m. unfold pickModules. rewrite filter_In, assetHasModule_spec.
    reflexivity. }
  intros Hnone. unfold pickModules.
  induction (uniqBy_id_from [] pool) as [|m tl IH]; simpl; [reflexivity|].
  destruct (assetHasModule statAsset m) eqn:E.
  - apply assetHasModule_spec in E. destruct E as [c [Hc Ha]].
    exfalso. apply (Hnone m (or_introl eq_refl) c Hc Ha).
  - apply IH. intros m' Hm'. apply Hnone. now right.
Qed.

(** ** Assets that come from a child build *)

Lemma mentions_asset_spec (assetName : string) (c : Stats) :
  mentions_asset assetName c = true <-> maps_to_asset c assetName.
Proof.
  unfold mentions_asset, names_assetsByChunkName, maps_to_asset.
  rewrite existsb_exists. split.
  - intros [x [Hin E]]. apply String.eqb_eq in E. subst x.
    destruct (s_assetsByChunkName c) as [byName|]; [|contradiction].
    apply in_concat in Hin. destruct Hin as [files [Hfiles Hin]].
    apply in_map_iff in Hfiles. destruct Hfiles as [[chunkName files'] [E Hpair]].
    simpl in E. subst files'. now exists byName, chunkName, files.
  - intros [byName [chunkName [files [-> [Hpair Hin]]]]].
    exists assetName. split; [|apply String.eqb_refl].
    apply in_concat. exists files. split; [|assumption].
    apply in_map_iff. now exists (chunkName, files).
Qed.

Lemma find_first {A : Type} (f : A -> bool) (l : list A) (x : A) :
  find f l = Some x ->
  f x = true
  /\ exists before after,
       l = before ++ x :: after /\ Forall (fun y => f y = false) before.
Proof.
  induction l as [|y tl IH]; simpl; [discriminate|].
  destruct (f y) eqn:E.
  - intros H. inversion H; subst. split; [assumption|].
    exists [], tl. split; [reflexivity | constructor].
  - intros H. destruct (IH H) as [Hx [before [after [-> Hbefore]]]].
    split; [assumption|]. exists (y :: before), after.
    split; [reflexivity | now constructor].
Qed.

Lemma projectAsset_empty_tree (filename : string) (asset : AssetEntry)
    (calls : Calls) :
  e_tree asset = Folder "." None None [] ->
  projectAsset filename asset calls
  = (Ok (mkAssetChart filename true (e_size asset) (e_parsedSize asset)
           (e_gzipSize asset) []), calls).
Proof.
  intros H. unfold projectAsset. rewrite H. reflexivity.
Qed.

(** C6: for an asset flagged [isChild] the modules are drawn from the first
    child of the stats object whose [assetsByChunkName] maps a chunk name
    to the name of the asset, not from the stats object itself; when no
    child does, the asset gets no module, its tree is the empty root, and
    its record is produced without an error, with the declared size of the
    asset as [statSize] and no groups. *)
Theorem C6_child_asset_modules :
  forall gmp bl gz (bundleStats : Stats) (parsed : option Parsed)
         (statAsset : Asset),
    a_isChild statAsset = true ->
    match getChildAssetBundles bundleStats (a_name statAsset) with
    | Some child =>
        maps_to_asset child (a_name statAsset)
        /\ (exists before after,
               s_children bundleStats = Some (before ++ child :: after)
               /\ Forall (fun c => ~ maps_to_asset c (a_name statAsset)) before)
        /\ assetPool bundleStats statAsset = getBundleModules child
        /\ assetModules bundleStats parsed statAsset
           = map (attachSrc parsed)
               (pickModules statAsset (getBundleModules child))
    | None =>
        (forall cs c,
            s_children bundleStats = Some cs -> In c cs ->
            ~ maps_to_asset c (a_name statAsset))
        /\ assetModules bundleStats parsed statAsset = []
        /\ e_tree (assetEntry gmp bl gz bundleStats parsed statAsset)
           = Folder "." None None []
        /\ forall filename calls,
             projectAsset filename
               (assetEntry gmp bl gz bundleStats parsed statAsset) calls
             = (Ok (mkAssetChart filename true (a_size statAsset)
                      (e_parsedSize
                         (assetEntry gmp bl gz bundleStats parsed statAsset))
                      (e_gzipSize
                         (assetEntry gmp bl gz bundleStats parsed statAsset))
                      []),
                calls)
    end.
Proof.
  intros gmp bl gz bundleStats parsed statAsset Hchild.
  unfold assetModules, assetPool. rewrite Hchild.
  destruct (getChildAssetBundles bundleStats (a_name statAsset)) as [child|]
    eqn:Hfind.
  - unfold getChildAssetBundles in Hfind.
    destruct (s_children bundleStats) as [cs|]; [|discriminate].
    apply find_first in Hfind.
    destruct Hfind as [Hm [before [after [-> Hbefore]]]].
    split; [now apply mentions_asset_spec|].
    split; [|split; reflexivity].
    exists before, after. split; [reflexivity|].
    eapply Forall_impl; [|exact Hbefore].
    intros c Hc Hmaps. apply mentions_asset_spec in Hmaps. congruence.
  - assert (Hmods : assetModules bundleStats parsed statAsset = []).
    { unfold assetModules, assetPool. rewrite Hchild, Hfind. reflexivity. }
    assert (Htree : e_tree (assetEntry gmp bl gz bundleStats parsed statAsset)
                    = Folder "." None None []).
    { unfold assetEntry. simpl. rewrite Hmods. reflexivity. }
    split.
    { intros cs c Hcs Hin Hmaps. unfold getChildAssetBundles in Hfind.
      rewrite Hcs in Hfind. apply mentions_asset_spec in Hmaps.
      pose proof (find_none _ _ Hfind c Hin) as Hno. congruence. }
    split; [reflexivity|].
    split; [exact Htree|].
    intros filename calls.
    now rewrite (projectAsset_empty_tree filename _ calls Htree).
Qed.

(** C6, worked example: the asset [child.js] is matched against the
    modules of the second child, which lists it under the chunk name
    [main], and not against the module of the stats object itself. *)
Lemma C6_child_asset_modules_witness :
  a_isChild c6_asset = true
  /\ getChildAssetBundles c6_stats (a_name c6_asset) = Some c6_child
  /\ assetModules c6_stats None c6_asset = [c6_module].
Proof.
  split; [reflexivity|]. split; [reflexivity|].
  pose proof (C6_child_asset_modules sample_pathParts sample_byteLength
                sample_gzipSync c6_stats None c6_asset eq_refl) as H.
  change (getChildAssetBundles c6_stats (a_name c6_asset)) with (Some c6_child)
    in H.
  destruct H as [_ [_ [_ H]]]. rewrite H. reflexivity.
Defined.

(** ** Insertion over a leaf *)

Lemma descend_insertModule (opts : option Opts) (module : Node)
    (rest : list string) (pre : list string) :
  forall ch chk,
    descend pre ch = Some chk ->
    descend pre (insertModule opts (pre ++ rest) module ch)
    = Some (insertModule opts rest module chk).
Proof.
  induction pre as [|f pre IH]; intros ch chk H; simpl in *.
  - congruence.
  - destruct (getChild f ch) as [[name o g sub| |]|] eqn:E; try discriminate.
    unfold setChild, getChild. rewrite obj_get_set_same.
    apply IH. assumption.
Qed.

Lemma insertModule_over_leaf (opts : option Opts) (module leaf : Node)
    (seg : string) (post : list string) (chk : list (string * Node)) :
  getChild seg chk = Some leaf ->
  is_folder leaf = false ->
  insertModule opts (seg :: post) module chk
  = setChild seg
      (Folder seg opts None (insertModule opts post module [])) chk.
Proof.
  intros Hget Hleaf. simpl. rewrite Hget.
  destruct leaf; [discriminate | reflexivity | reflexivity].
Qed.

Lemma descend_app (a b : list string) :
  forall ch,
    descend (a ++ b) ch
    = match descend a ch with
      | Some c => descend b c
      | None => None
      end.
Proof.
  induction a as [|f a IH]; intros ch; simpl; [reflexivity|].
  destruct (getChild f ch) as [[name o g sub| |]|]; auto.
Qed.

Lemma descend_fresh (opts : option Opts) (module : Node) (post : list string) :
  descend post (insertModule opts post module [])
  = Some (addChildModule module []).
Proof.
  induction post as [|f post IH]; [reflexivity|].
  cbn [insertModule getChild obj_get]. unfold addChildFolder.
  cbn [node_name setChild obj_set descend]. unfold getChild.
  cbn [obj_get]. rewrite String.eqb_refl. exact IH.
Qed.

Lemma insertModule_into_empty (opts : option Opts) (module : Node)
    (folders : list string) :
  List.length (insertModule opts folders module []) = 1%nat.
Proof. destruct folders; reflexivity. Qed.

(** C7: when [addModule] walks the folder segments of a module's path and
    finds, at some segment, a child that is not a folder (a leaf inserted
    before under that name), the child is replaced by a new folder with the
    segment as its name: after the insertion the name is bound to a folder
    that holds nothing but the rest of the inserted path, so the former
    leaf is gone; the other children of that position are untouched. *)
Theorem C7_leaf_on_the_path_is_replaced :
  forall gmp (moduleData : StatModule) (name : string) (opts : option Opts)
         (g : option Z) (ch : list (string * Node))
         (pathParts pre post : list string) (seg : string) (leaf : Node)
         (chk : list (string * Node)),
    gmp moduleData = Some pathParts ->
    folders_of pathParts = pre ++ seg :: post ->
    descend pre ch = Some chk ->
    getChild seg chk = Some leaf ->
    is_folder leaf = false ->
    let module := newModule gmp opts (fileName_of pathParts) moduleData in
    let fresh := Folder seg opts None (insertModule opts post module []) in
    exists ch' chk',
      addModule gmp (Folder name opts g ch) moduleData
      = Folder name opts g ch'
      /\ descend pre ch' = Some chk'
      /\ getChild seg chk' = Some fresh
      /\ List.length (node_children fresh) = 1%nat
      /\ descend (pre ++ seg :: post) ch' = Some (addChildModule module [])
      /\ map fst chk' = map fst chk
      /\ (forall k, k <> seg -> getChild k chk' = getChild k chk).
Proof.
  intros gmp moduleData name opts g ch pathParts pre post seg leaf chk
         Hparts Hfolders Hdesc Hget Hleaf module fresh.
  exists (insertModule opts (folders_of pathParts) module ch).
  exists (setChild seg fresh chk).
  split.
  { unfold addModule. rewrite Hparts. reflexivity. }
  assert (Hd : descend pre (insertModule opts (folders_of pathParts) module ch)
               = Some (setChild seg fresh chk)).
  { rewrite Hfolders.
    rewrite (descend_insertModule opts module (seg :: post) pre ch chk Hdesc).
    now rewrite (insertModule_over_leaf opts module leaf seg post chk Hget Hleaf). }
  split; [exact Hd|].
  split; [apply obj_get_set_same|].
  split; [apply insertModule_into_empty|].
  split.
  { rewrite descend_app, Hd. simpl. unfold setChild, getChild.
    rewrite obj_get_set_same. apply descend_fresh. }
  split; [eapply obj_set_keys_present; exact Hget|].
  intros k Hk. apply obj_get_set_other. assumption.
Qed.

(** C7, worked example: [./src] was inserted as a module, then
    [./src/a.js] is inserted; [src] becomes a folder that holds only
    [a.js]. *)
Lemma C7_leaf_on_the_path_is_replaced_witness :
  exists ch',
    addModule sample_pathParts c7_root c7_second
    = Folder "." None None ch'
    /\ getChild "src" ch'
       = Some (Folder "src" None None
                 [("a.js"%string, Module "a.js" c7_second None None)]).
Proof.
  destruct (C7_leaf_on_the_path_is_replaced sample_pathParts c7_second "."
              None None
              [("src"%string, Module "src" c7_first None None)]
              ["src"; "a.js"]%string [] [] "src"
              (Module "src" c7_first None None)
              [("src"%string, Module "src" c7_first None None)]
              eq_refl eq_refl eq_refl eq_refl eq_refl)
    as [ch' [chk' [Hadd [Hdesc [Hget _]]]]].
  exists ch'. split; [exact Hadd|].
  simpl in Hdesc. inversion Hdesc; subst chk'. exact Hget.
Defined.

(** ** Reading the compressed size *)

Lemma size_Folder name o g ch : size (Folder name o g ch) = sum_sizes ch.
Proof.
  cbn [size]. induction ch as [|[k c] tl IH]; [reflexivity|].
  cbn [sum_sizes fold_right snd]. now rewrite IH.
Qed.

Lemma node_count_children (n : Node) :
  node_count n =
  match n with
  | Module _ _ _ _ => 1%nat
  | _ => S (count_nodes (node_children n))
  end.
Proof.
  destruct n as [name o g ch|name d o g|name d o g ch]; [|reflexivity|];
    cbn [node_count node_children]; f_equal;
    induction ch as [|[k c] tl IH]; try reflexivity;
    cbn [count_nodes fold_right snd]; now rewrite IH.
Qed.

Lemma sourceless_children (n : Node) :
  sourceless n =
  negb (src_truthy (own_src n)) && cache_clear (node_gzip_cache n)
  && all_sourceless (node_children n).
Proof.
  destruct n as [name o g ch|name d o g|name d o g ch];
    cbn [sourceless own_src src_truthy negb andb node_gzip_cache node_children
         all_sourceless forallb].
  - f_equal. induction ch as [|[k c] tl IH]; [reflexivity|].
    cbn [forallb snd]. now rewrite IH.
  - now rewrite andb_true_r.
  - f_equal. induction ch as [|[k c] tl IH]; [reflexivity|].
    cbn [forallb snd]. now rewrite IH.
Qed.

Lemma text_of_falsy (s : option string) :
  src_truthy s = false <-> text_of s = EmptyString.
Proof.
  destruct s as [[|c s]|]; simpl; split; intros H; congruence.
Qed.

(** A node is source-less when no node of its tree has a source text
    attached; its source string is empty then. *)
Lemma sourceless_src (n : Node) :
  sourceless n = true -> text_of (node_src n) = EmptyString.
Proof.
  assert (Hall : forall ch,
             Forall (fun kc => sourceless (snd kc) = true ->
                               text_of (node_src (snd kc)) = EmptyString) ch ->
             all_sourceless ch = true -> children_src ch = EmptyString).
  { induction 1 as [|[k c] tl Hc _ IH]; intros Hs; [reflexivity|].
    cbn [all_sourceless forallb snd] in Hs. apply andb_true_iff in Hs.
    destruct Hs as [Hs1 Hs2]. cbn [children_src fold_right snd].
    fold (children_src tl). simpl in Hc. now rewrite (Hc Hs1), (IH Hs2). }
  induction n as [name o g ch IH|name d o g|name d o g ch IH]
    using Node_children_ind; rewrite sourceless_children; intros H;
    apply andb_true_iff in H; destruct H as [H Hch];
    apply andb_true_iff in H; destruct H as [Hown _];
    cbn [own_src node_children] in Hown, Hch; apply negb_true_iff in Hown.
  - rewrite node_src_Folder. simpl. now apply Hall.
  - cbn [node_src]. now apply text_of_falsy.
  - rewrite node_src_Concatenated, Hown. simpl. now apply Hall.
Qed.

(** A successful read leaves the value in the cache, calls the compression
    function at most once, and a read from the filled cache answers the
    same value without a call. *)
Lemma read_gzip_once (o : option Opts) (s : option string) (g : option Z)
    (calls calls' : Calls) (v : Z) (g' : option Z) :
  read_gzip o s g calls = (Ok (v, g'), calls') ->
  g' = Some v
  /\ (exists extra, calls' = calls ++ extra /\ (List.length extra <= 1)%nat)
  /\ forall calls2, read_gzip o s g' calls2 = (Ok (v, g'), calls2).
Proof.
  unfold read_gzip, ret, throw. intros H.
  destruct g as [w|].
  - inversion H; subst. repeat split.
    exists []. rewrite app_nil_r. split; [reflexivity | simpl; lia].
  - destruct s as [[|c src]|].
    + inversion H; subst. repeat split.
      exists []. rewrite app_nil_r. split; [reflexivity | simpl; lia].
    + destruct o as [o|]; [|discriminate].
      destruct (compressedSize o calls (String c src)) as [w|]; [|discriminate].
      inversion H; subst. repeat split.
      exists [String c src]. split; [reflexivity | simpl; lia].
    + inversion H; subst. repeat split.
      exists []. rewrite app_nil_r. split; [reflexivity | simpl; lia].
Qed.

(** Without a source text and with a clear cache the read answers 0,
    whatever [opts] is, and calls nothing. *)
Lemma read_gzip_sourceless (o : option Opts) (s : option string)
    (g : option Z) (calls : Calls) :
  src_truthy s = false -> cache_clear g = true ->
  read_gzip o s g calls = (Ok (0, Some 0), calls).
Proof.
  unfold read_gzip, ret. intros Hs Hg.
  destruct g as [w|].
  - simpl in Hg. apply Z.eqb_eq in Hg. now subst.
  - destruct s as [[|c src]|]; try reflexivity. discriminate.
Qed.

Ltac name_invokeMap ch :=
  match goal with
  | |- bind (?F ch) _ _ = _ => set (inner := F)
  end.

Lemma invokeMap_inner (path : string)
    (inner : list (string * Node) -> M (list ChartData * list (string * Node))) :
  (forall k c tl calls,
      inner ((k, c) :: tl) calls
      = ('(cd, c') <- toChartData path c ;;
         '(cds, tl') <- inner tl ;;
         ret (cd :: cds, (k, c') :: tl')) calls) ->
  (forall calls, inner [] calls = ret ([], []) calls) ->
  forall l calls, inner l calls = invokeMap_toChartData path l calls.
Proof.
  intros Hcons Hnil. induction l as [|[k c] tl IH]; intros calls.
  - apply Hnil.
  - rewrite Hcons. cbn [invokeMap_toChartData]. unfold bind.
    destruct (toChartData path c calls) as [[[cd c']|e] calls1]; [|reflexivity].
    now rewrite IH.
Qed.

Lemma toChartData_Folder p name o g ch calls :
  toChartData p (Folder name o g ch) calls =
  ('(groups, ch') <- invokeMap_toChartData (p ++ "/" ++ name)%string ch ;;
   '(v, g') <- read_gzip o (node_src (Folder name o g ch)) g ;;
   ret (mkChartData name (p ++ "/" ++ name)%string (sum_sizes ch)
          (Some (parsedSize_of_src (node_src (Folder name o g ch))))
          (Some v) (Some groups),
        Folder name o g' ch')) calls.
Proof.
  rewrite <- (size_Folder name o g ch).
  cbn [toChartData node_name]. name_invokeMap ch.
  unfold bind at 1 3. rewrite (invokeMap_inner (p ++ "/" ++ name)%string inner);
    reflexivity.
Qed.

Lemma toChartData_Concatenated p name d o g ch calls :
  toChartData p (ConcatenatedModule name d o g ch) calls =
  ('(groups, ch') <- invokeMap_toChartData (p ++ "/" ++ name)%string ch ;;
   '(v, g') <- read_gzip o (node_src (ConcatenatedModule name d o g ch)) g ;;
   ret (mkChartData name (p ++ "/" ++ name)%string (m_size d)
          (if src_truthy (node_src (ConcatenatedModule name d o g ch))
           then Some (parsedSize_of_src
                        (node_src (ConcatenatedModule name d o g ch)))
           else None)
          (Some v) (Some groups),
        ConcatenatedModule name d o g' ch')) calls.
Proof.
  cbn [toChartData node_name]. name_invokeMap ch.
  unfold bind at 1 3. rewrite (invokeMap_inner (p ++ "/" ++ name)%string inner);
    reflexivity.
Qed.

Lemma invokeMap_settles (path : string) (ch : list (string * Node)) :
  Forall (fun kc => settles (snd kc)) ch -> settles_all path ch.
Proof.
  induction 1 as [|[k c] tl Hc _ IH]; intros calls groups ch' calls' H.
  - cbn in H. inversion H; subst. repeat split.
    exists []. rewrite app_nil_r. split; [reflexivity | simpl; lia].
  - cbn [invokeMap_toChartData] in H. unfold bind in H.
    destruct (toChartData path c calls) as [[[cd c']|e] calls1] eqn:E1;
      [|discriminate].
    destruct (invokeMap_toChartData path tl calls1) as [[[cds tl']|e] calls2]
      eqn:E2; [|discriminate].
    unfold ret in H. inversion H; subst. clear H.
    destruct (Hc _ _ _ _ _ E1) as [Hsize [Hsrc [[x1 [-> Hx1]] Hidem]]].
    destruct (IH _ _ _ _ E2) as [Hsizes [Hsrcs [[x2 [-> Hx2]] Hidems]]].
    split; [|split; [|split]].
    + cbn [sum_sizes fold_right snd]. fold (sum_sizes tl') (sum_sizes tl).
      now rewrite Hsize, Hsizes.
    + cbn [children_src fold_right snd].
      fold (children_src tl') (children_src tl).
      simpl in Hsrc. now rewrite Hsrc, Hsrcs.
    + exists (x1 ++ x2). split; [now rewrite app_assoc|].
      cbn [count_nodes fold_right snd]. fold (count_nodes tl).
      rewrite length_app. simpl in Hx1. lia.
    + intros calls3. cbn [invokeMap_toChartData]. unfold bind.
      simpl in Hidem. rewrite Hidem, Hidems. reflexivity.
Qed.

Lemma toChartData_settles (n : Node) : settles n.
Proof.
  induction n as [name o g ch IH|name d o g|name d o g ch IH]
    using Node_children_ind; intros p calls cd n' calls' H.
  - rewrite toChartData_Folder in H. unfold bind in H.
    destruct (invokeMap_toChartData (p ++ "/" ++ name)%string ch calls)
      as [[[groups ch']|e] calls1] eqn:E1; [|discriminate].
    destruct (read_gzip o (node_src (Folder name o g ch)) g calls1)
      as [[[v g']|e] calls2] eqn:E2; [|discriminate].
    unfold ret in H. inversion H; subst. clear H.
    destruct (invokeMap_settles _ _ IH _ _ _ _ E1)
      as [Hsizes [Hsrcs [[x1 [-> Hx1]] Hidems]]].
    destruct (read_gzip_once _ _ _ _ _ _ _ E2) as [-> [[x2 [-> Hx2]] Hidem]].
    assert (Hsrc : node_src (Folder name o (Some v) ch')
                   = node_src (Folder name o g ch)).
    { now rewrite !node_src_Folder, Hsrcs. }
    split; [|split; [|split]].
    + now rewrite !size_Folder.
    + exact Hsrc.
    + exists (x1 ++ x2). split; [now rewrite app_assoc|].
      rewrite node_count_children. cbn [node_children].
      rewrite length_app. lia.
    + intros calls3. rewrite toChartData_Folder. unfold bind.
      rewrite Hidems, Hsrc, Hidem, Hsizes. reflexivity.
  - cbn [toChartData node_name] in H. unfold bind in H.
    destruct (read_gzip o (m_parsedSrc d) g calls) as [[[v g']|e] calls2] eqn:E2;
      [|discriminate].
    unfold ret in H. inversion H; subst. clear H.
    destruct (read_gzip_once _ _ _ _ _ _ _ E2) as [-> [[x2 [-> Hx2]] Hidem]].
    split; [reflexivity|split; [reflexivity|split]].
    + exists x2. split; [reflexivity | exact Hx2].
    + intros calls3. cbn [toChartData node_name]. unfold bind.
      rewrite Hidem. reflexivity.
  - rewrite toChartData_Concatenated in H. unfold bind in H.
    destruct (invokeMap_toChartData (p ++ "/" ++ name)%string ch calls)
      as [[[groups ch']|e] calls1] eqn:E1; [|discriminate].
    destruct (read_gzip o (node_src (ConcatenatedModule name d o g ch)) g calls1)
      as [[[v g']|e] calls2] eqn:E2; [|discriminate].
    unfold ret in H. inversion H; subst. clear H.
    destruct (invokeMap_settles _ _ IH _ _ _ _ E1)
      as [Hsizes [Hsrcs [[x1 [-> Hx1]] Hidems]]].
    destruct (read_gzip_once _ _ _ _ _ _ _ E2) as [-> [[x2 [-> Hx2]] Hidem]].
    assert (Hsrc : node_src (ConcatenatedModule name d o (Some v) ch')
                   = node_src (ConcatenatedModule name d o g ch)).
    { now rewrite !node_src_Concatenated, Hsrcs. }
    split; [reflexivity|split; [|split]].
    + exact Hsrc.
    + exists (x1 ++ x2). split; [now rewrite app_assoc|].
      rewrite node_count_children. cbn [node_children].
      rewrite length_app. lia.
    + intros calls3. rewrite toChartData_Concatenated. unfold bind.
      rewrite Hidems, Hsrc, Hidem. reflexivity.
Qed.

(** C8: a read of [gzipSize] that succeeds calls the compression function
    at most once and leaves its value in the node; every later read of
    that node answers the same value and calls nothing, whatever the
    compression function would answer by then.  Hence a projection of a
    tree that succeeded calls the compression function at most once for
    every node, and a second projection of the tree yields the same chart
    data without a single call. *)
Theorem C8_gzipSize_cached_after_first_read :
  (forall (n n' : Node) (calls calls' : Calls) (v : Z),
      gzipSize n calls = (Ok (v, n'), calls') ->
      node_gzip_cache n' = Some v
      /\ (exists extra,
             calls' = calls ++ extra /\ (List.length extra <= 1)%nat)
      /\ forall calls2, gzipSize n' calls2 = (Ok (v, n'), calls2))
  /\ (forall (path : string) (n n' : Node) (calls calls' : Calls)
             (cd : ChartData),
         toChartData path n calls = (Ok (cd, n'), calls') ->
         (exists extra,
             calls' = calls ++ extra
             /\ (List.length extra <= node_count n)%nat)
         /\ forall calls2, toChartData path n' calls2 = (Ok (cd, n'), calls2)).
Proof.
  split.
  - intros n n' calls calls' v H. unfold gzipSize, bind in H.
    destruct (read_gzip (node_opts n) (node_src n) (node_gzip_cache n) calls)
      as [[[w g']|e] calls1] eqn:E; [|discriminate].
    unfold ret in H. inversion H; subst. clear H.
    destruct (read_gzip_once _ _ _ _ _ _ _ E) as [-> [Hextra Hidem]].
    split; [now destruct n|]. split; [exact Hextra|].
    intros calls2. unfold gzipSize, bind.
    replace (node_opts (set_gzip_cache (Some v) n)) with (node_opts n)
      by now destruct n.
    replace (node_src (set_gzip_cache (Some v) n)) with (node_src n)
      by now destruct n.
    replace (node_gzip_cache (set_gzip_cache (Some v) n)) with (Some v)
      by now destruct n.
    rewrite Hidem. unfold ret. now destruct n.
  - intros path n n' calls calls' cd H.
    destruct (toChartData_settles n path calls cd n' calls' H)
      as [_ [_ [Hextra Hidem]]].
    split; assumption.
Qed.

(** C8, worked example: with a compression function whose answers grow
    with every call, the first projection of a folder with two modules
    calls it three times; a second projection, after those calls, yields
    the same chart data and calls nothing. *)
Lemma C8_gzipSize_cached_after_first_read_witness :
  exists cd n',
    toChartData "." c8_tree [] = (Ok (cd, n'), ["aa"; "bbb"; "aabbb"]%string)
    /\ cd_gzipSize cd = Some 7
    /\ toChartData "." n' ["aa"; "bbb"; "aabbb"]%string
       = (Ok (cd, n'), ["aa"; "bbb"; "aabbb"]%string).
Proof.
  destruct (toChartData "." c8_tree []) as [[[cd n']|e] calls'] eqn:E;
    [|vm_compute in E; discriminate].
  destruct C8_gzipSize_cached_after_first_read as [_ Hproj].
  destruct (Hproj "."%string c8_tree n' [] calls' cd E) as [_ Hidem].
  assert (Hcalls : calls' = ["aa"; "bbb"; "aabbb"]%string).
  { vm_compute in E. inversion E. reflexivity. }
  assert (Hgz : cd_gzipSize cd = Some 7).
  { vm_compute in E. inversion E. reflexivity. }
  subst calls'. exists cd, n'. split; [reflexivity|]. split; [exact Hgz|].
  apply Hidem.
Defined.

(** ** Nodes without a source text *)

Lemma invokeMap_quiet (path : string) (ch : list (string * Node)) :
  Forall (fun kc => projects_quietly (snd kc)) ch ->
  all_sourceless ch = true ->
  forall calls,
    exists groups ch',
      invokeMap_toChartData path ch calls = (Ok (groups, ch'), calls).
Proof.
  induction 1 as [|[k c] tl Hc _ IH]; intros Hall calls.
  - now exists [], [].
  - cbn [all_sourceless forallb snd] in Hall. apply andb_true_iff in Hall.
    destruct Hall as [Hsrc Hall].
    destruct (Hc Hsrc path calls) as [cd [c' [E _]]].
    destruct (IH Hall calls) as [cds [tl' E']].
    exists (cd :: cds), ((k, c') :: tl').
    cbn [invokeMap_toChartData]. unfold bind. simpl in E. now rewrite E, E'.
Qed.

Lemma sourceless_parts (n : Node) :
  sourceless n = true ->
  src_truthy (node_src n) = false
  /\ cache_clear (node_gzip_cache n) = true
  /\ all_sourceless (node_children n) = true.
Proof.
  intros Hs. split; [apply text_of_falsy; now apply sourceless_src|].
  rewrite sourceless_children in Hs.
  apply andb_true_iff in Hs. destruct Hs as [H Hall].
  apply andb_true_iff in H. destruct H as [_ Hcache]. auto.
Qed.

Lemma toChartData_quiet (n : Node) : projects_quietly n.
Proof.
  induction n as [name o g ch IH|name d o g|name d o g ch IH]
    using Node_children_ind; intros Hs p calls;
    destruct (sourceless_parts _ Hs) as [Hsrc [Hcache Hall]];
    cbn [node_gzip_cache node_children] in Hcache, Hall.
  - destruct (invokeMap_quiet (p ++ "/" ++ name)%string ch IH Hall calls)
      as [groups [ch' E]].
    eexists. eexists. rewrite toChartData_Folder. unfold bind.
    rewrite E, (read_gzip_sourceless o _ g calls Hsrc Hcache).
    split; reflexivity.
  - cbn [node_src] in Hsrc.
    eexists. eexists. cbn [toChartData node_name]. unfold bind.
    rewrite (read_gzip_sourceless o _ g calls Hsrc Hcache).
    split; reflexivity.
  - destruct (invokeMap_quiet (p ++ "/" ++ name)%string ch IH Hall calls)
      as [groups [ch' E]].
    eexists. eexists. rewrite toChartData_Concatenated. unfold bind.
    rewrite E, (read_gzip_sourceless o _ g calls Hsrc Hcache).
    split; reflexivity.
Qed.

(** C10: a node without a source text, read for the first time or after
    earlier reads, answers 0 as its [gzipSize] and the compression
    function is not called, whatever the node's options are, none
    included.  The root that [createModulesTree] makes has no options; a
    read of its [gzipSize] succeeds with 0 when it has no source text, and
    the projection of a tree in which no node has a source text succeeds
    without a call. *)
Theorem C10_gzipSize_without_source :
  (forall (n : Node) (calls : Calls),
      src_truthy (node_src n) = false ->
      cache_clear (node_gzip_cache n) = true ->
      gzipSize n calls = (Ok (0, set_gzip_cache (Some 0) n), calls))
  /\ (forall gmp (modules : list StatModule) (calls : Calls),
         let root := createModulesTree gmp modules in
         node_opts root = None
         /\ node_gzip_cache root = None
         /\ (src_truthy (node_src root) = false ->
             gzipSize root calls = (Ok (0, set_gzip_cache (Some 0) root), calls)))
  /\ (forall (n : Node) (path : string) (calls : Calls),
         sourceless n = true ->
         exists cd n',
           toChartData path n calls = (Ok (cd, n'), calls)
           /\ cd_gzipSize cd = Some 0).
Proof.
  assert (Hread : forall (n : Node) (calls : Calls),
             src_truthy (node_src n) = false ->
             cache_clear (node_gzip_cache n) = true ->
             gzipSize n calls = (Ok (0, set_gzip_cache (Some 0) n), calls)).
  { intros n calls Hsrc Hcache. unfold gzipSize, bind.
    now rewrite (read_gzip_sourceless _ _ _ calls Hsrc Hcache). }
  split; [exact Hread|]. split.
  - intros gmp modules calls root.
    destruct (createModulesTree_root gmp modules) as [ch Hroot].
    subst root. rewrite Hroot. cbn [node_opts node_gzip_cache].
    split; [reflexivity|]. split; [reflexivity|].
    intros Hsrc. now apply Hread.
  - intros n path calls Hs. now apply toChartData_quiet.
Qed.

(** C10, worked example: the tree of two modules without a source text,
    built without options, is projected without an error although a call
    of the compression function would have failed. *)
Lemma C10_gzipSize_without_source_witness :
  sourceless c10_tree = true
  /\ node_opts c10_tree = None
  /\ (exists n', gzipSize c10_tree [] = (Ok (0, n'), []))
  /\ exists cd n',
       toChartData "" c10_tree [] = (Ok (cd, n'), [])
       /\ cd_gzipSize cd = Some 0.
Proof.
  destruct C10_gzipSize_without_source as [Hread [Hroot Hquiet]].
  split; [reflexivity|]. split; [reflexivity|]. split.
  - eexists. apply (Hread c10_tree []); reflexivity.
  - apply (Hquiet c10_tree ""%string []). reflexivity.
Defined.

(** ** Runs of the analysis on the sample build *)

Example strip_query_example :
  strip_query "bundle.js?what=is-this-for" = "bundle.js"%string
  /\ strip_query "a?b?c" = "a"%string
  /\ strip_query "plain.js" = "plain.js"%string.
Proof. repeat split. Qed.

Example FILENAME_EXTENSIONS_example :
  FILENAME_EXTENSIONS_test "bundle.JS" = true
  /\ FILENAME_EXTENSIONS_test "lib.mjs" = true
  /\ FILENAME_EXTENSIONS_test "bundle.js.gz" = true
  /\ FILENAME_EXTENSIONS_test "bundle.jsx" = false
  /\ FILENAME_EXTENSIONS_test "style.css" = false.
Proof. repeat split. Qed.

(** Without a bundle directory the record of [bundle.js] carries the sum
    141 of the module sizes and no parsed or compressed size. *)
Example getViewerData_sample :
  sample_getViewerData sample_stats None [] []
  = (Ok [mkAssetChart "bundle.js" true 141 None None sample_groups], []).
Proof. vm_compute. reflexivity. Qed.

(** The query is cut off the file name, the excluded script and the style
    sheet are not reported. *)
Example getViewerData_sample_query :
  sample_getViewerData sample_stats_query None ["manifest"%string] []
  = (Ok [mkAssetChart "bundle.js" true 141 None None sample_groups], []).
Proof. vm_compute. reflexivity. Qed.

(** * Further properties *)

#[local] Set Warnings "-notation-for-abbreviation".

(** ** Escaping JSON for a script element *)

Lemma escape_lt_app (a b : string) :
  escape_lt (a ++ b) = (escape_lt a ++ escape_lt b)%string.
Proof.
  induction a as [|c a IH]; simpl; [reflexivity|].
  destruct (Ascii.eqb c "<"); simpl; now rewrite IH.
Qed.

Lemma escape_lt_no_lt (s : string) : has_char "<" (escape_lt s) = false.
Proof.
  induction s as [|c s IH]; simpl; [reflexivity|].
  destruct (Ascii.eqb c "<") eqn:E; simpl; [exact IH|].
  now rewrite E.
Qed.

Lemma escape_lt_length (s : string) :
  String.length (escape_lt s) = (String.length s + 5 * count_char "<" s)%nat.
Proof.
  induction s as [|c s IH]; simpl; [reflexivity|].
  destruct (Ascii.eqb c "<"); simpl; rewrite IH; lia.
Qed.

Lemma escape_lt_fixed (s : string) :
  escape_lt s = s <-> has_char "<" s = false.
Proof.
  split.
  - intros H. rewrite <- H. apply escape_lt_no_lt.
  - induction s as [|c s IH]; simpl; [reflexivity|].
    intros H. apply orb_false_iff in H. destruct H as [Hc Hs].
    rewrite Hc. now rewrite IH.
Qed.

(** X1: the text [escapeJson] returns holds no less-than sign, whatever
    [JSON.stringify] produced; it is that text with every less-than sign
    replaced by the six characters of its escape (five characters more for
    each), piece by piece, and it is the text itself exactly when that
    holds no less-than sign. *)
Theorem X1_escapeJson_has_no_less_than :
  forall (Json : Type) (stringify : Json -> string) (json : Json),
    has_char "<" (escapeJson Json stringify json) = false
    /\ String.length (escapeJson Json stringify json)
       = (String.length (stringify json)
          + 5 * count_char "<" (stringify json))%nat
    /\ (escapeJson Json stringify json = stringify json <->
        has_char "<" (stringify json) = false)
    /\ (forall a b : string,
           escape_lt (a ++ b) = (escape_lt a ++ escape_lt b)%string).
Proof.
  intros Json stringify json. unfold escapeJson.
  split; [apply escape_lt_no_lt|].
  split; [apply escape_lt_length|].
  split; [apply escape_lt_fixed | apply escape_lt_app].
Qed.

Example escape_lt_example :
  escape_lt "[1,</script>]" = "[1,\u003c/script>]"%string.
Proof. reflexivity. Qed.

(** ** The plugin's [done] handler *)

Lemma handleDeprecated_mode (o : PluginOpts) :
  analyzerMode (handleDeprecated o)
  = if String.eqb (analyzerMode o) "server" && negb (startAnalyzer o)
    then "disabled"%string else analyzerMode o.
Proof.
  unfold handleDeprecated.
  destruct (String.eqb (analyzerMode o) "server" && negb (startAnalyzer o));
    reflexivity.
Qed.

Lemma handleDeprecated_stable (o : PluginOpts) :
  handleDeprecated (handleDeprecated o) = handleDeprecated o.
Proof.
  unfold handleDeprecated at 2 3.
  destruct (String.eqb (analyzerMode o) "server" && negb (startAnalyzer o))
    eqn:E; [reflexivity|].
  unfold handleDeprecated. now rewrite E.
Qed.

Lemma handleDeprecated_others (o : PluginOpts) :
  set_analyzerMode (analyzerMode o) (handleDeprecated o) = o
  /\ generateStatsFile (handleDeprecated o) = generateStatsFile o
  /\ startAnalyzer (handleDeprecated o) = startAnalyzer o
  /\ statsOptions (handleDeprecated o) = statsOptions o.
Proof.
  unfold handleDeprecated.
  destruct (String.eqb (analyzerMode o) "server" && negb (startAnalyzer o));
    destruct o; repeat split; reflexivity.
Qed.

Lemma planActions_handled (o : PluginOpts) :
  planActions (handleDeprecated o)
  = (if generateStatsFile o then [GenerateStatsFile] else [])
    ++ (if String.eqb (analyzerMode o) "server"
        then if startAnalyzer o then [StartAnalyzerServer] else []
        else if String.eqb (analyzerMode o) "static"
             then [GenerateStaticReport] else []).
Proof.
  destruct (handleDeprecated_others o) as [_ [Hgen _]].
  unfold planActions. rewrite Hgen, handleDeprecated_mode.
  destruct (String.eqb (analyzerMode o) "server") eqn:Es;
    destruct (startAnalyzer o); cbn [andb negb]; rewrite ?Es; reflexivity.
Qed.

(** X2: what the [done] handler defers.  The analyzer server is started
    exactly when the mode is [server] and the deprecated [startAnalyzer]
    flag is not switched off, the static report is generated exactly in
    mode [static], the stats file is written exactly when
    [generateStatsFile] is set, and it comes first; never are both a server
    start and a static report deferred.  A switched-off [startAnalyzer]
    turns mode [server] into [disabled] for good: the handler changes no
    other option and leaves options it has handled once as they are. *)
Theorem X2_done_handler_plan :
  forall o : PluginOpts,
    let o' := handleDeprecated o in
    let actions := planActions o' in
    (In StartAnalyzerServer actions <->
     analyzerMode o = "server"%string /\ startAnalyzer o = true)
    /\ (In GenerateStaticReport actions <-> analyzerMode o = "static"%string)
    /\ (In GenerateStatsFile actions <-> generateStatsFile o = true)
    /\ (exists analyzer,
           actions
           = (if generateStatsFile o then [GenerateStatsFile] else [])
             ++ analyzer
           /\ (List.length analyzer <= 1)%nat
           /\ ~ In GenerateStatsFile analyzer)
    /\ handleDeprecated o' = o'
    /\ set_analyzerMode (analyzerMode o) o' = o
    /\ (analyzerMode o = "server"%string -> startAnalyzer o = false ->
        analyzerMode o' = "disabled"%string /\ planActions o'
        = if generateStatsFile o then [GenerateStatsFile] else []).
Proof.
  intros o o' actions. subst o' actions.
  rewrite planActions_handled.
  destruct (handleDeprecated_others o) as [Hset _].
  assert (Hmodes : String.eqb "server" "static" = false) by reflexivity.
  split; [|split; [|split; [|split; [|split; [|split]]]]].
  - rewrite in_app_iff. split.
    + intros [H|H].
      * destruct (generateStatsFile o); simpl in H;
          [destruct H as [H|[]]; discriminate | destruct H].
      * destruct (String.eqb (analyzerMode o) "server") eqn:Es.
        -- apply String.eqb_eq in Es.
           destruct (startAnalyzer o); [auto | destruct H].
        -- destruct (String.eqb (analyzerMode o) "static"); simpl in H;
             [destruct H as [H|[]]; discriminate | destruct H].
    + intros [Hs Ha]. right. rewrite Hs, Ha. simpl. now left.
  - rewrite in_app_iff. split.
    + intros [H|H].
      * destruct (generateStatsFile o); simpl in H;
          [destruct H as [H|[]]; discriminate | destruct H].
      * destruct (String.eqb (analyzerMode o) "server") eqn:Es.
        -- destruct (startAnalyzer o); simpl in H;
             [destruct H as [H|[]]; discriminate | destruct H].
        -- destruct (String.eqb (analyzerMode o) "static") eqn:Et;
             [now apply String.eqb_eq in Et | destruct H].
    + intros Hs. right. rewrite Hs. simpl. now left.
  - rewrite in_app_iff. split.
    + intros [H|H].
      * destruct (generateStatsFile o); [reflexivity | destruct H].
      * destruct (String.eqb (analyzerMode o) "server");
          [destruct (startAnalyzer o)
          |destruct (String.eqb (analyzerMode o) "static")];
          simpl in H; try (destruct H as [H|[]]; discriminate); destruct H.
    + intros ->. left. now left.
  - eexists. split; [reflexivity|].
    destruct (String.eqb (analyzerMode o) "server");
      [destruct (startAnalyzer o)
      |destruct (String.eqb (analyzerMode o) "static")];
      simpl; split; try lia; intros H;
      try (destruct H as [H|[]]; discriminate); destruct H.
  - apply handleDeprecated_stable.
  - exact Hset.
  - intros Hs Ha. rewrite handleDeprecated_mode, Hs, Ha. simpl.
    split; [reflexivity | apply app_nil_r].
Qed.

(** ** The reporter over a sequence of compilations *)

Section PluginRuns.

Variable RawStats : Type.
Variable StatsJson : Type.
Variable Chart : Type.
Variable toJson : RawStats -> option string -> StatsJson.
Variable getCD : StatsJson -> option string -> Chart.

Local Notation onDone' := (onDone RawStats StatsJson Chart toJson getCD).
Local Notation onDoneAll' := (onDoneAll RawStats StatsJson Chart toJson getCD).
Local Notation chartOf' := (chartOf RawStats StatsJson Chart toJson getCD).
Local Notation reporter_effects :=
  (filter (is_reporter_effect StatsJson Chart)).

Lemma runActions_app (stats : StatsJson) (a b : list Action) (p : Plugin) :
  runActions StatsJson Chart getCD stats (a ++ b) p
  = let '(p1, e1) := runActions StatsJson Chart getCD stats a p in
    let '(p2, e2) := runActions StatsJson Chart getCD stats b p1 in
    (p2, e1 ++ e2).
Proof.
  revert p. induction a as [|x a IH]; intros p; simpl.
  - destruct (runActions StatsJson Chart getCD stats b p). reflexivity.
  - destruct (runAction StatsJson Chart getCD stats x p) as [p1 e1].
    rewrite IH.
    destruct (runActions StatsJson Chart getCD stats a p1) as [p2 e2].
    destruct (runActions StatsJson Chart getCD stats b p2) as [p3 e3].
    now rewrite app_assoc.
Qed.

(** One compilation in mode [server]: the plugin keeps its options and
    its compiler, holds a server afterwards, and the one reporter effect
    creates the reporter when there was none and updates it otherwise. *)
Lemma onDone_server (raw : RawStats) (p : Plugin) :
  analyzerMode (p_opts p) = "server"%string ->
  startAnalyzer (p_opts p) = true ->
  exists effects,
    onDone' raw p = (mkPlugin (p_opts p) true (p_compiler p), effects)
    /\ reporter_effects effects
       = [if p_server p
          then UpdateData StatsJson Chart (chartOf' p raw)
          else CreateReporter StatsJson Chart (chartOf' p raw)
                 (openAnalyzer (p_opts p)) (analyzerHost (p_opts p))
                 (analyzerPort (p_opts p))
                 (getBundleDirFromCompiler (p_compiler p))
                 (defaultSizes (p_opts p))].
Proof.
  intros Hs Ha. unfold onDone.
  assert (Ho : handleDeprecated (p_opts p) = p_opts p).
  { unfold handleDeprecated. now rewrite Hs, Ha. }
  rewrite Ho. unfold planActions. rewrite Hs. cbn [String.eqb Ascii.eqb Bool.eqb].
  unfold chartOf.
  destruct (generateStatsFile (p_opts p)); destruct (p_server p) eqn:Ep;
    cbn [app runActions runAction p_opts p_server p_compiler]; rewrite ?Ep;
    eexists; (split; [reflexivity|]); reflexivity.
Qed.

(** One compilation once mode [server] has been disabled, or in any mode
    but [server]: nothing reaches the reporter and no server appears. *)
Lemma onDone_no_server (raw : RawStats) (p : Plugin) :
  analyzerMode (handleDeprecated (p_opts p)) <> "server"%string ->
  exists effects,
    onDone' raw p
    = (mkPlugin (handleDeprecated (p_opts p)) (p_server p) (p_compiler p),
       effects)
    /\ reporter_effects effects = [].
Proof.
  intros Hmode. unfold onDone, planActions.
  apply String.eqb_neq in Hmode. rewrite Hmode.
  destruct (generateStatsFile (handleDeprecated (p_opts p)));
    destruct (String.eqb (analyzerMode (handleDeprecated (p_opts p))) "static");
    cbn [app runActions runAction p_opts p_server p_compiler];
    eexists; (split; [reflexivity|]); reflexivity.
Qed.

Lemma onDoneAll_updates (raws : list RawStats) :
  forall p,
    analyzerMode (p_opts p) = "server"%string ->
    startAnalyzer (p_opts p) = true ->
    p_server p = true ->
    exists effects,
      onDoneAll' raws p = (p, effects)
      /\ reporter_effects effects
         = map (fun raw => UpdateData StatsJson Chart (chartOf' p raw)) raws.
Proof.
  induction raws as [|raw tl IH]; intros p Hs Ha Hp.
  - exists []. split; reflexivity.
  - destruct (onDone_server raw p Hs Ha) as [e1 [H1 R1]].
    rewrite Hp in R1.
    assert (Hsame : mkPlugin (p_opts p) true (p_compiler p) = p).
    { destruct p as [o srv c]. simpl in Hp. now subst srv. }
    rewrite Hsame in H1.
    destruct (IH p Hs Ha Hp) as [e2 [H2 R2]].
    exists (e1 ++ e2). cbn [onDoneAll]. rewrite H1, H2.
    split; [reflexivity|].
    rewrite filter_app, R1, R2. reflexivity.
Qed.

(** X3: over any sequence of compilations in mode [server], a plugin that
    holds no server yet creates the reporter once, for the first
    compilation, and hands the chart data of every later compilation to
    that reporter, in order; it keeps its options.  With the deprecated
    [startAnalyzer] flag switched off, nothing ever reaches the reporter
    and the mode is [disabled] after the first compilation. *)
Theorem X3_reporter_created_once :
  forall (raw : RawStats) (raws : list RawStats) (p : Plugin),
    analyzerMode (p_opts p) = "server"%string ->
    p_server p = false ->
    if startAnalyzer (p_opts p)
    then
      exists effects,
        onDoneAll' (raw :: raws) p
        = (mkPlugin (p_opts p) true (p_compiler p), effects)
        /\ reporter_effects effects
           = CreateReporter StatsJson Chart (chartOf' p raw)
               (openAnalyzer (p_opts p)) (analyzerHost (p_opts p))
               (analyzerPort (p_opts p))
               (getBundleDirFromCompiler (p_compiler p))
               (defaultSizes (p_opts p))
             :: map (fun r => UpdateData StatsJson Chart (chartOf' p r)) raws
    else
      exists effects,
        onDoneAll' (raw :: raws) p
        = (mkPlugin (set_analyzerMode "disabled" (p_opts p)) false
             (p_compiler p), effects)
        /\ reporter_effects effects = [].
Proof.
  intros raw raws p Hs Hp.
  destruct (startAnalyzer (p_opts p)) eqn:Ha.
  - destruct (onDone_server raw p Hs Ha) as [e1 [H1 R1]]. rewrite Hp in R1.
    destruct (onDoneAll_updates raws (mkPlugin (p_opts p) true (p_compiler p))
                Hs Ha eq_refl) as [e2 [H2 R2]].
    exists (e1 ++ e2). cbn [onDoneAll]. rewrite H1, H2.
    split; [reflexivity|]. rewrite filter_app, R1, R2. reflexivity.
  - assert (Ho : handleDeprecated (p_opts p)
                 = set_analyzerMode "disabled" (p_opts p)).
    { unfold handleDeprecated. now rewrite Hs, Ha. }
    assert (Hstay : forall l q,
               p_opts q = set_analyzerMode "disabled" (p_opts p) ->
               exists effects,
                 onDoneAll' l q = (q, effects)
                 /\ reporter_effects effects = []).
    { induction l as [|r l IH]; intros q Hq.
      - exists []. split; reflexivity.
      - assert (Hq' : handleDeprecated (p_opts q) = p_opts q).
        { rewrite Hq. reflexivity. }
        destruct (onDone_no_server r q) as [e1 [H1 R1]].
        { rewrite Hq'. rewrite Hq. discriminate. }
        rewrite Hq' in H1.
        assert (Hsame : mkPlugin (p_opts q) (p_server q) (p_compiler q) = q)
          by now destruct q.
        rewrite Hsame in H1.
        destruct (IH q Hq) as [e2 [H2 R2]].
        exists (e1 ++ e2). cbn [onDoneAll]. rewrite H1, H2.
        split; [reflexivity|]. now rewrite filter_app, R1, R2. }
    destruct (onDone_no_server raw p) as [e1 [H1 R1]].
    { rewrite Ho. discriminate. }
    rewrite Ho, Hp in H1.
    destruct (Hstay raws
                (mkPlugin (set_analyzerMode "disabled" (p_opts p)) false
                   (p_compiler p)) eq_refl) as [e2 [H2 R2]].
    exists (e1 ++ e2). cbn [onDoneAll]. rewrite H1, H2.
    split; [reflexivity|]. now rewrite filter_app, R1, R2.
Qed.

End PluginRuns.

(** X3, worked example: three compilations with the default options
    create the reporter with the data of the first and update it with the
    data of the second and the third. *)
Lemma X3_reporter_created_once_witness :
  filter (is_reporter_effect nat nat)
    (snd (onDoneAll nat nat nat x_toJson x_getChartData [1; 2; 3]%nat x_plugin))
  = [CreateReporter nat nat 1%nat true "127.0.0.1" 8888 (Some "/out"%string)
       "parsed";
     UpdateData nat nat 2%nat; UpdateData nat nat 3%nat].
Proof.
  pose proof (X3_reporter_created_once nat nat nat x_toJson x_getChartData
                1%nat [2; 3]%nat x_plugin eq_refl eq_refl) as H.
  cbn [startAnalyzer p_opts x_plugin newPlugin defaultOpts] in H.
  destruct H as [effects [Hrun Heff]].
  rewrite Hrun. exact Heff.
Defined.

(** With [generateStatsFile] set and [startAnalyzer] switched off, two
    compilations write two stats files and never reach the reporter. *)
Example onDoneAll_deprecated_flag :
  snd (onDoneAll nat nat nat x_toJson x_getChartData [1; 2]%nat
         (newPlugin x_deprecated_opts (mkCompiler "/out" "MemoryFileSystem")))
  = [WriteStatsFile nat nat "/out" "stats.json" 1%nat;
     WriteStatsFile nat nat "/out" "stats.json" 2%nat].
Proof. reflexivity. Qed.

(** ** One record for every retained file name *)

Lemma obj_get_set {V : Type} (key k : string) (v : V) (obj : list (string * V)) :
  obj_get k (obj_set key v obj)
  = if String.eqb key k then Some v else obj_get k obj.
Proof.
  destruct (String.eqb key k) eqn:E.
  - apply String.eqb_eq in E. subst. apply obj_get_set_same.
  - apply String.eqb_neq in E. apply obj_get_set_other. congruence.
Qed.

Lemma obj_get_keys {V : Type} (k : string) (obj : list (string * V)) :
  existsb (String.eqb k) (map fst obj) = true <-> obj_get k obj <> None.
Proof.
  induction obj as [|[k' v] tl IH]; simpl.
  - split; [discriminate | congruence].
  - rewrite (String.eqb_sym k k').
    destruct (String.eqb k' k); simpl; [|exact IH].
    split; [discriminate | reflexivity].
Qed.

Lemma obj_set_keys {V : Type} (key : string) (v : V) (obj : list (string * V)) :
  map fst (obj_set key v obj)
  = if existsb (String.eqb key) (map fst obj)
    then map fst obj else map fst obj ++ [key].
Proof.
  induction obj as [|[k w] tl IH]; simpl; [reflexivity|].
  rewrite (String.eqb_sym key k).
  destruct (String.eqb k key); simpl; [reflexivity|].
  rewrite IH. destruct (existsb (String.eqb key) (map fst tl)); reflexivity.
Qed.

Lemma uniq_from_seen (names : list string) :
  forall s1 s2,
    (forall x, existsb (String.eqb x) s1 = existsb (String.eqb x) s2) ->
    uniq_from s1 names = uniq_from s2 names.
Proof.
  induction names as [|n tl IH]; intros s1 s2 H; simpl; [reflexivity|].
  rewrite (H n). destruct (existsb (String.eqb n) s2).
  - now apply IH.
  - f_equal. apply IH. intros x. simpl. now rewrite H.
Qed.

Lemma uniq_from_unseen (names : list string) :
  forall seen n, In n (uniq_from seen names) -> ~ In n seen.
Proof.
  induction names as [|x tl IH]; intros seen n; simpl; [tauto|].
  destruct (existsb (String.eqb x) seen) eqn:E.
  - apply IH.
  - intros [<-|Hin] Hseen.
    + assert (existsb (String.eqb x) seen = true); [|congruence].
      apply existsb_exists. exists x. split; [assumption|apply String.eqb_refl].
    + apply (IH _ _ Hin). now right.
Qed.

Lemma uniq_from_NoDup (names : list string) :
  forall seen, NoDup (uniq_from seen names).
Proof.
  induction names as [|x tl IH]; intros seen; simpl; [constructor|].
  destruct (existsb (String.eqb x) seen); [apply IH|].
  constructor; [|apply IH].
  intros Hin. apply uniq_from_unseen in Hin. apply Hin. now left.
Qed.

Lemma uniq_from_length (names : list string) :
  forall seen, (List.length (uniq_from seen names) <= List.length names)%nat.
Proof.
  induction names as [|x tl IH]; intros seen; simpl; [lia|].
  destruct (existsb (String.eqb x) seen); simpl.
  - specialize (IH seen). lia.
  - specialize (IH (x :: seen)). lia.
Qed.

Section Keyed.

Variable A V : Type.
Variable key : A -> string.
Variable val : A -> V.

Local Notation collect :=
  (fold_left (fun result a => obj_set (key a) (val a) result)).

Lemma collect_keys (l : list A) :
  forall acc,
    map fst (collect l acc)
    = map fst acc ++ uniq_from (map fst acc) (map key l).
Proof.
  induction l as [|a tl IH]; intros acc; simpl.
  - now rewrite app_nil_r.
  - rewrite IH, obj_set_keys.
    destruct (existsb (String.eqb (key a)) (map fst acc)) eqn:E.
    + reflexivity.
    + rewrite <- app_assoc. simpl. f_equal. f_equal.
      apply uniq_from_seen. intros x. rewrite existsb_app. simpl.
      rewrite orb_false_r. apply orb_comm.
Qed.

Lemma find_app {B : Type} (p : B -> bool) (l1 l2 : list B) :
  find p (l1 ++ l2)
  = match find p l1 with
    | Some x => Some x
    | None => find p l2
    end.
Proof.
  induction l1 as [|x l1 IH]; simpl; [reflexivity|].
  destruct (p x); [reflexivity | exact IH].
Qed.

Lemma collect_get (k : string) (l : list A) :
  forall acc,
    obj_get k (collect l acc)
    = match find (fun a => String.eqb (key a) k) (rev l) with
      | Some a => Some (val a)
      | None => obj_get k acc
      end.
Proof.
  induction l as [|a tl IH]; intros acc; simpl; [reflexivity|].
  rewrite IH, find_app. simpl.
  destruct (find (fun a0 => String.eqb (key a0) k) (rev tl)); [reflexivity|].
  rewrite obj_get_set. destruct (String.eqb (key a) k); reflexivity.
Qed.

End Keyed.

Lemma obj_get_In {V : Type} (k : string) (v : V) (obj : list (string * V)) :
  NoDup (map fst obj) -> In (k, v) obj -> obj_get k obj = Some v.
Proof.
  induction obj as [|[k' w] tl IH]; simpl; [tauto|].
  intros Hnd [Heq|Hin].
  - inversion Heq; subst. now rewrite String.eqb_refl.
  - inversion Hnd as [|? ? Hnotin Hnd']; subst.
    destruct (String.eqb k' k) eqn:E.
    + apply String.eqb_eq in E. subst k'. exfalso. apply Hnotin.
      apply in_map_iff. now exists (k, v).
    + now apply IH.
Qed.

Lemma collectAssets_keys gmp bl gz (working : Stats) (parsed : option Parsed) :
  map fst (collectAssets gmp bl gz working parsed)
  = uniq_names (map a_name (s_assets working)).
Proof.
  unfold collectAssets.
  rewrite (collect_keys Asset AssetEntry a_name
             (assetEntry gmp bl gz working parsed)).
  reflexivity.
Qed.

Lemma collectAssets_get gmp bl gz (working : Stats) (parsed : option Parsed)
    (k : string) :
  obj_get k (collectAssets gmp bl gz working parsed)
  = option_map (assetEntry gmp bl gz working parsed)
      (last_named k (s_assets working)).
Proof.
  unfold collectAssets, last_named.
  rewrite (collect_get Asset AssetEntry a_name
             (assetEntry gmp bl gz working parsed)).
  destruct (find (fun a => String.eqb (a_name a) k) (rev (s_assets working)));
    reflexivity.
Qed.

Lemma projectAsset_fields (filename : string) (asset : AssetEntry)
    (calls calls' : Calls) (r : AssetChart) :
  projectAsset filename asset calls = (Ok r, calls') ->
  ac_label r = filename
  /\ ac_isAsset r = true
  /\ ac_statSize r = js_or (size (e_tree asset)) (e_size asset)
  /\ ac_parsedSize r = e_parsedSize asset
  /\ ac_gzipSize r = e_gzipSize asset.
Proof.
  unfold projectAsset, bind. intros H.
  destruct (invokeMap_toChartData (node_name (e_tree asset))
              (node_children (e_tree asset)) calls) as [[[groups ch']|e] c1];
    [|discriminate].
  unfold ret in H. inversion H; subst. repeat split.
Qed.

Lemma projectAssets_fields (assets : list (string * AssetEntry)) :
  forall calls calls' records,
    projectAssets assets calls = (Ok records, calls') ->
    Forall2
      (fun r fe =>
         ac_label r = fst fe
         /\ ac_isAsset r = true
         /\ ac_statSize r = js_or (size (e_tree (snd fe))) (e_size (snd fe))
         /\ ac_parsedSize r = e_parsedSize (snd fe)
         /\ ac_gzipSize r = e_gzipSize (snd fe))
      records assets.
Proof.
  induction assets as [|[filename asset] tl IH]; intros calls calls' records H.
  - simpl in H. unfold ret in H. inversion H. constructor.
  - cbn [projectAssets] in H. unfold bind in H.
    destruct (projectAsset filename asset calls) as [[r|e] c1] eqn:E1;
      [|discriminate].
    destruct (projectAssets tl c1) as [[rs|e] c2] eqn:E2; [|discriminate].
    unfold ret in H. inversion H; subst. constructor.
    + simpl. eapply projectAsset_fields. eassumption.
    + eapply IH. eassumption.
Qed.

(** The records of a run, read off the retained assets. *)
Lemma records_of_last_named :
  forall gmp (Pattern : Type) ptest parse bl gz
         (bundleStats : Stats) (dir : option string) (pats : list Pattern)
         (calls calls' : Calls) (working : Stats) (records : list AssetChart),
    normalizeStats Pattern ptest bundleStats pats = Ok working ->
    getViewerData gmp Pattern ptest parse bl gz bundleStats dir pats calls
    = (Ok records, calls') ->
    let parsed := parseBundles parse dir (s_assets working) in
    map ac_label records = uniq_names (map a_name (s_assets working))
    /\ Forall
         (fun r =>
            exists a,
              last_named (ac_label r) (s_assets working) = Some a
              /\ a_name a = ac_label r
              /\ ac_statSize r
                 = js_or (size (e_tree (assetEntry gmp bl gz working parsed a)))
                     (a_size a)
              /\ ac_parsedSize r
                 = e_parsedSize (assetEntry gmp bl gz working parsed a)
              /\ ac_gzipSize r
                 = e_gzipSize (assetEntry gmp bl gz working parsed a))
         records.
Proof.
  intros gmp Pattern ptest parse bl gz bundleStats dir pats calls calls'
         working records Hn H parsed.
  unfold getViewerData in H. rewrite Hn in H.
  apply projectAssets_fields in H. fold parsed in H.
  assert (Hlabels : map ac_label records
                    = map fst (collectAssets gmp bl gz working parsed)).
  { clear -H. induction H as [|r fe rs fes [Hl _] _ IH]; simpl;
      [reflexivity | now rewrite Hl, IH]. }
  pose proof (collectAssets_keys gmp bl gz working parsed) as Hkeys.
  assert (Hnd : NoDup (map fst (collectAssets gmp bl gz working parsed))).
  { rewrite Hkeys. apply uniq_from_NoDup. }
  split; [now rewrite Hlabels|].
  assert (Hall : forall fe, In fe (collectAssets gmp bl gz working parsed) ->
            exists a,
              last_named (fst fe) (s_assets working) = Some a
              /\ snd fe = assetEntry gmp bl gz working parsed a).
  { intros [k e] Hin. pose proof (obj_get_In k e _ Hnd Hin) as Hget.
    rewrite collectAssets_get in Hget. cbn [fst snd].
    destruct (last_named k (s_assets working)) as [a|] eqn:Hlast;
      [|discriminate].
    exists a. simpl in Hget. split; [reflexivity | congruence]. }
  revert Hall. clear -H.
  induction H as [|r fe rs fes [Hl [_ [Hs [Hp Hg]]]] _ IH]; intros Hall.
  - constructor.
  - constructor.
    + destruct (Hall fe (or_introl eq_refl)) as [a [Hlast He]].
      exists a. rewrite Hl. split; [exact Hlast|].
      split.
      { unfold last_named in Hlast. apply find_some in Hlast.
        destruct Hlast as [_ Hname]. now apply String.eqb_eq in Hname. }
      rewrite Hs, Hp, Hg, He. repeat split.
    + apply IH. intros fe' Hin. apply Hall. now right.
Qed.

(** X4: the chart data holds one record for every distinct name among the
    retained assets, at the place where the name comes first; its sizes
    are those of the last retained asset with that name.  So two retained
    assets of one name (one of the build and one of a child build, or two
    names that differ in their query only) give a single record. *)
Theorem X4_one_record_per_name :
  forall gmp (Pattern : Type) ptest parse bl gz
         (bundleStats : Stats) (dir : option string) (pats : list Pattern)
         (calls calls' : Calls) (working : Stats) (records : list AssetChart),
    normalizeStats Pattern ptest bundleStats pats = Ok working ->
    getViewerData gmp Pattern ptest parse bl gz bundleStats dir pats calls
    = (Ok records, calls') ->
    let parsed := parseBundles parse dir (s_assets working) in
    map ac_label records = uniq_names (map a_name (s_assets working))
    /\ NoDup (map ac_label records)
    /\ (List.length records <= List.length (s_assets working))%nat
    /\ Forall
         (fun r =>
            exists a,
              last_named (ac_label r) (s_assets working) = Some a
              /\ a_name a = ac_label r
              /\ ac_statSize r
                 = js_or (size (e_tree (assetEntry gmp bl gz working parsed a)))
                     (a_size a)
              /\ ac_parsedSize r
                 = e_parsedSize (assetEntry gmp bl gz working parsed a)
              /\ ac_gzipSize r
                 = e_gzipSize (assetEntry gmp bl gz working parsed a))
         records.
Proof.
  intros gmp Pattern ptest parse bl gz bundleStats dir pats calls calls'
         working records Hn H parsed.
  destruct (records_of_last_named gmp Pattern ptest parse bl gz bundleStats
              dir pats calls calls' working records Hn H) as [Hlabels HF].
  split; [exact Hlabels|].
  split; [rewrite Hlabels; apply uniq_from_NoDup|].
  split; [|exact HF].
  rewrite <- (length_map ac_label), Hlabels.
  rewrite <- (length_map a_name (s_assets working)). apply uniq_from_length.
Qed.

(** X4, worked example: a build and its child build both emit
    [bundle.js] (the child with a query); the chart data has one record of
    that name, first, with the declared size 7 of the child's file. *)
Lemma X4_one_record_per_name_witness :
  exists records,
    sample_getViewerData x_dup_stats None [] [] = (Ok records, [])
    /\ map ac_label records = ["bundle.js"; "extra.js"]%string
    /\ List.length records = 2%nat.
Proof.
  destruct (normalizeStats string is_substring x_dup_stats []) as [working|e]
    eqn:Hn; [|vm_compute in Hn; discriminate].
  destruct (sample_getViewerData x_dup_stats None [] []) as [[records|e] calls']
    eqn:Hrun; [|vm_compute in Hrun; discriminate].
  destruct (X4_one_record_per_name sample_pathParts string is_substring
              sample_parseBundle sample_byteLength sample_gzipSync x_dup_stats
              None [] [] calls' working records Hn Hrun) as [Hlabels _].
  assert (Hcalls : calls' = []).
  { vm_compute in Hrun. now inversion Hrun. }
  assert (Hw : map a_name (s_assets working)
               = ["bundle.js"; "bundle.js"; "extra.js"]%string).
  { vm_compute in Hn. inversion Hn. reflexivity. }
  subst calls'. exists records. split; [reflexivity|].
  rewrite Hw in Hlabels. split; [exact Hlabels|].
  rewrite <- (length_map ac_label), Hlabels. reflexivity.
Defined.

(** ** Parsed bundles *)

Lemma parseAssets_all_fail parse (dir : string) (assets : list Asset) :
  (forall a, In a assets -> parse dir (a_name a) = None) ->
  forall acc, parseAssets parse dir assets acc = acc.
Proof.
  induction assets as [|a tl IH]; intros Hall acc; simpl; [reflexivity|].
  rewrite (Hall a (or_introl eq_refl)). apply IH.
  intros a' Ha'. apply Hall. now right.
Qed.

Lemma parseAssets_sources parse (dir : string) (name : string)
    (assets : list Asset) :
  forall acc,
    obj_get name (bundlesSources (parseAssets parse dir assets acc))
    = match
        (if existsb (fun a => String.eqb (a_name a) name) assets
         then parse dir name else None)
      with
      | Some (src, _) => Some src
      | None => obj_get name (bundlesSources acc)
      end.
Proof.
  induction assets as [|a tl IH]; intros acc; [reflexivity|].
  cbn [parseAssets existsb].
  destruct (String.eqb (a_name a) name) eqn:E; cbn [orb].
  - apply String.eqb_eq in E. rewrite E.
    destruct (parse dir name) as [[src mods]|] eqn:Ep; rewrite IH;
      destruct (existsb (fun a0 => String.eqb (a_name a0) name) tl);
      rewrite ?Ep; try reflexivity.
    cbn [bundlesSources]. apply obj_get_set_same.
  - apply String.eqb_neq in E.
    destruct (parse dir (a_name a)) as [[src mods]|]; rewrite IH;
      [|reflexivity].
    destruct (if existsb (fun a0 => String.eqb (a_name a0) name) tl
              then parse dir name else None) as [[s' m']|]; [reflexivity|].
    cbn [bundlesSources]. apply obj_get_set_other. congruence.
Qed.

Lemma parseBundles_source parse (c : ascii) (d : string) (assets : list Asset)
    (a : Asset) :
  In a assets ->
  match parseBundles parse (Some (String c d)) assets with
  | Some p => obj_get (a_name a) (bundlesSources p)
  | None => None
  end
  = option_map fst (parse (String c d) (a_name a)).
Proof.
  intros Hin. unfold parseBundles.
  pose proof (parseAssets_sources parse (String c d) (a_name a) assets
                (mkParsed [] [])) as Hsrc.
  assert (Hex : existsb (fun a0 => String.eqb (a_name a0) (a_name a)) assets
                = true).
  { apply existsb_exists. exists a. split; [assumption|apply String.eqb_refl]. }
  rewrite Hex in Hsrc. simpl in Hsrc.
  destruct (bundlesSources (parseAssets parse (String c d) assets (mkParsed [] [])))
    as [|kv l] eqn:Eb.
  - simpl in Hsrc.
    destruct (parse (String c d) (a_name a)) as [[src mods]|];
      [discriminate | reflexivity].
  - rewrite Eb, Hsrc.
    destruct (parse (String c d) (a_name a)) as [[src mods]|]; reflexivity.
Qed.

(** X5: when the bundle of no retained asset can be parsed, the analysis
    with a bundle directory is the analysis without one: same chart data,
    same failures. *)
Theorem X5_no_bundle_parsed_is_no_bundle_dir :
  forall gmp (Pattern : Type) ptest parse bl gz
         (bundleStats : Stats) (dir : string) (pats : list Pattern),
    (forall working a,
        normalizeStats Pattern ptest bundleStats pats = Ok working ->
        In a (s_assets working) -> parse dir (a_name a) = None) ->
    forall calls,
      getViewerData gmp Pattern ptest parse bl gz bundleStats (Some dir) pats
        calls
      = getViewerData gmp Pattern ptest parse bl gz bundleStats None pats calls.
Proof.
  intros gmp Pattern ptest parse bl gz bundleStats dir pats Hall calls.
  unfold getViewerData.
  destruct (normalizeStats Pattern ptest bundleStats pats) as [working|e]
    eqn:Hn; [|reflexivity].
  replace (parseBundles parse (Some dir) (s_assets working))
    with (parseBundles parse None (s_assets working)); [reflexivity|].
  unfold parseBundles. destruct dir as [|c d]; [reflexivity|].
  rewrite parseAssets_all_fail; [reflexivity|].
  intros a Ha. now apply (Hall working).
Qed.

(** X5, worked example: with a parser that fails on every file the sample
    build is analysed as without a bundle directory. *)
Lemma X5_no_bundle_parsed_is_no_bundle_dir_witness :
  sample_getViewerData sample_stats (Some "/out"%string) [] []
  = sample_getViewerData sample_stats None [] [].
Proof.
  apply (X5_no_bundle_parsed_is_no_bundle_dir sample_pathParts string
           is_substring sample_parseBundle sample_byteLength sample_gzipSync
           sample_stats "/out"%string []).
  intros working a _ _. reflexivity.
Defined.

(** X6: the [parsedSize] and [gzipSize] of a record are the byte length
    and the gzip size of the text the bundle parser returned for the file
    of that very name in the bundle directory; both are absent when the
    parser failed on that file, and always without a bundle directory. *)
Theorem X6_asset_sizes_come_from_its_bundle :
  forall gmp (Pattern : Type) ptest parse bl gz
         (bundleStats : Stats) (dir : option string) (pats : list Pattern)
         (calls calls' : Calls) (records : list AssetChart),
    getViewerData gmp Pattern ptest parse bl gz bundleStats dir pats calls
    = (Ok records, calls') ->
    Forall
      (fun r =>
         let source :=
           match dir with
           | Some (String c d) =>
               option_map fst (parse (String c d) (ac_label r))
           | _ => None
           end in
         ac_parsedSize r = option_map bl source
         /\ ac_gzipSize r = option_map gz source)
      records.
Proof.
  intros gmp Pattern ptest parse bl gz bundleStats dir pats calls calls'
         records H.
  destruct (normalizeStats Pattern ptest bundleStats pats) as [working|e]
    eqn:Hn; [|unfold getViewerData in H; rewrite Hn in H; discriminate].
  destruct (records_of_last_named gmp Pattern ptest parse bl gz bundleStats
              dir pats calls calls' working records Hn H) as [_ HF].
  eapply Forall_impl; [|exact HF].
  intros r [a [Hlast [Hname [_ [Hp Hg]]]]].
  assert (Hin : In a (s_assets working)).
  { unfold last_named in Hlast. apply find_some in Hlast.
    destruct Hlast as [Hin _]. now apply in_rev. }
  cbn zeta. rewrite Hp, Hg. unfold assetEntry. cbn [e_parsedSize e_gzipSize].
  rewrite <- Hname.
  destruct dir as [[|c d]|]; try (split; reflexivity).
  rewrite (parseBundles_source parse c d (s_assets working) a Hin).
  split; reflexivity.
Qed.

(** X6, worked example: of two assets only [bundle.js] can be parsed, to a
    text of three characters; its record carries the sizes of that text
    and the record of [vendor.js] carries none. *)
Lemma X6_asset_sizes_come_from_its_bundle_witness :
  exists records,
    getViewerData sample_pathParts string is_substring x_parseBundle
      sample_byteLength sample_gzipSync x_two_assets (Some "/out"%string) [] []
    = (Ok records, [])
    /\ map ac_label records = ["bundle.js"; "vendor.js"]%string
    /\ Forall
         (fun r =>
            ac_parsedSize r
            = option_map sample_byteLength
                (option_map fst (x_parseBundle "/out" (ac_label r))))
         records.
Proof.
  destruct (getViewerData sample_pathParts string is_substring x_parseBundle
              sample_byteLength sample_gzipSync x_two_assets
              (Some "/out"%string) [] []) as [[records|e] calls'] eqn:Hrun;
    [|vm_compute in Hrun; discriminate].
  pose proof (X6_asset_sizes_come_from_its_bundle sample_pathParts string
                is_substring x_parseBundle sample_byteLength sample_gzipSync
                x_two_assets (Some "/out"%string) [] [] calls' records Hrun)
    as HF.
  assert (Hcalls : calls' = []) by (vm_compute in Hrun; now inversion Hrun).
  assert (Hlabels : map ac_label records = ["bundle.js"; "vendor.js"]%string)
    by (vm_compute in Hrun; now inversion Hrun).
  subst calls'. exists records. split; [reflexivity|]. split; [exact Hlabels|].
  eapply Forall_impl; [|exact HF]. intros r [Hp _]. exact Hp.
Defined.

(** ** Children of the stats object *)

(** X7: a stats object without children is analysed as it is.  One with
    assets of its own and children gets the assets of every child, in the
    order of the children, appended to its own and flagged [isChild]; the
    assets appended are the objects the children hold, so every asset of
    every child is flagged in the child as well.  Its own assets, its
    chunks and modules and all else in the children stay as they are.  One
    without assets of its own and with a single child is replaced by that
    child. *)
Theorem X7_assets_of_children_are_appended :
  forall bs : Stats,
    (isEmpty (s_children bs) = true -> normalizeChildren bs = Ok bs)
    /\ (forall only,
           s_assets bs = [] -> s_children bs = Some [only] ->
           normalizeChildren bs = Ok only)
    /\ (forall a assets cs,
           s_assets bs = a :: assets -> s_children bs = Some cs ->
           exists working,
             normalizeChildren bs = Ok working
             /\ s_assets working
                = (a :: assets)
                  ++ map markChild (List.concat (map s_assets cs))
             /\ s_chunks working = s_chunks bs
             /\ s_modules working = s_modules bs
             /\ s_children working
                = Some (map (fun c =>
                               mkStats (map markChild (s_assets c))
                                 (s_chunks c) (s_modules c) (s_children c)
                                 (s_assetsByChunkName c)) cs)
             /\ s_assetsByChunkName working = s_assetsByChunkName bs).
Proof.
  intros bs. split; [|split].
  - intros H. unfold normalizeChildren.
    destruct (s_children bs) as [[|c cs]|]; try discriminate;
      destruct (s_assets bs); reflexivity.
  - intros only Ha Hc. unfold normalizeChildren. rewrite Ha, Hc. reflexivity.
  - intros a assets cs Ha Hc. unfold normalizeChildren. rewrite Ha, Hc.
    destruct cs as [|first others].
    + exists bs. simpl. rewrite app_nil_r. repeat split; auto.
    + eexists. split; [reflexivity|].
      rewrite pushEach_assets, Ha.
      destruct (pushEach_others (first :: others) 0%nat bs) as [H1 [H2 H3]].
      split; [reflexivity|]. split; [exact H1|]. split; [exact H2|].
      split; [|exact H3].
      exact (pushEach_children (first :: others) [] bs Hc).
Qed.

(** ** Filtering twice *)

Lemma strip_query_terminators (s : string) :
  has_line_terminator (strip_query s) = has_line_terminator s.
Proof.
  induction s as [|c rest IH]; simpl; [reflexivity|].
  destruct (Ascii.eqb c "?") eqn:Ec; simpl.
  - apply Ascii.eqb_eq in Ec. subst c.
    destruct (has_line_terminator rest) eqn:Et; simpl.
    + now rewrite IH.
    + reflexivity.
  - now rewrite IH.
Qed.

Lemma strip_query_idempotent (s : string) :
  strip_query (strip_query s) = strip_query s.
Proof.
  induction s as [|c rest IH]; simpl; [reflexivity|].
  destruct (Ascii.eqb c "?" && negb (has_line_terminator rest)) eqn:E;
    [reflexivity|].
  simpl. rewrite strip_query_terminators, E, IH. reflexivity.
Qed.

Lemma filter_idempotent {A : Type} (f : A -> bool) (l : list A) :
  filter f (filter f l) = filter f l.
Proof.
  induction l as [|x l IH]; simpl; [reflexivity|].
  destruct (f x) eqn:E; simpl; rewrite ?E, IH; reflexivity.
Qed.

(** X8: the asset filter is idempotent.  Stripping the query of a name
    that was stripped changes nothing, so the retained assets, filtered
    once more with the same exclusion test, are all retained under the
    names they have. *)
Theorem X8_filter_is_idempotent :
  forall (isAssetIncluded : string -> bool) (assets : list Asset),
    filterAssets isAssetIncluded (filterAssets isAssetIncluded assets)
    = filterAssets isAssetIncluded assets
    /\ Forall (fun a => strip_query (a_name a) = a_name a)
         (filterAssets isAssetIncluded assets).
Proof.
  intros f assets.
  assert (Hfix : Forall (fun a => stripAsset a = a)
                   (filterAssets f assets)).
  { apply Forall_forall. intros a Ha. unfold filterAssets in Ha.
    apply filter_In in Ha. destruct Ha as [Ha _].
    apply in_map_iff in Ha. destruct Ha as [a0 [<- _]].
    unfold stripAsset, rename. simpl. now rewrite strip_query_idempotent. }
  split.
  - unfold filterAssets at 1.
    replace (map stripAsset (filterAssets f assets))
      with (filterAssets f assets).
    + unfold filterAssets. apply filter_idempotent.
    + induction Hfix as [|a l Ha _ IH]; simpl; [reflexivity|].
      rewrite Ha. f_equal. exact IH.
  - eapply Forall_impl; [|exact Hfix].
    intros a Ha. unfold stripAsset, rename in Ha.
    destruct a as [n sz ch ic]. cbn [a_name a_size a_chunks a_isChild] in *.
    injection Ha as Hn. exact Hn.
Qed.

(** ** Pools without duplicates *)

Lemma uniqBy_distinct (l : list StatModule) :
  forall seen,
    NoDup (map m_id l) ->
    (forall m, In m l -> ~ In (m_id m) seen) ->
    uniqBy_id_from seen l = l.
Proof.
  induction l as [|m tl IH]; intros seen Hnd Hseen; simpl; [reflexivity|].
  inversion Hnd as [|? ? Hnotin Hnd']; subst.
  destruct (existsb (Id_eqb (m_id m)) seen) eqn:E.
  - apply seen_In in E. exfalso. apply (Hseen m); [now left | exact E].
  - f_equal. apply IH; [exact Hnd'|].
    intros m' Hm' [Heq|Hin].
    + apply Hnotin. rewrite Heq. now apply in_map.
    + apply (Hseen m'); [now right | exact Hin].
Qed.

(** X9: [getBundleModules] returns the modules of the chunks followed by
    the top-level modules unchanged exactly when no two of them share an
    id; what it returns has no duplicates left, so removing duplicates
    from it again changes nothing. *)
Theorem X9_pool_without_duplicates :
  forall bundleStats : Stats,
    (getBundleModules bundleStats = spec_pool bundleStats <->
     NoDup (map m_id (spec_pool bundleStats)))
    /\ uniqBy_id (getBundleModules bundleStats) = getBundleModules bundleStats.
Proof.
  intros bundleStats. unfold getBundleModules. rewrite flatten_pool.
  unfold uniqBy_id. split; [split|].
  - intros H. rewrite <- H. apply uniqBy_NoDup.
  - intros H. apply uniqBy_distinct; [exact H | intros m _ []].
  - apply uniqBy_distinct; [apply uniqBy_NoDup | intros m _ []].
Qed.

(** ** When reading the compressed size of a folder fails *)

(** X10: reading [gzipSize] of a folder throws a [TypeError] exactly when
    nothing is cached, the folder has a non-empty source text and it was
    constructed without options; the compression function has not been
    called then, and every later read throws again.  It throws what the
    compression function throws exactly when nothing is cached, the
    source text is non-empty and the function of its options fails on that
    text.  A cached value is returned whatever the options and the source
    text are. *)
Theorem X10_folder_gzipSize_failures :
  forall (name : string) (o : option Opts) (g : option Z)
         (ch : list (string * Node)) (calls : Calls),
    let n := Folder name o g ch in
    let s := node_src n in
    ((exists calls', gzipSize n calls = (Throw TypeError, calls')) <->
     g = None /\ src_truthy s = true /\ o = None)
    /\ (g = None -> src_truthy s = true -> o = None ->
        forall calls2, gzipSize n calls2 = (Throw TypeError, calls2))
    /\ ((exists calls', gzipSize n calls = (Throw CompressionError, calls')) <->
        g = None
        /\ exists opts src,
             o = Some opts /\ s = Some src /\ src_truthy s = true
             /\ compressedSize opts calls src = None)
    /\ (forall v, g = Some v -> gzipSize n calls = (Ok (v, n), calls)).
Proof.
  intros name o g ch calls n s.
  unfold gzipSize. change (node_src n) with s. clearbody s. subst n.
  unfold bind, read_gzip, ret, throw.
  cbn [node_opts node_gzip_cache set_gzip_cache].
  split; [|split; [|split]].
  - split.
    + intros [calls' H].
      destruct g as [v|]; [discriminate|].
      destruct s as [[|c src]|]; try discriminate.
      destruct o as [opts|]; [|auto].
      destruct (compressedSize opts calls (String c src)); discriminate.
    + intros [-> [Hs ->]]. destruct s as [[|c src]|]; try discriminate.
      now exists calls.
  - intros -> Hs -> calls2. destruct s as [[|c src]|]; try discriminate.
    reflexivity.
  - split.
    + intros [calls' H].
      destruct g as [v|]; [discriminate|].
      destruct s as [[|c src]|]; try discriminate.
      destruct o as [opts|]; [|discriminate].
      destruct (compressedSize opts calls (String c src)) eqn:E;
        [discriminate|].
      split; [reflexivity|]. exists opts, (String c src). auto.
    + intros [-> [opts [src [-> [-> [Hs Hc]]]]]].
      destruct src as [|c src]; [discriminate|]. rewrite Hc. eexists.
      reflexivity.
  - intros v ->. reflexivity.
Qed.

(** ** The history of the live-update channel *)

Section UpdateHistory.

Variable gmp : StatModule -> option (list string).
Variable Pattern : Type.
Variable ptest : Pattern -> string -> bool.
Variable parse : string -> string -> option (string * list (Id * string)).
Variable bl : string -> Z.
Variable gz : string -> Z.

Local Notation updateAll' := (updateAll gmp Pattern ptest parse bl gz).
Local Notation history' := (chartHistory gmp Pattern ptest parse bl gz).

Lemma last_cons_default {A : Type} (l : list A) :
  forall x d, last (x :: l) d = last l x.
Proof.
  induction l as [|y l IH]; intros x d; [reflexivity|].
  change (last (x :: y :: l) d) with (last (y :: l) d).
  rewrite IH. symmetry. apply IH.
Qed.

Lemma received_nil (cs : list Client) : map (received []) cs = cs.
Proof.
  induction cs as [|c cs IH]; simpl; [reflexivity|]. rewrite IH. f_equal.
  unfold received. destruct c as [rs msgs]. simpl.
  destruct (is_open (mkClient rs msgs)); [now rewrite app_nil_r | reflexivity].
Qed.

Lemma received_broadcast (m : Message) (msgs : list Message)
    (cs : list Client) :
  map (received msgs) (broadcast m cs) = map (received (m :: msgs)) cs.
Proof.
  unfold broadcast. rewrite map_map. apply map_ext. intros c.
  unfold received, send, is_open. destruct c as [rs old]. simpl.
  destruct rs; simpl; try reflexivity. now rewrite <- app_assoc.
Qed.

(** X11: over any sequence of recomputations, with the clients staying as
    they are, a client that is open has been sent one message for every
    stats object whose analysis did not throw, in their order and nothing
    else; the other clients have been sent nothing; and the server holds
    the chart data of the last analysis that did not throw, or what it
    held before when every analysis threw. *)
Theorem X11_channel_history :
  forall (pats : list Pattern) (dir : option string) (builds : list Stats)
         (server : Server) (calls : Calls),
    let server' := fst (updateAll' pats dir server builds calls) in
    let history := history' pats dir builds calls in
    chartData server' = last history (chartData server)
    /\ clients server'
       = map (received (map (mkMessage "chartDataUpdated") history))
           (clients server).
Proof.
  intros pats dir builds. induction builds as [|b tl IH]; intros server calls.
  - simpl. split; [reflexivity | now rewrite received_nil].
  - cbn [updateAll chartHistory]. unfold updateChartData.
    destruct (getChartData gmp Pattern ptest parse bl gz pats b dir calls)
      as [[data|] calls1].
    + specialize (IH (mkServer data
                        (broadcast (mkMessage "chartDataUpdated" data)
                           (clients server))) calls1).
      cbn zeta in IH. destruct IH as [Hheld Hclients].
      cbn zeta. rewrite Hheld, Hclients. cbn [chartData clients map].
      split; [|apply received_broadcast].
      symmetry. apply last_cons_default.
    + apply IH.
Qed.

End UpdateHistory.

(** ** Tests that hold all over a tree *)

Lemma tree_all_unfold (ok : NodeTest) (n : Node) :
  tree_all ok n
  = ok (is_folder n) (node_opts n) (own_src n) (node_gzip_cache n)
    && children_all ok (node_children n).
Proof.
  destruct n as [name o g ch|name d o g|name d o g ch];
    cbn [tree_all is_folder node_opts own_src node_gzip_cache node_children
         children_all forallb].
  - f_equal. induction ch as [|[k c] tl IH]; [reflexivity|].
    cbn [forallb snd]. now rewrite IH.
  - now rewrite andb_true_r.
  - f_equal. induction ch as [|[k c] tl IH]; [reflexivity|].
    cbn [forallb snd]. now rewrite IH.
Qed.

Lemma sourceless_tree_all (n : Node) : sourceless n = tree_all quiet_node n.
Proof.
  induction n as [name o g ch IH|name d o g|name d o g ch IH]
    using Node_children_ind;
    rewrite sourceless_children, tree_all_unfold; unfold quiet_node;
    cbn [node_children]; try reflexivity; f_equal;
    unfold all_sourceless, children_all;
    induction IH as [|kc tl Hkc _ IHl]; try reflexivity;
    cbn [forallb]; now rewrite Hkc, IHl.
Qed.

Lemma children_all_get (ok : NodeTest) (k : string) (n : Node)
    (ch : list (string * Node)) :
  children_all ok ch = true -> getChild k ch = Some n -> tree_all ok n = true.
Proof.
  unfold getChild. induction ch as [|[k' c] tl IH]; simpl; [discriminate|].
  intros H. apply andb_true_iff in H. destruct H as [Hc Htl].
  destruct (String.eqb k' k); [intros E; inversion E; now subst | now apply IH].
Qed.

Lemma children_all_set (ok : NodeTest) (k : string) (n : Node)
    (ch : list (string * Node)) :
  children_all ok ch = true -> tree_all ok n = true ->
  children_all ok (setChild k n ch) = true.
Proof.
  unfold setChild. intros H Hn. induction ch as [|[k' c] tl IH]; simpl.
  - now rewrite Hn.
  - simpl in H. apply andb_true_iff in H. destruct H as [Hc Htl].
    destruct (String.eqb k' k); simpl.
    + now rewrite Hn, Htl.
    + now rewrite Hc, IH.
Qed.

Lemma insertModule_all (ok : NodeTest) (opts : option Opts) (module : Node)
    (folders : list string) :
  ok true opts None None = true ->
  tree_all ok module = true ->
  forall ch,
    children_all ok ch = true ->
    children_all ok (insertModule opts folders module ch) = true.
Proof.
  intros Hnew Hm. induction folders as [|f rest IH]; intros ch Hch.
  - cbn [insertModule]. unfold addChildModule. now apply children_all_set.
  - cbn [insertModule].
    destruct (getChild f ch) as [[name o g sub| |]|] eqn:E;
      try (unfold addChildFolder; cbn [node_name];
           apply children_all_set; [exact Hch|];
           rewrite tree_all_unfold;
           cbn [is_folder node_opts own_src node_gzip_cache node_children];
           rewrite Hnew; apply IH; reflexivity).
    pose proof (children_all_get ok f _ ch Hch E) as Hsub.
    rewrite tree_all_unfold in Hsub.
    cbn [is_folder node_opts own_src node_gzip_cache node_children] in Hsub.
    apply andb_true_iff in Hsub. destruct Hsub as [Hok Hsub].
    apply children_all_set; [exact Hch|].
    rewrite tree_all_unfold.
    cbn [is_folder node_opts own_src node_gzip_cache node_children].
    rewrite Hok. now apply IH.
Qed.

Lemma newModule_nested gmp (opts : option Opts) (fileName : string)
    id name sz chunks ms src :
  newModule gmp opts fileName (mkStatModule id name sz chunks (Some ms) src)
  = ConcatenatedModule fileName (mkStatModule id name sz chunks (Some ms) src)
      opts None (fillModules gmp opts ms []).
Proof.
  cbn [newModule]. f_equal. generalize (@nil (string * Node)).
  induction ms as [|m tl IH]; intros ch; [reflexivity|].
  cbn [fillModules]. destruct (gmp m); apply IH.
Qed.

Lemma node_name_newModule gmp (opts : option Opts) (fileName : string)
    (d : StatModule) :
  node_name (newModule gmp opts fileName d) = fileName.
Proof. destruct d as [id name sz chunks [ms|] src]; reflexivity. Qed.

Lemma stat_srcs_unfold (Q : option string -> bool) (m : StatModule) :
  stat_srcs Q m
  = Q (m_parsedSrc m)
    && match m_modules m with
       | None => true
       | Some ms => forallb (stat_srcs Q) ms
       end.
Proof.
  destruct m as [id name sz chunks [ms|] src]; reflexivity.
Qed.

Lemma newModule_all (ok : NodeTest) gmp (opts : option Opts) :
  ok true opts None None = true ->
  forall (d : StatModule) (fileName : string),
    stat_srcs (fun src => ok false opts src None) d = true ->
    tree_all ok (newModule gmp opts fileName d) = true.
Proof.
  intros Hnew d.
  induction d as [id name sz chunks src|id name sz chunks ms src IH]
    using StatModule_nested_ind; intros fileName Hd;
    rewrite stat_srcs_unfold in Hd; cbn [m_parsedSrc m_modules] in Hd;
    apply andb_true_iff in Hd; destruct Hd as [Hsrc Hms].
  - cbn [newModule tree_all m_parsedSrc]. exact Hsrc.
  - rewrite newModule_nested, tree_all_unfold.
    cbn [is_folder node_opts own_src node_gzip_cache node_children m_parsedSrc].
    rewrite Hsrc. cbn [andb].
    assert (Hfill : forall ch,
               children_all ok ch = true ->
               children_all ok (fillModules gmp opts ms ch) = true).
    { clear Hsrc. induction IH as [|m tl Hm _ IHl]; intros ch Hch;
        [exact Hch|].
      cbn [forallb] in Hms. apply andb_true_iff in Hms.
      destruct Hms as [Hm' Htl]. cbn [fillModules].
      destruct (gmp m) as [parts|]; [|now apply IHl].
      apply IHl; [exact Htl|].
      apply insertModule_all; [exact Hnew | now apply Hm | exact Hch]. }
    now apply Hfill.
Qed.

Lemma fold_addModule_all (ok : NodeTest) gmp (modules : list StatModule) :
  ok true None None None = true ->
  forallb (stat_srcs (fun src => ok false None src None)) modules = true ->
  forall ch,
    children_all ok ch = true ->
    exists ch',
      fold_left (addModule gmp) modules (Folder "." None None ch)
      = Folder "." None None ch'
      /\ children_all ok ch' = true.
Proof.
  intros Hnew. induction modules as [|m tl IH]; intros Hms ch Hch.
  - exists ch. split; [reflexivity | exact Hch].
  - cbn [forallb] in Hms. apply andb_true_iff in Hms. destruct Hms as [Hm Htl].
    cbn [fold_left addModule]. destruct (gmp m) as [parts|].
    + apply IH; [exact Htl|].
      apply insertModule_all; [exact Hnew | | exact Hch].
      now apply newModule_all.
    + now apply IH.
Qed.

Lemma mergeNested_all (ok : NodeTest) (n : Node) :
  tree_all ok n = true -> tree_all ok (mergeNested n) = true.
Proof.
  induction n as [name o g ch IH|name d o g|name d o g ch IH]
    using Node_children_ind; intros H.
  - rewrite tree_all_unfold in H.
    cbn [is_folder node_opts own_src node_gzip_cache node_children] in H.
    apply andb_true_iff in H. destruct H as [Hok Hch].
    assert (Heach : children_all ok
                      ((fix each (l : list (string * Node))
                          : list (string * Node) :=
                          match l with
                          | [] => []
                          | (k, c) :: tl => (k, mergeNested c) :: each tl
                          end) ch) = true).
    { clear Hok. induction IH as [|[k c] tl Hc _ IHl]; [reflexivity|].
      cbn [children_all forallb snd] in Hch. apply andb_true_iff in Hch.
      destruct Hch as [Hc' Htl]. cbn [children_all forallb snd].
      simpl in Hc. rewrite (Hc Hc'). apply IHl. exact Htl. }
    destruct ch as [|[k only] [|kc2 tl]].
    + cbn [mergeNested]. rewrite tree_all_unfold.
      cbn [is_folder node_opts own_src node_gzip_cache node_children].
      now rewrite Hok.
    + inversion IH as [|? ? Honly _]; subst. simpl in Honly.
      cbn [children_all forallb snd] in Hch. rewrite andb_true_r in Hch.
      specialize (Honly Hch).
      destruct only as [n1 o1 g1 c1|n1 d1 o1 g1|n1 d1 o1 g1 c1].
      * change (mergeNested (Folder name o g [(k, Folder n1 o1 g1 c1)]))
          with (match mergeNested (Folder n1 o1 g1 c1) with
                | Folder name' _ _ ch' =>
                    Folder (name ++ "/" ++ name')%string o g ch'
                | other => Folder name o g [(k, other)]
                end).
        destruct (mergeNested (Folder n1 o1 g1 c1))
          as [n2 o2 g2 c2|n2 d2 o2 g2|n2 d2 o2 g2 c2];
          rewrite tree_all_unfold;
          cbn [is_folder node_opts own_src node_gzip_cache node_children];
          rewrite Hok; cbn [andb].
        -- rewrite tree_all_unfold in Honly.
           cbn [is_folder node_opts own_src node_gzip_cache node_children]
             in Honly.
           apply andb_true_iff in Honly. now destruct Honly.
        -- cbn [children_all forallb snd]. now rewrite Honly.
        -- cbn [children_all forallb snd]. now rewrite Honly.
      * cbn [mergeNested]. rewrite tree_all_unfold.
        cbn [is_folder node_opts own_src node_gzip_cache node_children].
        rewrite Hok. exact Heach.
      * cbn [mergeNested]. rewrite tree_all_unfold.
        cbn [is_folder node_opts own_src node_gzip_cache node_children].
        rewrite Hok. exact Heach.
    + destruct only; cbn [mergeNested]; rewrite tree_all_unfold;
        cbn [is_folder node_opts own_src node_gzip_cache node_children];
        rewrite Hok; exact Heach.
  - exact H.
  - rewrite tree_all_unfold in H.
    cbn [is_folder node_opts own_src node_gzip_cache node_children] in H.
    apply andb_true_iff in H. destruct H as [Hok Hch].
    cbn [mergeNested]. rewrite tree_all_unfold.
    cbn [is_folder node_opts own_src node_gzip_cache node_children].
    rewrite Hok. cbn [andb]. clear Hok.
    induction IH as [|[k c] tl Hc _ IHl]; [reflexivity|].
    cbn [children_all forallb snd] in Hch. apply andb_true_iff in Hch.
    destruct Hch as [Hc' Htl]. cbn [children_all forallb snd].
    simpl in Hc. rewrite (Hc Hc'). apply IHl. exact Htl.
Qed.

(** The tree [createModulesTree] makes passes every test that its root,
    its new folders and the leaves of its modules pass. *)
Lemma createModulesTree_all (ok : NodeTest) gmp (modules : list StatModule) :
  ok true None None None = true ->
  forallb (stat_srcs (fun src => ok false None src None)) modules = true ->
  tree_all ok (createModulesTree gmp modules) = true.
Proof.
  intros Hnew Hms. unfold createModulesTree.
  destruct (fold_addModule_all ok gmp modules Hnew Hms [] eq_refl)
    as [ch [-> Hch]].
  cbn [mergeNestedFolders]. rewrite tree_all_unfold.
  cbn [is_folder node_opts own_src node_gzip_cache node_children].
  rewrite Hnew. cbn [andb]. unfold children_all.
  clear -Hch. induction ch as [|[k c] tl IH]; [reflexivity|].
  cbn [children_all forallb snd] in Hch. apply andb_true_iff in Hch.
  destruct Hch as [Hc Htl]. cbn [map forallb snd fst].
  rewrite (mergeNested_all ok c Hc). now apply IH.
Qed.

Lemma subnodes_unfold (n : Node) :
  subnodes n = n :: subnodes_all (node_children n).
Proof.
  destruct n as [name o g ch|name d o g|name d o g ch];
    cbn [subnodes node_children subnodes_all flat_map]; try reflexivity;
    f_equal; induction ch as [|[k c] tl IH]; try reflexivity;
    cbn [flat_map snd]; now rewrite IH.
Qed.

Lemma tree_all_subnodes (ok : NodeTest) (t : Node) :
  tree_all ok t = true ->
  forall n,
    In n (subnodes t) ->
    ok (is_folder n) (node_opts n) (own_src n) (node_gzip_cache n) = true.
Proof.
  induction t as [name o g ch IH|name d o g|name d o g ch IH]
    using Node_children_ind; intros H n Hin;
    rewrite tree_all_unfold in H; apply andb_true_iff in H;
    destruct H as [Hok Hch]; rewrite subnodes_unfold in Hin;
    destruct Hin as [<-|Hin]; try exact Hok;
    cbn [node_children] in Hin, Hch; try (now destruct Hin);
    unfold subnodes_all in Hin; apply in_flat_map in Hin;
    destruct Hin as [kc [Hkc Hn]];
    rewrite Forall_forall in IH; apply (IH kc Hkc); try exact Hn;
    unfold children_all in Hch; rewrite forallb_forall in Hch;
    now apply Hch.
Qed.

Lemma stat_srcs_true (m : StatModule) : stat_srcs (fun _ => true) m = true.
Proof.
  induction m as [id name sz chunks src|id name sz chunks ms src IH]
    using StatModule_nested_ind; rewrite stat_srcs_unfold;
    cbn [m_parsedSrc m_modules andb]; [reflexivity|].
  apply forallb_forall. now apply Forall_forall.
Qed.

(** X12: in the tree that [createModulesTree] makes, whatever the modules
    are, no folder has options and no folder has a compressed size
    cached: the root is made without options and every folder created on
    the way inherits them. *)
Theorem X12_no_folder_has_options :
  forall gmp (modules : list StatModule) (n : Node),
    In n (subnodes (createModulesTree gmp modules)) ->
    is_folder n = true ->
    node_opts n = None /\ node_gzip_cache n = None.
Proof.
  intros gmp modules n Hin Hf.
  assert (Hall : tree_all fresh_folder (createModulesTree gmp modules) = true).
  { apply createModulesTree_all; [reflexivity|].
    apply forallb_forall. intros m _. apply stat_srcs_true. }
  pose proof (tree_all_subnodes fresh_folder _ Hall n Hin) as Hn.
  unfold fresh_folder in Hn. rewrite Hf in Hn. cbn [negb orb] in Hn.
  destruct (node_opts n); [discriminate|].
  destruct (node_gzip_cache n); [discriminate|]. split; reflexivity.
Qed.

(** X12, worked example: the folder [src] of the sample tree. *)
Lemma X12_no_folder_has_options_witness :
  exists n,
    In n (subnodes c10_tree)
    /\ node_name n = "src"%string
    /\ node_opts n = None /\ node_gzip_cache n = None.
Proof.
  assert (Hin : In (Folder "src" None None
                      [("a.js"%string,
                        Module "a.js" (plain_module 1 "./src/a.js" 50 [IdNum 0])
                          None None);
                       ("lib"%string,
                        Folder "lib" None None
                          [("b.js"%string,
                            Module "b.js"
                              (plain_module 2 "./src/lib/b.js" 91 [IdNum 0])
                              None None)])])
                   (subnodes c10_tree)).
  { vm_compute. right. left. reflexivity. }
  eexists. split; [exact Hin|]. split; [reflexivity|].
  exact (X12_no_folder_has_options sample_pathParts _ _ Hin eq_refl).
Defined.

(** ** Where a module is inserted *)

Lemma insertModule_walk (opts : option Opts) (module : Node)
    (folders : list string) :
  forall ch,
    insertModule opts folders module ch
    = walkFolders (addChildModule module) opts folders ch.
Proof.
  induction folders as [|f rest IH]; intros ch; [reflexivity|].
  cbn [insertModule walkFolders].
  destruct (getChild f ch) as [[name o g sub| |]|]; now rewrite IH.
Qed.

Lemma reached_nil (folders : list string) : reached folders [] = [].
Proof. destruct folders; reflexivity. Qed.

Lemma walkFolders_reaches (add : list (string * Node) -> list (string * Node))
    (opts : option Opts) (folders : list string) :
  forall ch,
    descend folders (walkFolders add opts folders ch)
    = Some (add (reached folders ch)).
Proof.
  induction folders as [|f rest IH]; intros ch; [reflexivity|].
  cbn [walkFolders descend]. unfold reached. cbn [descend].
  destruct (getChild f ch) as [[name o g sub| |]|] eqn:E;
    unfold addChildFolder, setChild, getChild; cbn [node_name];
    rewrite obj_get_set_same, IH; unfold getChild in E;
    try (fold (reached rest sub); reflexivity);
    now rewrite reached_nil.
Qed.

Lemma walkFolders_beside (add : list (string * Node) -> list (string * Node))
    (opts : option Opts) (f : string) (rest : list string)
    (ch : list (string * Node)) (k : string) :
  k <> f ->
  getChild k (walkFolders add opts (f :: rest) ch) = getChild k ch.
Proof.
  intros Hk. cbn [walkFolders].
  destruct (getChild f ch) as [[name o g sub| |]|];
    unfold addChildFolder, setChild, getChild; cbn [node_name];
    now apply obj_get_set_other.
Qed.

(** X13: [addModule] hands the leaf it makes of a module to
    [addChildModule] of exactly the folder that the folder segments of the
    path name.  Whatever [addChildModule] does with the children of a
    folder, after the walk the folder segments lead to what it made of the
    children of the folder they led to before, or of no children when that
    folder was not there; and beside the first segment, every name among
    the children of the folder [addModule] was called on is bound as
    before. *)
Theorem X13_leaf_goes_to_the_folder_of_its_path :
  forall gmp (moduleData : StatModule) (name : string) (opts : option Opts)
         (g : option Z) (ch : list (string * Node))
         (pathParts : list string),
    gmp moduleData = Some pathParts ->
    let module := newModule gmp opts (fileName_of pathParts) moduleData in
    let folders := folders_of pathParts in
    addModule gmp (Folder name opts g ch) moduleData
    = Folder name opts g (walkFolders (addChildModule module) opts folders ch)
    /\ forall add : list (string * Node) -> list (string * Node),
         descend folders (walkFolders add opts folders ch)
         = Some (add (reached folders ch))
         /\ forall f rest k,
              folders = f :: rest -> k <> f ->
              getChild k (walkFolders add opts folders ch) = getChild k ch.
Proof.
  intros gmp moduleData name opts g ch pathParts Hparts module folders.
  split.
  - unfold addModule. rewrite Hparts. fold module folders.
    now rewrite insertModule_walk.
  - intros add. split; [apply walkFolders_reaches|].
    intros f rest k -> Hk. now apply walkFolders_beside.
Qed.

(** X13, worked example: [./lib/c.js] is inserted into the folder that
    holds the leaf [src]; the folder [lib] is not there yet, so the leaf
    is handed to a folder without children, and [src] is bound as
    before. *)
Lemma X13_leaf_goes_to_the_folder_of_its_path_witness :
  exists ch',
    addModule sample_pathParts c7_root x_module = Folder "." None None ch'
    /\ descend ["lib"%string] ch'
       = Some (addChildModule (Module "c.js" x_module None None) [])
    /\ getChild "src" ch' = Some (Module "src" c7_first None None).
Proof.
  destruct (X13_leaf_goes_to_the_folder_of_its_path sample_pathParts x_module
              "." None None [("src"%string, Module "src" c7_first None None)]
              ["lib"; "c.js"]%string eq_refl)
    as [Hadd Hwalk].
  destruct (Hwalk (addChildModule (Module "c.js" x_module None None)))
    as [Hdesc Hbeside].
  eexists. split; [exact Hadd|]. split; [exact Hdesc|].
  exact (Hbeside "lib"%string [] "src"%string eq_refl
           ltac:(discriminate)).
Defined.

(** ** Modules without a path *)

Lemma fold_addModule_pathless gmp (modules : list StatModule) :
  forall root,
    fold_left (addModule gmp) modules root
    = fold_left (addModule gmp) (filter (has_path gmp) modules) root.
Proof.
  induction modules as [|m tl IH]; intros root; [reflexivity|].
  cbn [fold_left filter].
  destruct (has_path gmp m) eqn:Hp.
  - cbn [fold_left]. apply IH.
  - rewrite <- IH. f_equal. unfold has_path in Hp. unfold addModule.
    destruct (gmp m); [discriminate | now destruct root].
Qed.

(** X14: modules for which the path helper has no parts leave no trace:
    the tree of a list of modules is the tree of those among them that
    have path parts, and it is the empty root when none has. *)
Theorem X14_modules_without_path_are_skipped :
  forall gmp (modules : list StatModule),
    createModulesTree gmp modules
    = createModulesTree gmp (filter (has_path gmp) modules)
    /\ (forallb (fun m => negb (has_path gmp m)) modules = true ->
        createModulesTree gmp modules = Folder "." None None []).
Proof.
  intros gmp modules. split.
  - unfold createModulesTree. now rewrite fold_addModule_pathless.
  - intros Hnone. unfold createModulesTree.
    rewrite fold_addModule_pathless.
    replace (filter (has_path gmp) modules) with (@nil StatModule);
      [reflexivity|].
    induction modules as [|m tl IH]; [reflexivity|].
    cbn [forallb] in Hnone. apply andb_true_iff in Hnone.
    destruct Hnone as [Hm Htl]. cbn [filter].
    apply negb_true_iff in Hm. rewrite Hm. now apply IH.
Qed.

(** ** An analysis that cannot fail *)

Lemma Subseq_In {A : Type} (l1 l2 : list A) (x : A) :
  Subseq l1 l2 -> In x l1 -> In x l2.
Proof.
  induction 1 as [|y l1 l2 _ IH|y l1 l2 _ IH]; simpl; auto.
  intros [->|H]; auto.
Qed.

Lemma getBundleModules_In (b : Stats) (m : StatModule) :
  In m (getBundleModules b) -> In m (spec_pool b).
Proof.
  unfold getBundleModules. rewrite flatten_pool. unfold uniqBy_id.
  apply Subseq_In. apply uniqBy_Subseq.
Qed.

Lemma stat_srcs_ext (Q Q' : option string -> bool) (m : StatModule) :
  (forall s, Q s = Q' s) -> stat_srcs Q m = stat_srcs Q' m.
Proof.
  intros HQ.
  induction m as [id name sz chunks src|id name sz chunks ms src IH]
    using StatModule_nested_ind; rewrite !stat_srcs_unfold;
    cbn [m_parsedSrc m_modules]; rewrite HQ; [reflexivity|].
  f_equal. induction IH as [|x tl Hx _ IHl]; [reflexivity|].
  cbn [forallb]. now rewrite Hx, IHl.
Qed.

Lemma createModulesTree_sourceless gmp (modules : list StatModule) :
  forallb stat_sourceless modules = true ->
  sourceless (createModulesTree gmp modules) = true.
Proof.
  intros H. rewrite sourceless_tree_all.
  apply createModulesTree_all; [reflexivity|].
  rewrite forallb_forall in *. intros m Hm. specialize (H m Hm).
  unfold stat_sourceless in H. rewrite <- H. apply stat_srcs_ext.
  intros s. unfold quiet_node. cbn [cache_clear]. apply andb_true_r.
Qed.

Lemma assetModules_sourceless (working : Stats) (a : Asset) :
  stats_sourceless working = true ->
  forallb stat_sourceless (assetModules working None a) = true.
Proof.
  intros H. unfold stats_sourceless in H. apply andb_true_iff in H.
  destruct H as [Hown Hchildren].
  apply forallb_forall. intros m Hm. unfold assetModules in Hm.
  apply in_map_iff in Hm. destruct Hm as [m' [<- Hm']]. cbn [attachSrc].
  unfold pickModules in Hm'. apply filter_In in Hm'. destruct Hm' as [Hm' _].
  unfold assetPool in Hm'. destruct (a_isChild a).
  - destruct (getChildAssetBundles working (a_name a)) as [c|] eqn:Ec;
      [|destruct Hm'].
    unfold getChildAssetBundles in Ec.
    destruct (s_children working) as [cs|]; [|discriminate].
    apply find_some in Ec. destruct Ec as [Hc _].
    rewrite forallb_forall in Hchildren. specialize (Hchildren c Hc).
    rewrite forallb_forall in Hchildren. apply Hchildren.
    now apply getBundleModules_In.
  - rewrite forallb_forall in Hown. apply Hown. now apply getBundleModules_In.
Qed.

Lemma projectAsset_quiet (filename : string) (asset : AssetEntry)
    (calls : Calls) :
  sourceless (e_tree asset) = true ->
  exists r, projectAsset filename asset calls = (Ok r, calls).
Proof.
  intros Hs. destruct (sourceless_parts _ Hs) as [_ [_ Hall]].
  destruct (invokeMap_quiet (node_name (e_tree asset))
              (node_children (e_tree asset))
              (proj2 (Forall_forall _ _) (fun kc _ => toChartData_quiet (snd kc)))
              Hall calls) as [groups [ch' E]].
  unfold projectAsset, bind. rewrite E. eexists. reflexivity.
Qed.

Lemma projectAssets_quiet (assets : list (string * AssetEntry)) :
  Forall (fun fe => sourceless (e_tree (snd fe)) = true) assets ->
  forall calls,
    exists records,
      projectAssets assets calls = (Ok records, calls)
      /\ List.length records = List.length assets.
Proof.
  induction 1 as [|[filename asset] tl Hfe _ IH]; intros calls.
  - exists []. split; reflexivity.
  - destruct (projectAsset_quiet filename asset calls Hfe) as [r Hr].
    destruct (IH calls) as [rs [Hrs Hlen]].
    exists (r :: rs). cbn [projectAssets]. unfold bind. rewrite Hr, Hrs.
    split; [reflexivity | simpl; now rewrite Hlen].
Qed.

Lemma collectAssets_sourceless gmp bl gz (working : Stats) :
  stats_sourceless working = true ->
  Forall (fun fe : string * AssetEntry => sourceless (e_tree (snd fe)) = true)
    (collectAssets gmp bl gz working None).
Proof.
  intros Hs. unfold collectAssets.
  generalize (@nil (string * AssetEntry))
    (Forall_nil (fun fe : string * AssetEntry =>
                   sourceless (e_tree (snd fe)) = true)).
  induction (s_assets working) as [|a tl IH]; intros acc Hacc; simpl.
  - exact Hacc.
  - apply IH. apply obj_set_Forall; [|exact Hacc].
    intros k. cbn [snd assetEntry e_tree].
    apply createModulesTree_sourceless. now apply assetModules_sourceless.
Qed.

(** X15: when the stats object, once its children are sorted out, and
    its children carry no source text in any module, and no bundle is
    parsed (no bundle directory, or every bundle fails to parse), the
    analysis returns chart data: it does not throw, it does not call a
    compression function, and it yields one record for every distinct
    name among the retained assets. *)
Theorem X15_analysis_of_plain_stats_succeeds :
  forall gmp (Pattern : Type) ptest parse bl gz
         (bundleStats : Stats) (dir : option string) (pats : list Pattern)
         (working : Stats) (calls : Calls),
    normalizeStats Pattern ptest bundleStats pats = Ok working ->
    stats_sourceless working = true ->
    parseBundles parse dir (s_assets working) = None ->
    exists records,
      getViewerData gmp Pattern ptest parse bl gz bundleStats dir pats calls
      = (Ok records, calls)
      /\ List.length records
         = List.length (uniq_names (map a_name (s_assets working))).
Proof.
  intros gmp Pattern ptest parse bl gz bundleStats dir pats working calls
         Hn Hs Hp.
  unfold getViewerData. rewrite Hn, Hp.
  destruct (projectAssets_quiet _ (collectAssets_sourceless gmp bl gz working Hs)
              calls) as [records [Hrun Hlen]].
  exists records. split; [exact Hrun|].
  rewrite Hlen, <- (collectAssets_keys gmp bl gz working None).
  now rewrite length_map.
Qed.

(** X15, worked example: the sample build without a bundle directory. *)
Lemma X15_analysis_of_plain_stats_succeeds_witness :
  exists records,
    sample_getViewerData sample_stats None [] ["earlier"%string]
    = (Ok records, ["earlier"%string])
    /\ List.length records = 1%nat.
Proof.
  apply (X15_analysis_of_plain_stats_succeeds sample_pathParts string
           is_substring sample_parseBundle sample_byteLength sample_gzipSync
           sample_stats None [] sample_stats ["earlier"%string]);
    reflexivity.
Defined.

(** ** Modules and the chunks of an asset *)

Lemma Subseq_filter_impl {A : Type} (f f' : A -> bool) (l : list A) :
  (forall x, f x = true -> f' x = true) ->
  Subseq (filter f l) (filter f' l).
Proof.
  intros Himp. induction l as [|x l IH]; simpl; [constructor|].
  destruct (f x) eqn:E.
  - rewrite (Himp x E). now constructor.
  - destruct (f' x); [now constructor | exact IH].
Qed.

(** X16: which modules are picked for an asset depends on its chunk ids
    as a set only: an asset that lists every chunk of another one is
    matched with at least the modules of that one, in the same order, and
    two assets that list the same chunks, in any order or number, are
    matched with the same modules.  An asset without chunks, and a module
    without chunks, are never matched. *)
Theorem X16_modules_grow_with_chunks :
  forall (a a' : Asset) (modules : list StatModule),
    ((forall c, In c (a_chunks a) -> In c (a_chunks a')) ->
     Subseq (pickModules a modules) (pickModules a' modules))
    /\ ((forall c, In c (a_chunks a) <-> In c (a_chunks a')) ->
        pickModules a modules = pickModules a' modules)
    /\ (a_chunks a = [] -> pickModules a modules = [])
    /\ (forall m, m_chunks m = [] -> assetHasModule a m = false).
Proof.
  intros a a' modules. split; [|split; [|split]].
  - intros Hincl. unfold pickModules. apply Subseq_filter_impl.
    intros m Hm. apply assetHasModule_spec in Hm. apply assetHasModule_spec.
    destruct Hm as [c [Hc Ha]]. exists c. auto.
  - intros Hsame. unfold pickModules. apply filter_ext. intros m.
    destruct (assetHasModule a m) eqn:E.
    + symmetry. apply assetHasModule_spec in E. apply assetHasModule_spec.
      destruct E as [c [Hc Ha]]. exists c. split; [exact Hc | now apply Hsame].
    + destruct (assetHasModule a' m) eqn:E'; [|reflexivity].
      apply assetHasModule_spec in E'. destruct E' as [c [Hc Ha]].
      assert (assetHasModule a m = true); [|congruence].
      apply assetHasModule_spec. exists c. split; [exact Hc | now apply Hsame].
  - intros Hnone. unfold pickModules.
    induction modules as [|m tl IH]; [reflexivity|]. cbn [filter].
    destruct (assetHasModule a m) eqn:E; [|exact IH].
    apply assetHasModule_spec in E. destruct E as [c [_ Ha]].
    rewrite Hnone in Ha. destruct Ha.
  - intros m Hm. unfold assetHasModule. now rewrite Hm.
Qed.

(** ** The filter of the assets, for any test of the names *)

(** X17: whatever test of the names [createAssetsFilter] hands to the
    filter, an asset is retained exactly when it is an asset of the list
    with its name cut at the query part and nothing else changed, the
    stripped name ends, the case of the letters apart, in one of [.js],
    [.mjs], [.gz] and [.br], its list of chunks is not empty and the test
    accepts the stripped name; the retained assets keep the order of the
    list. *)
Theorem X17_filter_for_any_test_of_names :
  forall (included : string -> bool) (assets : list Asset),
    (forall a,
        In a (filterAssets included assets) <->
        exists a0,
          In a0 assets
          /\ Renamed a0 a
          /\ (exists ext,
                 In ext [".js"; ".mjs"; ".gz"; ".br"]%string
                 /\ EndsIgnoringCase ext (a_name a))
          /\ a_chunks a <> []
          /\ included (a_name a) = true)
    /\ (exists kept,
           Subseq kept assets
           /\ Forall2 Renamed kept (filterAssets included assets)).
Proof.
  intros included assets. split.
  - intros a. apply filterAssets_retained.
  - apply filterAssets_order.
Qed.
